(** * AMD-Net EFFU backbone (src/amdnet_effu.py): construction and wiring

    A shallow embedding of the two classes of [amdnet_effu.py]:
    [BasicConvBlock] and [AMDNet_EFFU].  Python integers are [Z], Python
    sequences are lists, loosely typed arguments ([pretrained], [init_cfg],
    [dcn], [plugins], the entries of [downsamples]) are values of [pyval]
    with Python's truth test.  Code that can raise runs in a small
    writer-and-error monad: the log holds the warnings of a constructor or
    the sub-modules a forward pass has called, the result is an exception or
    a value.  The constructors of the layers are an interface ([Library]):
    a library may refuse to build a layer.  The tensor library is an
    interface too ([Backend]); its instance on shapes follows the
    output-shape rules and the argument checks of the PyTorch operators,
    with the batch normalisations in training or in evaluation mode. *)

From Stdlib Require Import ZArith List String Bool Lia.
Import ListNotations.
Local Open Scope Z_scope.

(** ** Python values *)

#[warnings="-register-all"]
Inductive pyval : Type :=
| PyNone
| PyBool (b : bool)
| PyInt (z : Z)
| PyStr (s : string)
| PyList (l : list pyval)
| PyDict (d : list (string * pyval)).

(** [bool(v)] *)
Definition truthy (v : pyval) : bool :=
  match v with
  | PyNone => false
  | PyBool b => b
  | PyInt z => negb (z =? 0)
  | PyStr s => negb (String.eqb s EmptyString)
  | PyList l => match l with [] => false | _ :: _ => true end
  | PyDict d => match d with [] => false | _ :: _ => true end
  end.

(** [v is None] *)
Definition is_None (v : pyval) : bool :=
  match v with PyNone => true | _ => false end.

(** [isinstance(v, str)] *)
Definition isinstance_str (v : pyval) : bool :=
  match v with PyStr _ => true | _ => false end.

(** [range(n)] and [range(a, b)] for integers. *)
Definition range (n : Z) : list Z := map Z.of_nat (seq 0 (Z.to_nat n)).
Definition range_from (a b : Z) : list Z :=
  map (fun k => a + Z.of_nat k) (seq 0 (Z.to_nat (b - a))).

(** ** Exceptions and the monad *)

Inductive assert_msg : Type :=
| Msg_not_implemented
    (* 'Not implemented yet.' *)
| Msg_init_cfg_and_pretrained
    (* 'init_cfg and pretrained cannot be setting at the same time' *)
| Msg_length (seq_name expected : string) (value : pyval) (len num_stages : Z)
    (* 'The length of <seq_name> should be equal to <expected>, while the
       <seq_name> is <value>, the length of <seq_name> is <len>, and the
       num_stages is <num_stages>.' *)
| Msg_not_divisible (h w rate num_stages : Z)
                    (strides : list Z) (downsamples : list pyval).
    (* 'The input image size (h, w) should be divisible by the whole
       downsample rate <rate>, when num_stages is ..., strides is ..., and
       downsamples is ....' *)

Inductive exn : Type :=
| AssertionError (msg : assert_msg)
| TypeError (msg : string)
| IndexError (container : string) (index : Z)
| RuntimeError (msg : string)
| ValueError (msg : string).

(** A computation logs entries of type [L] and ends in an exception or a
    value. *)
Definition M (L A : Type) : Type := (list L * (exn + A))%type.

Definition ret {L A} (a : A) : M L A := ([], inr a).
Definition raise {L A} (e : exn) : M L A := ([], inl e).
Definition tell {L} (l : L) : M L unit := ([l], inr tt).
Definition lift {L A} (r : exn + A) : M L A := ([], r).

Definition bind {L A B} (m : M L A) (f : A -> M L B) : M L B :=
  match m with
  | (l, inl e) => (l, inl e)
  | (l, inr a) => let (l', r) := f a in (l ++ l', r)
  end.

Notation "x <- c ;; k" := (bind c (fun x => k))
  (at level 61, c at next level, right associativity).
Notation "c ;; k" := (bind c (fun _ => k))
  (at level 61, right associativity).

(** [assert b, msg] *)
Definition py_assert {L} (b : bool) (msg : assert_msg) : M L unit :=
  if b then ret tt else raise (AssertionError msg).

(** [l[i]] on a tuple, list or [nn.ModuleList], for an index [i >= 0]. *)
Definition getitem {L A} (name : string) (l : list A) (i : Z) : M L A :=
  match nth_error l (Z.to_nat i) with
  | Some a => ret a
  | None => raise (IndexError name i)
  end.

(** [mapM f l]: a loop that appends [f i] for each [i] of [l]. *)
Fixpoint mapM {L A B} (f : A -> M L B) (l : list A) : M L (list B) :=
  match l with
  | [] => ret []
  | a :: l' => b <- f a ;; bs <- mapM f l' ;; ret (b :: bs)
  end.

(** The log and the outcome of a run. *)
Definition log_of {L A} (m : M L A) : list L := fst m.
Definition outcome {L A} (m : M L A) : exn + A := snd m.

(** A run that ends in an exception. *)
Definition fails {L A} (m : M L A) : Prop := exists e, outcome m = inl e.

(** ** Layers *)

(** [norm_cfg]: the layer built by [build_norm_layer]; [BN] and [SyncBN]
    are instances of [_BatchNorm], [GN] and [LN] are not. *)
Inductive norm_type : Type := BN | SyncBN | GN | LN.
Inductive act_type : Type := ReLU | LeakyReLU | PReLU.

(** [mmcv.cnn.ConvModule]: a convolution followed by the optional
    normalisation and activation layers. *)
Record ConvModule : Type := mkConvModule {
  cm_in_channels : Z;
  cm_out_channels : Z;
  cm_kernel_size : Z;
  cm_stride : Z;
  cm_dilation : Z;
  cm_padding : Z;
  cm_conv_cfg : pyval;
  cm_norm_cfg : option norm_type;
  cm_act_cfg : option act_type
}.

(** The layer configuration shared by all blocks of a network. *)
Record LayerCfg : Type := mkLayerCfg {
  conv_cfg : pyval;
  norm_cfg : option norm_type;
  act_cfg : option act_type
}.

(** Modelled from the spec: [CBAMBlock] of [mmseg.models.utils], whose
    source is not part of the file.  The spec describes it as a
    channel-and-spatial attention gate that scales the features of its
    input; it is built for a channel count. *)
Record CBAMBlock : Type := mkCBAMBlock { cbam_channels : Z }.

(** ** The constructors of the layers

    [ConvModule(...)] and [CBAMBlock(...)] are calls into mmcv, mmseg and
    torch: they allocate the weights of the layer and can refuse their
    arguments with an exception (torch raises a [RuntimeError] on a
    negative channel count).  Which layers a library refuses, and with
    which exception, is left open; a layer that is built holds the
    attributes it was built with. *)
Class Library : Type := {
  ConvModule_refused : ConvModule -> option exn;
  CBAMBlock_refused : CBAMBlock -> option exn
}.

(** The call of a library constructor for the layer [a]. *)
Definition construct {L A} (refused : A -> option exn) (a : A) : M L A :=
  match refused a with
  | Some e => raise e
  | None => ret a
  end.

(** A library that refuses the layers with a negative channel count, with
    the error of torch's allocation of the weight, and builds the others. *)
#[export] Instance Torch_library : Library := {
  ConvModule_refused m :=
    if (cm_in_channels m <? 0) || (cm_out_channels m <? 0)
    then Some (RuntimeError "Trying to create tensor with negative dimension")
    else None;
  CBAMBlock_refused g :=
    if cbam_channels g <? 0
    then Some (RuntimeError "Trying to create tensor with negative dimension")
    else None
}.

(** ** BasicConvBlock *)

Record BasicConvBlock : Type := mkBasicConvBlock {
  bcb_with_cp : bool;
  bcb_convs : list ConvModule      (* the nn.Sequential of the convolutions *)
}.

(** [BasicConvBlock.__init__] *)
Definition BasicConvBlock_init {L} `{Library} (in_channels out_channels : Z)
    (num_convs stride dilation : Z) (with_cp : bool) (lc : LayerCfg)
    (dcn plugins : pyval) : M L BasicConvBlock :=
  py_assert (is_None dcn) Msg_not_implemented ;;
  py_assert (is_None plugins) Msg_not_implemented ;;
  convs <- mapM (fun i =>
                   construct ConvModule_refused
                     {| cm_in_channels := if i =? 0 then in_channels else out_channels;
                        cm_out_channels := out_channels;
                        cm_kernel_size := 3;
                        cm_stride := if i =? 0 then stride else 1;
                        cm_dilation := if i =? 0 then 1 else dilation;
                        cm_padding := if i =? 0 then 1 else dilation;
                        cm_conv_cfg := conv_cfg lc;
                        cm_norm_cfg := norm_cfg lc;
                        cm_act_cfg := act_cfg lc |})
                (range num_convs) ;;
  ret {| bcb_with_cp := with_cp; bcb_convs := convs |}.

(** ** The other layers of the network *)

(** [nn.MaxPool2d(kernel_size, stride, ceil_mode=...)] *)
Record MaxPool2d : Type := mkMaxPool2d {
  mp_kernel_size : Z;
  mp_stride : Z;
  mp_ceil_mode : bool
}.

Inductive interp_mode : Type := Nearest | Bilinear.

(** [nn.Upsample(scale_factor=..., mode=..., align_corners=...)] *)
Record Upsample : Type := mkUpsample {
  up_scale_factor : Z;
  up_mode : interp_mode;
  up_align_corners : bool
}.

(** ** The tensor library *)

Record Shape : Type := mkShape { sh_B : Z; sh_C : Z; sh_H : Z; sh_W : Z }.

(** What the network asks of tensors of type [T]: the shape, the gradient
    flag, the forward function of each layer, and [torch.cat(ts, dim=1)],
    which on a single tensor gives that tensor. *)
Class Backend (T : Type) : Type := {
  shape : T -> Shape;
  requires_grad : T -> bool;
  conv_module : ConvModule -> T -> exn + T;
  cbam_block : CBAMBlock -> T -> exn + T;
  max_pool2d : MaxPool2d -> T -> exn + T;
  upsample : Upsample -> T -> exn + T;
  torch_cat : list T -> exn + T;
  torch_cat_single : forall t, torch_cat [t] = inr t
}.

(** [nn.Sequential.forward]: the layers in order. *)
Fixpoint Sequential_forward {A T} (run : A -> T -> exn + T)
    (layers : list A) (x : T) : exn + T :=
  match layers with
  | [] => inr x
  | l :: layers' =>
      match run l x with
      | inl e => inl e
      | inr y => Sequential_forward run layers' y
      end
  end.

(** [torch.utils.checkpoint.checkpoint(f, x)]: the value of [f(x)]; the
    activations are recomputed in the backward pass. *)
Definition checkpoint {T} (f : T -> exn + T) (x : T) : exn + T := f x.

(** [BasicConvBlock.forward] *)
Definition BasicConvBlock_forward {T} `{Backend T}
    (self : BasicConvBlock) (x : T) : exn + T :=
  if bcb_with_cp self && requires_grad x
  then checkpoint (Sequential_forward conv_module (bcb_convs self)) x
  else Sequential_forward conv_module (bcb_convs self) x.

(** ** AMDNet_EFFU *)

(** The arguments of [AMDNet_EFFU.__init__]. *)
Record Config : Type := mkConfig {
  c_in_channels : Z;
  c_base_channels : Z;
  c_num_stages : Z;
  c_strides : list Z;
  c_enc_num_convs : list Z;
  c_dec_num_convs : list Z;
  c_downsamples : list pyval;
  c_enc_dilations : list Z;
  c_dec_dilations : list Z;
  c_with_cp : bool;
  c_layer_cfg : LayerCfg;          (* conv_cfg, norm_cfg, act_cfg *)
  c_upsample_cfg : pyval;
  c_norm_eval : bool;
  c_dcn : pyval;
  c_plugins : pyval;
  c_pretrained : pyval;
  c_init_cfg : pyval
}.

(** The attributes of a constructed [AMDNet_EFFU]. *)
Record AMDNet_EFFU : Type := mkAMDNet_EFFU {
  pretrained : pyval;
  init_cfg : pyval;
  num_stages : Z;
  strides : list Z;
  downsamples : list pyval;
  norm_eval : bool;
  base_channels : Z;
  pool_16 : MaxPool2d;
  pool_8 : MaxPool2d;
  pool_4 : MaxPool2d;
  pool_2 : MaxPool2d;
  up_2 : Upsample;
  up_4 : Upsample;
  up_8 : Upsample;
  up_16 : Upsample;
  effu_cbam : list CBAMBlock;
  effu_c1 : list (list ConvModule);        (* ModuleList of Sequential *)
  effu_c2 : list (list BasicConvBlock);    (* ModuleList of Sequential *)
  decoder : list BasicConvBlock
}.

Inductive warning : Type :=
| Warn_pretrained_deprecated.
    (* 'DeprecationWarning: pretrained is a deprecated, please use
       init_cfg instead' *)

(** [len(l)] *)
Definition len {A} (l : list A) : Z := Z.of_nat (List.length l).

(** [np.sum(a[:i])] *)
Definition np_sum_prefix (a : list Z) (i : Z) : Z :=
  fold_right Z.add 0 (firstn (Z.to_nat i) a).

(** The default [init_cfg]: Kaiming for the convolutions, constant 1 for
    the normalisation layers. *)
Definition default_init_cfg : pyval :=
  PyList
    [ PyDict [("type"%string, PyStr "Kaiming"); ("layer"%string, PyStr "Conv2d")];
      PyDict [("type"%string, PyStr "Constant"); ("val"%string, PyInt 1);
              ("layer"%string, PyList [PyStr "_BatchNorm"; PyStr "GroupNorm"])] ].

(** The handling of [pretrained] and [init_cfg]: the value of
    [self.init_cfg] afterwards. *)
Definition init_cfg_of (c : Config) : M warning pyval :=
  py_assert (negb (truthy (c_init_cfg c) && truthy (c_pretrained c)))
            Msg_init_cfg_and_pretrained ;;
  if isinstance_str (c_pretrained c) then
    tell Warn_pretrained_deprecated ;;
    ret (PyDict [("type"%string, PyStr "Pretrained");
                 ("checkpoint"%string, c_pretrained c)])
  else if is_None (c_pretrained c) then
    if is_None (c_init_cfg c) then ret default_init_cfg
    else ret (c_init_cfg c)
  else raise (TypeError "pretrained must be a str or None").

(** The assertions on [dcn], [plugins] and the six sequence lengths. *)
Definition check_lengths (c : Config) : M warning unit :=
  let n := c_num_stages c in
  let ints (l : list Z) := PyList (map PyInt l) in
  py_assert (is_None (c_dcn c)) Msg_not_implemented ;;
  py_assert (is_None (c_plugins c)) Msg_not_implemented ;;
  py_assert (len (c_strides c) =? n)
    (Msg_length "strides" "num_stages" (ints (c_strides c))
                (len (c_strides c)) n) ;;
  py_assert (len (c_enc_num_convs c) =? n)
    (Msg_length "enc_num_convs" "num_stages" (ints (c_enc_num_convs c))
                (len (c_enc_num_convs c)) n) ;;
  py_assert (len (c_dec_num_convs c) =? n - 1)
    (Msg_length "dec_num_convs" "(num_stages-1)" (ints (c_dec_num_convs c))
                (len (c_dec_num_convs c)) n) ;;
  py_assert (len (c_downsamples c) =? n - 1)
    (Msg_length "downsamples" "(num_stages-1)" (PyList (c_downsamples c))
                (len (c_downsamples c)) n) ;;
  py_assert (len (c_enc_dilations c) =? n)
    (Msg_length "enc_dilations" "num_stages" (ints (c_enc_dilations c))
                (len (c_enc_dilations c)) n) ;;
  py_assert (len (c_dec_dilations c) =? n - 1)
    (Msg_length "dec_dilations" "(num_stages-1)" (ints (c_dec_dilations c))
                (len (c_dec_dilations c)) n).

(** [enc_channels]: [base_channels * 2**i] for each stage.  The list
    becomes a numpy array of 64-bit integers; the widths of a network are
    taken to fit, and the sums and entries are integers of [Z]. *)
Definition enc_channels_of (c : Config) : list Z :=
  map (fun i => c_base_channels c * 2 ^ i) (range (c_num_stages c)).

(** The loop that fills [self.effu_c2]; [in_channels] is the variable the
    loop overwrites at the end of each round. *)
Fixpoint effu_c2_loop `{Library} (c : Config) (stages : list Z)
    (in_channels : Z) : M warning (list (list BasicConvBlock)) :=
  match stages with
  | [] => ret []
  | i :: stages' =>
      nc <- getitem "enc_num_convs" (c_enc_num_convs c) i ;;
      st <- getitem "strides" (c_strides c) i ;;
      dl <- getitem "enc_dilations" (c_enc_dilations c) i ;;
      blk <- BasicConvBlock_init in_channels (c_base_channels c * 2 ^ i)
               nc st dl (c_with_cp c) (c_layer_cfg c) PyNone PyNone ;;
      rest <- effu_c2_loop c stages' (c_base_channels c * 2 ^ i) ;;
      ret ([blk] :: rest)
  end.

(** The construction of the pools, the upsamplers and the four module
    lists. *)
Definition build_blocks `{Library} (c : Config) (icfg : pyval)
    : M warning AMDNet_EFFU :=
  let n := c_num_stages c in
  let lc := c_layer_cfg c in
  let enc_channels := enc_channels_of c in
  cbam <- mapM (fun i =>
                  construct CBAMBlock_refused
                    (mkCBAMBlock (np_sum_prefix enc_channels i)))
               (range_from 1 n) ;;
  c1 <- mapM (fun i =>
                out <- getitem "enc_channels" enc_channels (i - 1) ;;
                cm <- construct ConvModule_refused
                        {| cm_in_channels := np_sum_prefix enc_channels i;
                           cm_out_channels := out;
                           cm_kernel_size := 1;
                           cm_stride := 1;
                           cm_dilation := 1;
                           cm_padding := 0;
                           cm_conv_cfg := conv_cfg lc;
                           cm_norm_cfg := norm_cfg lc;
                           cm_act_cfg := act_cfg lc |} ;;
                ret [cm])
             (range_from 1 n) ;;
  c2 <- effu_c2_loop c (range n) (c_in_channels c) ;;
  dec <- mapM (fun i =>
                 lo <- getitem "enc_channels" enc_channels i ;;
                 hi <- getitem "enc_channels" enc_channels (i + 1) ;;
                 BasicConvBlock_init (lo + hi) lo 2 1 1 (c_with_cp c) lc
                                     PyNone PyNone)
              (range (n - 1)) ;;
  ret {| pretrained := c_pretrained c;
         init_cfg := icfg;
         num_stages := n;
         strides := c_strides c;
         downsamples := c_downsamples c;
         norm_eval := c_norm_eval c;
         base_channels := c_base_channels c;
         pool_16 := mkMaxPool2d 16 16 true;
         pool_8 := mkMaxPool2d 8 8 true;
         pool_4 := mkMaxPool2d 4 4 true;
         pool_2 := mkMaxPool2d 2 2 true;
         up_2 := mkUpsample 2 Bilinear true;
         up_4 := mkUpsample 4 Bilinear true;
         up_8 := mkUpsample 8 Bilinear true;
         up_16 := mkUpsample 16 Bilinear true;
         effu_cbam := cbam;
         effu_c1 := c1;
         effu_c2 := c2;
         decoder := dec |}.

(** [AMDNet_EFFU.__init__] *)
Definition AMDNet_EFFU_init `{Library} (c : Config) : M warning AMDNet_EFFU :=
  icfg <- init_cfg_of c ;;
  check_lengths c ;;
  build_blocks c icfg.

(** The defaults of the signature of [__init__], for given [in_channels]
    and [base_channels] (3 and 64 in the signature). *)
Definition default_config (in_channels base_channels : Z) : Config :=
  {| c_in_channels := in_channels;
     c_base_channels := base_channels;
     c_num_stages := 5;
     c_strides := [1; 1; 1; 1; 1];
     c_enc_num_convs := [2; 2; 2; 2; 2];
     c_dec_num_convs := [2; 2; 2; 2];
     c_downsamples := [PyBool true; PyBool true; PyBool true; PyBool true];
     c_enc_dilations := [1; 1; 1; 1; 1];
     c_dec_dilations := [1; 1; 1; 1];
     c_with_cp := false;
     c_layer_cfg := mkLayerCfg PyNone (Some BN) (Some ReLU);
     c_upsample_cfg := PyDict [("type"%string, PyStr "InterpConv")];
     c_norm_eval := false;
     c_dcn := PyNone;
     c_plugins := PyNone;
     c_pretrained := PyNone;
     c_init_cfg := PyNone |}.

(** ** The forward pass *)

(** The sub-modules of the network that a forward pass calls. *)
Inductive submodule : Type :=
| Effu_c2 (i : Z)
| Effu_c1 (i : Z)
| Effu_cbam (i : Z)
| Decoder (i : Z)
| Pool (k : Z)
| Up (k : Z).

(** The call of a sub-module: logged, then run. *)
Definition call {T} (m : submodule) (f : T -> exn + T) (x : T)
    : M submodule T :=
  tell m ;; lift (f x).

(** The loop of [_check_input_divisible]; [or] looks at
    [downsamples[i - 1]] only when [strides[i]] is not 2. *)
Fixpoint whole_downsample_rate_loop (self : AMDNet_EFFU) (stages : list Z)
    (rate : Z) : M submodule Z :=
  match stages with
  | [] => ret rate
  | i :: stages' =>
      s <- getitem "strides" (strides self) i ;;
      if s =? 2 then whole_downsample_rate_loop self stages' (rate * 2)
      else
        d <- getitem "downsamples" (downsamples self) (i - 1) ;;
        if truthy d then whole_downsample_rate_loop self stages' (rate * 2)
        else whole_downsample_rate_loop self stages' rate
  end.

Definition whole_downsample_rate (self : AMDNet_EFFU) : M submodule Z :=
  whole_downsample_rate_loop self (range_from 1 (num_stages self)) 1.

(** [AMDNet_EFFU._check_input_divisible] *)
Definition _check_input_divisible {T} `{Backend T}
    (self : AMDNet_EFFU) (x : T) : M submodule unit :=
  let h := sh_H (shape x) in
  let w := sh_W (shape x) in
  rate <- whole_downsample_rate self ;;
  py_assert ((h mod rate =? 0) && (w mod rate =? 0))
            (Msg_not_divisible h w rate (num_stages self)
                               (strides self) (downsamples self)).

(** The forward functions of the entries of the module lists. *)
Definition run_c2 {T} `{Backend T} (s : list BasicConvBlock) : T -> exn + T :=
  Sequential_forward BasicConvBlock_forward s.
Definition run_c1 {T} `{Backend T} (s : list ConvModule) : T -> exn + T :=
  Sequential_forward conv_module s.

(** The body of [AMDNet_EFFU.forward] after the check.  A call
    [f(g(a))] first evaluates [f], then [g], then [a]: the lookups in the
    module lists come before the calls of their argument. *)
Definition forward_body {T} `{Backend T} (self : AMDNet_EFFU) (x : T)
    : M submodule (list T) :=
  e0 <- getitem "effu_c2" (effu_c2 self) 0 ;;
  x0 <- call (Effu_c2 0) (run_c2 e0) x ;;

  e1 <- getitem "effu_c2" (effu_c2 self) 1 ;;
  f1 <- getitem "effu_c1" (effu_c1 self) 0 ;;
  g1 <- getitem "effu_cbam" (effu_cbam self) 0 ;;
  p10 <- call (Pool 2) (max_pool2d (pool_2 self)) x0 ;;
  a1 <- call (Effu_cbam 0) (cbam_block g1) p10 ;;
  b1 <- call (Effu_c1 0) (run_c1 f1) a1 ;;
  x1 <- call (Effu_c2 1) (run_c2 e1) b1 ;;

  e2 <- getitem "effu_c2" (effu_c2 self) 2 ;;
  f2 <- getitem "effu_c1" (effu_c1 self) 1 ;;
  g2 <- getitem "effu_cbam" (effu_cbam self) 1 ;;
  p20 <- call (Pool 4) (max_pool2d (pool_4 self)) x0 ;;
  p21 <- call (Pool 2) (max_pool2d (pool_2 self)) x1 ;;
  c2 <- lift (torch_cat [p20; p21]) ;;
  a2 <- call (Effu_cbam 1) (cbam_block g2) c2 ;;
  b2 <- call (Effu_c1 1) (run_c1 f2) a2 ;;
  x2 <- call (Effu_c2 2) (run_c2 e2) b2 ;;

  e3 <- getitem "effu_c2" (effu_c2 self) 3 ;;
  f3 <- getitem "effu_c1" (effu_c1 self) 2 ;;
  g3 <- getitem "effu_cbam" (effu_cbam self) 2 ;;
  p30 <- call (Pool 8) (max_pool2d (pool_8 self)) x0 ;;
  p31 <- call (Pool 4) (max_pool2d (pool_4 self)) x1 ;;
  p32 <- call (Pool 2) (max_pool2d (pool_2 self)) x2 ;;
  c3 <- lift (torch_cat [p30; p31; p32]) ;;
  a3 <- call (Effu_cbam 2) (cbam_block g3) c3 ;;
  b3 <- call (Effu_c1 2) (run_c1 f3) a3 ;;
  x3 <- call (Effu_c2 3) (run_c2 e3) b3 ;;

  e4 <- getitem "effu_c2" (effu_c2 self) 4 ;;
  f4 <- getitem "effu_c1" (effu_c1 self) 3 ;;
  g4 <- getitem "effu_cbam" (effu_cbam self) 3 ;;
  p40 <- call (Pool 16) (max_pool2d (pool_16 self)) x0 ;;
  p41 <- call (Pool 8) (max_pool2d (pool_8 self)) x1 ;;
  p42 <- call (Pool 4) (max_pool2d (pool_4 self)) x2 ;;
  p43 <- call (Pool 2) (max_pool2d (pool_2 self)) x3 ;;
  c4 <- lift (torch_cat [p40; p41; p42; p43]) ;;
  a4 <- call (Effu_cbam 3) (cbam_block g4) c4 ;;
  b4 <- call (Effu_c1 3) (run_c1 f4) a4 ;;
  x4 <- call (Effu_c2 4) (run_c2 e4) b4 ;;

  d3 <- getitem "decoder" (decoder self) 3 ;;
  u4 <- call (Up 2) (upsample (up_2 self)) x4 ;;
  k3 <- lift (torch_cat [x3; u4]) ;;
  dec3 <- call (Decoder 3) (BasicConvBlock_forward d3) k3 ;;

  d2 <- getitem "decoder" (decoder self) 2 ;;
  u3 <- call (Up 2) (upsample (up_2 self)) dec3 ;;
  k2 <- lift (torch_cat [x2; u3]) ;;
  dec2 <- call (Decoder 2) (BasicConvBlock_forward d2) k2 ;;

  d1 <- getitem "decoder" (decoder self) 1 ;;
  u2 <- call (Up 2) (upsample (up_2 self)) dec2 ;;
  k1 <- lift (torch_cat [x1; u2]) ;;
  dec1 <- call (Decoder 1) (BasicConvBlock_forward d1) k1 ;;

  d0 <- getitem "decoder" (decoder self) 0 ;;
  u1 <- call (Up 2) (upsample (up_2 self)) dec1 ;;
  k0 <- lift (torch_cat [x0; u1]) ;;
  dec0 <- call (Decoder 0) (BasicConvBlock_forward d0) k0 ;;

  ret [x4; dec3; dec2; dec1; dec0].

(** [AMDNet_EFFU.forward] *)
Definition forward {T} `{Backend T} (self : AMDNet_EFFU) (x : T)
    : M submodule (list T) :=
  _check_input_divisible self x ;;
  forward_body self x.

(** ** The tensor library on shapes

    A tensor is its shape [(B, C, H, W)]; the operators follow the
    output-shape rules and the argument checks of [torch.nn].  The library
    comes with the state of the layers it runs: [training] is the flag
    [self.training] of the batch normalisations during the forward pass,
    [True] after the construction and after [train(True)] without
    [norm_eval], [False] after [eval()] and after [train(True)] with
    [norm_eval]. *)

(** The output extent of a convolution along one axis: kernel [k], stride
    [s], padding [p], dilation [d]. *)
Definition conv_out (size k s p d : Z) : Z :=
  (size + 2 * p - d * (k - 1) - 1) / s + 1.

(** The padded extent is smaller than the dilated kernel. *)
Definition kernel_too_large (size k p d : Z) : bool :=
  size + 2 * p <? d * (k - 1) + 1.

(** [nn.Conv2d.forward] on a weight of [cm_out_channels] by
    [cm_in_channels] by [k] by [k].  The checks come in the order of torch:
    the sign of the padding, of the stride and of the dilation, the extent
    of the weight, the channels of the input, the kernel against the padded
    input; a dilation of zero passes these and is refused by the routine
    that computes the convolution. *)
Definition shape_conv2d (m : ConvModule) (x : Shape) : exn + Shape :=
  let k := cm_kernel_size m in
  let s := cm_stride m in
  let p := cm_padding m in
  let d := cm_dilation m in
  if p <? 0 then inl (RuntimeError "negative padding is not supported")
  else if s <=? 0 then inl (RuntimeError "non-positive stride is not supported")
  else if d <? 0 then inl (RuntimeError "dilation should be greater than zero")
  else if cm_out_channels m <=? 0
  then inl (RuntimeError "expected weight to be at least 1 at dimension 0")
  else if negb (sh_C x =? cm_in_channels m)
  then inl (RuntimeError "input channels do not match the weight")
  else if kernel_too_large (sh_H x) k p d || kernel_too_large (sh_W x) k p d
  then inl (RuntimeError "Kernel size can't be greater than actual input size")
  else if d =? 0 then inl (RuntimeError "dilation should be greater than zero")
  else inr (mkShape (sh_B x) (cm_out_channels m)
                    (conv_out (sh_H x) k s p d) (conv_out (sh_W x) k s p d)).

(** [nn.BatchNorm2d.forward]: in training mode the statistics of the batch
    need more than one value per channel. *)
Definition shape_batch_norm (training : bool) (x : Shape) : exn + Shape :=
  if training && (sh_B x * sh_H x * sh_W x =? 1)
  then inl (ValueError "Expected more than 1 value per channel when training")
  else inr x.

(** The normalisation layer of a [ConvModule]: it keeps the shape.  A batch
    normalisation has the check of [shape_batch_norm].  The layers of the
    other kinds have argument checks of their own (the size of a group, the
    device of the input, the normalised extent) that a shape does not
    decide; the properties on shapes are stated for [BN] and for a
    [ConvModule] without normalisation. *)
Definition shape_norm (training : bool) (n : option norm_type) (x : Shape)
    : exn + Shape :=
  match n with
  | Some BN => shape_batch_norm training x
  | _ => inr x
  end.

(** [ConvModule.forward]: the convolution (an [nn.Conv2d]: [conv_cfg] is
    [None]), then the normalisation, then the activation, which keeps the
    shape and checks nothing. *)
Definition shape_conv_module (training : bool) (m : ConvModule) (x : Shape)
    : exn + Shape :=
  match shape_conv2d m x with
  | inl e => inl e
  | inr y => shape_norm training (cm_norm_cfg m) y
  end.

(** Modelled from the spec: the forward pass of [CBAMBlock], a gate that
    multiplies the features of its input by learned weights, so the shape
    is kept; its layers are built for [cbam_channels] channels. *)
Definition shape_cbam_block (m : CBAMBlock) (x : Shape) : exn + Shape :=
  if sh_C x =? cbam_channels m then inr x
  else inl (RuntimeError "input channels do not match the weight").

(** The output extent of a pooling window along one axis (no padding,
    dilation 1): in ceiling mode the last window may start inside the
    input and end outside. *)
Definition pool_out (size k s : Z) (ceil_mode : bool) : exn + Z :=
  if (k <=? 0) || (s <=? 0)
  then inl (RuntimeError "kernel size and stride should be greater than zero")
  else
    let o := (size - (k - 1) - 1 + (if ceil_mode then s - 1 else 0)) / s + 1 in
    let o' := if ceil_mode && (size <=? (o - 1) * s) then o - 1 else o in
    if o' <=? 0 then inl (RuntimeError "Output size is too small")
    else inr o'.

Definition shape_max_pool2d (m : MaxPool2d) (x : Shape) : exn + Shape :=
  match pool_out (sh_H x) (mp_kernel_size m) (mp_stride m) (mp_ceil_mode m),
        pool_out (sh_W x) (mp_kernel_size m) (mp_stride m) (mp_ceil_mode m) with
  | inr h, inr w => inr (mkShape (sh_B x) (sh_C x) h w)
  | inl e, _ => inl e
  | _, inl e => inl e
  end.

Definition shape_upsample (m : Upsample) (x : Shape) : exn + Shape :=
  inr (mkShape (sh_B x) (sh_C x)
               (sh_H x * up_scale_factor m) (sh_W x * up_scale_factor m)).

Definition same_extent (a b : Shape) : bool :=
  (sh_B a =? sh_B b) && (sh_H a =? sh_H b) && (sh_W a =? sh_W b).

(** [torch.cat(ts, dim=1)]: the channels add up, the other extents must
    agree. *)
Definition shape_cat (ts : list Shape) : exn + Shape :=
  match ts with
  | [] => inl (RuntimeError "expected a non-empty list of Tensors")
  | t :: rest =>
      if forallb (same_extent t) rest
      then inr (mkShape (sh_B t)
                        (fold_left (fun acc u => acc + sh_C u) rest (sh_C t))
                        (sh_H t) (sh_W t))
      else inl (RuntimeError "Sizes of tensors must match except in dimension 1")
  end.

Lemma shape_cat_single (t : Shape) : shape_cat [t] = inr t.
Proof. destruct t; reflexivity. Qed.

Definition Shape_backend (training : bool) : Backend Shape := {|
  shape := fun x => x;
  requires_grad := fun _ => false;
  conv_module := shape_conv_module training;
  cbam_block := shape_cbam_block;
  max_pool2d := shape_max_pool2d;
  upsample := shape_upsample;
  torch_cat := shape_cat;
  torch_cat_single := shape_cat_single
|}.

(** After its construction a network is in training mode. *)
#[export] Instance Shape_training : Backend Shape := Shape_backend true.

(** ** The module tree and the training mode *)

Inductive module_class : Type :=
| C_AMDNet_EFFU | C_ModuleList | C_Sequential | C_BasicConvBlock
| C_ConvModule | C_Conv2d | C_Norm (n : norm_type) | C_Act (a : act_type)
| C_CBAMBlock | C_MaxPool2d | C_Upsample.

Section Modules.

(** The buffers of a layer (for a batch normalisation, its running mean and
    variance) and the rule by which a batch updates them are left open. *)
Context {Buf Batch : Type}.
Variable update_stats : Buf -> Batch -> Buf.

(** An [nn.Module]: its class, the [training] flag, the [requires_grad]
    flag of its parameters, its buffers and its child modules. *)
#[warnings="-register-all"]
Inductive Module : Type :=
| Node (cls : module_class) (training : bool) (grad : bool) (buffers : Buf)
       (children : list Module).

Definition m_cls (m : Module) := let (c, _, _, _, _) := m in c.
Definition m_training (m : Module) := let (_, t, _, _, _) := m in t.
Definition m_grad (m : Module) := let (_, _, g, _, _) := m in g.
Definition m_buffers (m : Module) := let (_, _, _, b, _) := m in b.
Definition m_children (m : Module) := let (_, _, _, _, ch) := m in ch.

(** [nn.Module.train(mode)]: sets the flag of the module and of all its
    descendants. *)
Fixpoint Module_train (mode : bool) (m : Module) : Module :=
  match m with
  | Node c _ g b ch => Node c mode g b (map (Module_train mode) ch)
  end.

(** [nn.Module.eval()] *)
Definition Module_eval (m : Module) : Module := Module_train false m.

(** [isinstance(m, _BatchNorm)] *)
Definition isinstance_BatchNorm (m : Module) : bool :=
  match m_cls m with
  | C_Norm BN | C_Norm SyncBN => true
  | _ => false
  end.

(** A normalisation layer of any kind. *)
Definition is_norm_layer (m : Module) : bool :=
  match m_cls m with C_Norm _ => true | _ => false end.

(** The position of a module in the tree: the child indices from the
    root. *)
Definition path : Type := list nat.

(** The positions below the children [l], the first of which is child
    number [k]. *)
Definition child_paths (paths_of : Module -> list path)
    : nat -> list Module -> list path :=
  fix go (k : nat) (l : list Module) : list path :=
    match l with
    | [] => []
    | c :: l' => map (cons k) (paths_of c) ++ go (S k) l'
    end.

(** [self.modules()] as positions: the module itself, then the modules of
    each child in turn. *)
Fixpoint module_paths (m : Module) : list path :=
  match m with
  | Node _ _ _ _ ch => [] :: child_paths module_paths 0%nat ch
  end.

(** The module at a position. *)
Fixpoint module_at (m : Module) (p : path) : option Module :=
  match p with
  | [] => Some m
  | k :: p' =>
      match nth_error (m_children m) k with
      | Some c => module_at c p'
      | None => None
      end
  end.

(** [self.modules()] as values. *)
Fixpoint modules (m : Module) : list Module :=
  match m with
  | Node _ _ _ _ ch => m :: flat_map modules ch
  end.

(** The list [l] with [f] applied to entry [k]. *)
Fixpoint update_nth {A} (k : nat) (f : A -> A) (l : list A) : list A :=
  match l, k with
  | [], _ => []
  | x :: l', O => f x :: l'
  | x :: l', S k' => x :: update_nth k' f l'
  end.

(** The in-place update of the module at a position. *)
Fixpoint update_at (f : Module -> Module) (m : Module) (p : path) : Module :=
  match p with
  | [] => f m
  | k :: p' =>
      match m with
      | Node c t g b ch =>
          Node c t g b (update_nth k (fun x => update_at f x p') ch)
      end
  end.

(** One round of the loop of [train]: the module at position [p] is put
    in evaluation mode when it is a batch normalisation. *)
Definition train_step (acc : Module) (p : path) : Module :=
  match module_at acc p with
  | Some c => if isinstance_BatchNorm c then update_at Module_eval acc p
              else acc
  | None => acc
  end.

(** [AMDNet_EFFU.train(mode)]: the loop visits the modules of the tree and
    calls [eval()] on the batch normalisations. *)
Definition train (self_norm_eval : bool) (mode : bool) (m : Module) : Module :=
  let m1 := Module_train mode m in
  if mode && self_norm_eval then fold_left train_step (module_paths m1) m1
  else m1.

(** Training mode with every batch normalisation, and what is below it,
    in evaluation mode. *)
Fixpoint freeze_BatchNorm (m : Module) : Module :=
  match m with
  | Node c t g b ch =>
      if isinstance_BatchNorm m then Module_eval m
      else Node c t g b (map freeze_BatchNorm ch)
  end.

(** What [train] must leave alone: the class of a module, the
    [requires_grad] flag of its parameters and its buffers. *)
Definition node_data (m : Module) : module_class * bool * Buf :=
  (m_cls m, m_grad m, m_buffers m).

(** The batch normalisations of the tree have no child modules. *)
Definition BatchNorm_leaves (m : Module) : Prop :=
  Forall (fun c => isinstance_BatchNorm c = true -> m_children c = [])
         (modules m).

(** The forward pass of a batch normalisation on a batch, as far as the
    buffers go: [torch.nn] updates the running statistics only when the
    layer is in training mode. *)
Definition BatchNorm_forward (m : Module) (batch : Batch) : Module :=
  match m with
  | Node c t g b ch =>
      if t then Node c t g (update_stats b batch) ch else m
  end.

End Modules.

Arguments Module : clear implicits.

Section ModuleTree.

Context {Buf : Type}.
Variable b0 : Buf.     (* the buffers of a freshly built layer *)

(** A freshly built module is in training mode and its parameters require
    gradients. *)
Definition fresh (c : module_class) (ch : list (Module Buf)) : Module Buf :=
  Node c true true b0 ch.

(** The children of a [ConvModule]: the convolution, then the
    normalisation and the activation that [norm_cfg] and [act_cfg] name. *)
Definition ConvModule_tree (m : ConvModule) : Module Buf :=
  fresh C_ConvModule
    (fresh C_Conv2d []
     :: match cm_norm_cfg m with
        | Some n => [fresh (C_Norm n) []]
        | None => []
        end
     ++ match cm_act_cfg m with
        | Some a => [fresh (C_Act a) []]
        | None => []
        end).

Definition BasicConvBlock_tree (m : BasicConvBlock) : Module Buf :=
  fresh C_BasicConvBlock [fresh C_Sequential (map ConvModule_tree (bcb_convs m))].

(** The module tree of a network, in the order in which [__init__] assigns
    the attributes.  The layers inside a [CBAMBlock] are not in the source;
    the block is a leaf here. *)
Definition module_tree (self : AMDNet_EFFU) : Module Buf :=
  fresh C_AMDNet_EFFU
    [ fresh C_MaxPool2d []; fresh C_MaxPool2d [];
      fresh C_MaxPool2d []; fresh C_MaxPool2d [];
      fresh C_Upsample []; fresh C_Upsample [];
      fresh C_Upsample []; fresh C_Upsample [];
      fresh C_ModuleList (map (fun _ => fresh C_CBAMBlock []) (effu_cbam self));
      fresh C_ModuleList
        (map (fun s => fresh C_Sequential (map ConvModule_tree s))
             (effu_c1 self));
      fresh C_ModuleList
        (map (fun s => fresh C_Sequential (map BasicConvBlock_tree s))
             (effu_c2 self));
      fresh C_ModuleList (map BasicConvBlock_tree (decoder self)) ].

End ModuleTree.

(** ** The wiring as the specification words it *)

(** The cumulative downsampling factor: the product of 2 over every stage
    index [i >= 1] where the stride of the stage is 2 or the flag
    [downsamples[i - 1]] holds. *)
Definition spec_downsample_factor (n : Z) (strides : list Z)
    (downsamples : list pyval) : Z :=
  fold_right Z.mul 1
    (map (fun i =>
            if (nth (Z.to_nat i) strides 0 =? 2)
               || truthy (nth (Z.to_nat (i - 1)) downsamples PyNone)
            then 2 else 1)
         (range_from 1 n)).

(** The channel width of level [i], and the total width of the levels
    below [i]. *)
Definition spec_width (base i : Z) : Z := base * 2 ^ i.
Definition spec_width_below (base i : Z) : Z :=
  fold_right Z.add 0 (map (spec_width base) (range i)).

(** The input of the fusion block of level [i]: the outputs [xs] of the
    levels [0 .. i-1], level [j] max-pooled in ceiling mode by [2^(i-j)],
    concatenated along the channels. *)
Definition spec_fusion_input {T} `{Backend T} (i : Z) (xs : list T)
    : M submodule T :=
  ps <- mapM (fun jx : Z * T =>
                let k := 2 ^ (i - fst jx) in
                call (Pool k) (max_pool2d (mkMaxPool2d k k true)) (snd jx))
             (combine (range i) xs) ;;
  lift (torch_cat ps).

(** Level [i >= 1] of the encoder: the fusion input goes through the
    attention gate, the 1x1 convolution and the convolution block. *)
Definition spec_encoder_level {T} `{Backend T} (self : AMDNet_EFFU) (i : Z)
    (xs : list T) : M submodule T :=
  e <- getitem "effu_c2" (effu_c2 self) i ;;
  f <- getitem "effu_c1" (effu_c1 self) (i - 1) ;;
  g <- getitem "effu_cbam" (effu_cbam self) (i - 1) ;;
  c <- spec_fusion_input i xs ;;
  a <- call (Effu_cbam (i - 1)) (cbam_block g) c ;;
  b <- call (Effu_c1 (i - 1)) (run_c1 f) a ;;
  call (Effu_c2 i) (run_c2 e) b.

(** Level [i] of the decoder: the output [above] of the level above,
    upsampled by 2, concatenated after the encoder output [xi]. *)
Definition spec_decoder_level {T} `{Backend T} (self : AMDNet_EFFU) (i : Z)
    (xi above : T) : M submodule T :=
  d <- getitem "decoder" (decoder self) i ;;
  u <- call (Up 2) (upsample (mkUpsample 2 Bilinear true)) above ;;
  k <- lift (torch_cat [xi; u]) ;;
  call (Decoder i) (BasicConvBlock_forward d) k.

(** The five encoder levels and the four decoder levels. *)
Definition spec_forward_body {T} `{Backend T} (self : AMDNet_EFFU) (x : T)
    : M submodule (list T) :=
  e0 <- getitem "effu_c2" (effu_c2 self) 0 ;;
  x0 <- call (Effu_c2 0) (run_c2 e0) x ;;
  x1 <- spec_encoder_level self 1 [x0] ;;
  x2 <- spec_encoder_level self 2 [x0; x1] ;;
  x3 <- spec_encoder_level self 3 [x0; x1; x2] ;;
  x4 <- spec_encoder_level self 4 [x0; x1; x2; x3] ;;
  dec3 <- spec_decoder_level self 3 x3 x4 ;;
  dec2 <- spec_decoder_level self 2 x2 dec3 ;;
  dec1 <- spec_decoder_level self 1 x1 dec2 ;;
  dec0 <- spec_decoder_level self 0 x0 dec1 ;;
  ret [x4; dec3; dec2; dec1; dec0].

(** The encoder up to level [k - 1]: the list of the outputs of the levels
    [0 .. k-1]. *)
Fixpoint spec_encoder {T} `{Backend T} (self : AMDNet_EFFU) (x : T) (k : nat)
    : M submodule (list T) :=
  match k with
  | O => ret []
  | S k' =>
      xs <- spec_encoder self x k' ;;
      xk <- match k' with
            | O => e0 <- getitem "effu_c2" (effu_c2 self) 0 ;;
                   call (Effu_c2 0) (run_c2 e0) x
            | S _ => spec_encoder_level self (Z.of_nat k') xs
            end ;;
      ret (xs ++ [xk])
  end.

(** ** The network that [__init__] builds, in closed form *)

Definition block_of (ic oc nc st dl : Z) (cp : bool) (lc : LayerCfg)
    : BasicConvBlock :=
  {| bcb_with_cp := cp;
     bcb_convs :=
       map (fun i =>
              mkConvModule (if i =? 0 then ic else oc) oc 3
                           (if i =? 0 then st else 1)
                           (if i =? 0 then 1 else dl)
                           (if i =? 0 then 1 else dl)
                           (conv_cfg lc) (norm_cfg lc) (act_cfg lc))
           (range nc) |}.

Definition built_cbam (c : Config) : list CBAMBlock :=
  map (fun i => mkCBAMBlock (np_sum_prefix (enc_channels_of c) i))
      (range_from 1 (c_num_stages c)).

Definition built_c1 (c : Config) : list (list ConvModule) :=
  map (fun i =>
         [mkConvModule (np_sum_prefix (enc_channels_of c) i)
                       (c_base_channels c * 2 ^ (i - 1)) 1 1 1 0
                       (conv_cfg (c_layer_cfg c)) (norm_cfg (c_layer_cfg c))
                       (act_cfg (c_layer_cfg c))])
      (range_from 1 (c_num_stages c)).

Definition built_c2 (c : Config) : list (list BasicConvBlock) :=
  map (fun i =>
         [block_of (if i =? 0 then c_in_channels c
                    else c_base_channels c * 2 ^ (i - 1))
                   (c_base_channels c * 2 ^ i)
                   (nth (Z.to_nat i) (c_enc_num_convs c) 0)
                   (nth (Z.to_nat i) (c_strides c) 0)
                   (nth (Z.to_nat i) (c_enc_dilations c) 0)
                   (c_with_cp c) (c_layer_cfg c)])
      (range (c_num_stages c)).

Definition built_decoder (c : Config) : list BasicConvBlock :=
  map (fun i =>
         block_of (c_base_channels c * 2 ^ i + c_base_channels c * 2 ^ (i + 1))
                  (c_base_channels c * 2 ^ i) 2 1 1
                  (c_with_cp c) (c_layer_cfg c))
      (range (c_num_stages c - 1)).

Definition built (c : Config) (icfg : pyval) : AMDNet_EFFU :=
  {| pretrained := c_pretrained c;
     init_cfg := icfg;
     num_stages := c_num_stages c;
     strides := c_strides c;
     downsamples := c_downsamples c;
     norm_eval := c_norm_eval c;
     base_channels := c_base_channels c;
     pool_16 := mkMaxPool2d 16 16 true;
     pool_8 := mkMaxPool2d 8 8 true;
     pool_4 := mkMaxPool2d 4 4 true;
     pool_2 := mkMaxPool2d 2 2 true;
     up_2 := mkUpsample 2 Bilinear true;
     up_4 := mkUpsample 4 Bilinear true;
     up_8 := mkUpsample 8 Bilinear true;
     up_16 := mkUpsample 16 Bilinear true;
     effu_cbam := built_cbam c;
     effu_c1 := built_c1 c;
     effu_c2 := built_c2 c;
     decoder := built_decoder c |}.

(** The exception of the first layer of [l] that the library refuses. *)
Fixpoint first_refused {A} (refused : A -> option exn) (l : list A)
    : option exn :=
  match l with
  | [] => None
  | a :: l' =>
      match refused a with
      | Some e => Some e
      | None => first_refused refused l'
      end
  end.

Definition block_refused `{Library} (b : BasicConvBlock) : option exn :=
  first_refused ConvModule_refused (bcb_convs b).

Definition or_else (a b : option exn) : option exn :=
  match a with Some e => Some e | None => b end.

(** The exception of the first layer of a network that the library
    refuses, in the order in which [__init__] builds the layers: the gates,
    the 1x1 convolutions, the encoder blocks, the decoder blocks. *)
Definition network_refused `{Library} (m : AMDNet_EFFU) : option exn :=
  or_else (first_refused CBAMBlock_refused (effu_cbam m))
    (or_else (first_refused (first_refused ConvModule_refused) (effu_c1 m))
       (or_else (first_refused (first_refused block_refused) (effu_c2 m))
                (first_refused block_refused (decoder m)))).

(** The six sequences with the wording of their assertion: name, expected
    length as the message words it, value, length, expected length. *)
Definition length_table (c : Config)
    : list (string * string * pyval * Z * Z) :=
  let n := c_num_stages c in
  let ints (l : list Z) := PyList (map PyInt l) in
  [ ("strides"%string, "num_stages"%string, ints (c_strides c),
     len (c_strides c), n);
    ("enc_num_convs"%string, "num_stages"%string, ints (c_enc_num_convs c),
     len (c_enc_num_convs c), n);
    ("dec_num_convs"%string, "(num_stages-1)"%string, ints (c_dec_num_convs c),
     len (c_dec_num_convs c), n - 1);
    ("downsamples"%string, "(num_stages-1)"%string, PyList (c_downsamples c),
     len (c_downsamples c), n - 1);
    ("enc_dilations"%string, "num_stages"%string, ints (c_enc_dilations c),
     len (c_enc_dilations c), n);
    ("dec_dilations"%string, "(num_stages-1)"%string, ints (c_dec_dilations c),
     len (c_dec_dilations c), n - 1) ].

(** The first sequence of the table whose length is wrong. *)
Definition first_wrong_length (c : Config)
    : option (string * string * pyval * Z * Z) :=
  find (fun e => negb (snd (fst e) =? snd e)) (length_table c).

(** ** Configurations and networks that differ in some fields *)

Definition with_decoder_args (c : Config) (dec_num_convs dec_dilations : list Z)
    : Config :=
  {| c_in_channels := c_in_channels c;
     c_base_channels := c_base_channels c;
     c_num_stages := c_num_stages c;
     c_strides := c_strides c;
     c_enc_num_convs := c_enc_num_convs c;
     c_dec_num_convs := dec_num_convs;
     c_downsamples := c_downsamples c;
     c_enc_dilations := c_enc_dilations c;
     c_dec_dilations := dec_dilations;
     c_with_cp := c_with_cp c;
     c_layer_cfg := c_layer_cfg c;
     c_upsample_cfg := c_upsample_cfg c;
     c_norm_eval := c_norm_eval c;
     c_dcn := c_dcn c;
     c_plugins := c_plugins c;
     c_pretrained := c_pretrained c;
     c_init_cfg := c_init_cfg c |}.

Definition with_downsamples (c : Config) (ds : list pyval) : Config :=
  {| c_in_channels := c_in_channels c;
     c_base_channels := c_base_channels c;
     c_num_stages := c_num_stages c;
     c_strides := c_strides c;
     c_enc_num_convs := c_enc_num_convs c;
     c_dec_num_convs := c_dec_num_convs c;
     c_downsamples := ds;
     c_enc_dilations := c_enc_dilations c;
     c_dec_dilations := c_dec_dilations c;
     c_with_cp := c_with_cp c;
     c_layer_cfg := c_layer_cfg c;
     c_upsample_cfg := c_upsample_cfg c;
     c_norm_eval := c_norm_eval c;
     c_dcn := c_dcn c;
     c_plugins := c_plugins c;
     c_pretrained := c_pretrained c;
     c_init_cfg := c_init_cfg c |}.

Definition with_pretrained (c : Config) (p i : pyval) : Config :=
  {| c_in_channels := c_in_channels c;
     c_base_channels := c_base_channels c;
     c_num_stages := c_num_stages c;
     c_strides := c_strides c;
     c_enc_num_convs := c_enc_num_convs c;
     c_dec_num_convs := c_dec_num_convs c;
     c_downsamples := c_downsamples c;
     c_enc_dilations := c_enc_dilations c;
     c_dec_dilations := c_dec_dilations c;
     c_with_cp := c_with_cp c;
     c_layer_cfg := c_layer_cfg c;
     c_upsample_cfg := c_upsample_cfg c;
     c_norm_eval := c_norm_eval c;
     c_dcn := c_dcn c;
     c_plugins := c_plugins c;
     c_pretrained := p;
     c_init_cfg := i |}.

Definition with_stages (c : Config) (n : Z) (strides enc_num_convs : list Z)
    (dec_num_convs : list Z) (downsamples : list pyval)
    (enc_dilations dec_dilations : list Z) : Config :=
  {| c_in_channels := c_in_channels c;
     c_base_channels := c_base_channels c;
     c_num_stages := n;
     c_strides := strides;
     c_enc_num_convs := enc_num_convs;
     c_dec_num_convs := dec_num_convs;
     c_downsamples := downsamples;
     c_enc_dilations := enc_dilations;
     c_dec_dilations := dec_dilations;
     c_with_cp := c_with_cp c;
     c_layer_cfg := c_layer_cfg c;
     c_upsample_cfg := c_upsample_cfg c;
     c_norm_eval := c_norm_eval c;
     c_dcn := c_dcn c;
     c_plugins := c_plugins c;
     c_pretrained := c_pretrained c;
     c_init_cfg := c_init_cfg c |}.

(** The default configuration with a [strides] of four entries. *)
Definition short_strides_config : Config :=
  with_stages (default_config 3 64) 5 [1; 1; 1; 1] [2; 2; 2; 2; 2]
              [2; 2; 2; 2]
              [PyBool true; PyBool true; PyBool true; PyBool true]
              [1; 1; 1; 1; 1] [1; 1; 1; 1].

(** The default configuration with group normalisation and with
    [norm_eval] set. *)
Definition group_norm_config : Config :=
  mkConfig 3 64 5 [1; 1; 1; 1; 1] [2; 2; 2; 2; 2] [2; 2; 2; 2]
           [PyBool true; PyBool true; PyBool true; PyBool true]
           [1; 1; 1; 1; 1] [1; 1; 1; 1] false
           (mkLayerCfg PyNone (Some GN) (Some ReLU))
           (PyDict [("type"%string, PyStr "InterpConv")])
           true PyNone PyNone PyNone PyNone.

(** A configuration of [n] stages with the default entries. *)
Definition uniform_config (in_channels base_channels : Z) (n : nat) : Config :=
  with_stages (default_config in_channels base_channels) (Z.of_nat n)
              (repeat 1 n) (repeat 2 n) (repeat 2 (n - 1))
              (repeat (PyBool true) (n - 1)) (repeat 1 n) (repeat 1 (n - 1)).

(** A network of four stages. *)
Definition four_stage_network : AMDNet_EFFU :=
  built (uniform_config 3 64 4) default_init_cfg.

(** A network of six stages. *)
Definition six_stage_network : AMDNet_EFFU :=
  built (uniform_config 3 64 6) default_init_cfg.

(** The default network, and the one with group normalisation. *)
Definition default_network : AMDNet_EFFU :=
  built (default_config 3 64) default_init_cfg.
Definition group_norm_network : AMDNet_EFFU :=
  built group_norm_config default_init_cfg.

(** [pretrained=5] together with an [init_cfg]; an empty path together
    with an [init_cfg]. *)
Definition int_pretrained_config : Config :=
  with_pretrained (default_config 3 64) (PyInt 5) default_init_cfg.
Definition empty_path_config : Config :=
  with_pretrained (default_config 3 64) (PyStr EmptyString) default_init_cfg.

(** A [strides] of four entries with [pretrained=5], and with [dcn=True]. *)
Definition short_strides_int_pretrained : Config :=
  with_pretrained short_strides_config (PyInt 5) PyNone.
Definition short_strides_dcn : Config :=
  mkConfig 3 64 5 [1; 1; 1; 1] [2; 2; 2; 2; 2] [2; 2; 2; 2]
           [PyBool true; PyBool true; PyBool true; PyBool true]
           [1; 1; 1; 1; 1] [1; 1; 1; 1] false
           (mkLayerCfg PyNone (Some BN) (Some ReLU))
           (PyDict [("type"%string, PyStr "InterpConv")])
           false (PyBool true) PyNone PyNone PyNone.

(** The network with other blocks after the first five encoder blocks and
    the first four fusion and decoder blocks. *)
Definition with_later_blocks (m : AMDNet_EFFU)
    (cbam' : list CBAMBlock) (c1' : list (list ConvModule))
    (c2' : list (list BasicConvBlock)) (dec' : list BasicConvBlock)
    : AMDNet_EFFU :=
  {| pretrained := pretrained m;
     init_cfg := init_cfg m;
     num_stages := num_stages m;
     strides := strides m;
     downsamples := downsamples m;
     norm_eval := norm_eval m;
     base_channels := base_channels m;
     pool_16 := pool_16 m;
     pool_8 := pool_8 m;
     pool_4 := pool_4 m;
     pool_2 := pool_2 m;
     up_2 := up_2 m;
     up_4 := up_4 m;
     up_8 := up_8 m;
     up_16 := up_16 m;
     effu_cbam := firstn 4 (effu_cbam m) ++ cbam';
     effu_c1 := firstn 4 (effu_c1 m) ++ c1';
     effu_c2 := firstn 5 (effu_c2 m) ++ c2';
     decoder := firstn 4 (decoder m) ++ dec' |}.

(** The events of a forward pass that touch a block of stage 5 or later. *)
Definition later_stage (ev : submodule) : bool :=
  match ev with
  | Effu_c2 i => 5 <=? i
  | Effu_c1 i | Effu_cbam i | Decoder i => 4 <=? i
  | Pool _ | Up _ => false
  end.

(** ** Further definitions *)

Definition with_upsample_cfg (c : Config) (u : pyval) : Config :=
  {| c_in_channels := c_in_channels c;
     c_base_channels := c_base_channels c;
     c_num_stages := c_num_stages c;
     c_strides := c_strides c;
     c_enc_num_convs := c_enc_num_convs c;
     c_dec_num_convs := c_dec_num_convs c;
     c_downsamples := c_downsamples c;
     c_enc_dilations := c_enc_dilations c;
     c_dec_dilations := c_dec_dilations c;
     c_with_cp := c_with_cp c;
     c_layer_cfg := c_layer_cfg c;
     c_upsample_cfg := u;
     c_norm_eval := c_norm_eval c;
     c_dcn := c_dcn c;
     c_plugins := c_plugins c;
     c_pretrained := c_pretrained c;
     c_init_cfg := c_init_cfg c |}.

(** The arguments that [__init__] accepts. *)
Definition accepted (c : Config) : Prop :=
  truthy (c_init_cfg c) && truthy (c_pretrained c) = false /\
  (isinstance_str (c_pretrained c) = true \/ c_pretrained c = PyNone) /\
  c_dcn c = PyNone /\ c_plugins c = PyNone /\
  len (c_strides c) = c_num_stages c /\
  len (c_enc_num_convs c) = c_num_stages c /\
  len (c_dec_num_convs c) = c_num_stages c - 1 /\
  len (c_downsamples c) = c_num_stages c - 1 /\
  len (c_enc_dilations c) = c_num_stages c /\
  len (c_dec_dilations c) = c_num_stages c - 1.

(** The sub-modules that a forward pass calls when nothing fails, in the
    order of the calls. *)
Definition full_call_log : list submodule :=
  [ Effu_c2 0;
    Pool 2; Effu_cbam 0; Effu_c1 0; Effu_c2 1;
    Pool 4; Pool 2; Effu_cbam 1; Effu_c1 1; Effu_c2 2;
    Pool 8; Pool 4; Pool 2; Effu_cbam 2; Effu_c1 2; Effu_c2 3;
    Pool 16; Pool 8; Pool 4; Pool 2; Effu_cbam 3; Effu_c1 3; Effu_c2 4;
    Up 2; Decoder 3; Up 2; Decoder 2; Up 2; Decoder 1; Up 2; Decoder 0 ].

(** A run whose log is a prefix of [l], and all of [l] when it ends in a
    value. *)
Definition follows {L A} (l : list L) (r : M L A) : Prop :=
  (exists k, log_of r = firstn k l) /\
  (forall a, outcome r = inr a -> log_of r = l).

(** The default configuration with stride 2 in stage 1. *)
Definition stride_two_config : Config :=
  with_stages (default_config 3 64) 5 [1; 2; 1; 1; 1] [2; 2; 2; 2; 2]
              [2; 2; 2; 2]
              [PyBool true; PyBool true; PyBool true; PyBool true]
              [1; 1; 1; 1; 1] [1; 1; 1; 1].

(** The layers whose forward pass the rules on shapes describe: a plain
    [nn.Conv2d] ([conv_cfg] is [None]) followed by a batch normalisation or
    by no normalisation. *)
Definition plain_layers (lc : LayerCfg) : Prop :=
  conv_cfg lc = PyNone /\ (norm_cfg lc = Some BN \/ norm_cfg lc = None).

(** The normalisation [n] takes maps of [B] by [h] by [w] values per
    channel: a batch normalisation in training mode needs more than one
    value. *)
Definition batch_ok (training : bool) (n : option norm_type) (B h w : Z)
    : Prop :=
  training = true -> n = Some BN -> 1 < B * h * w.

(** A tensor library none of whose operators raises an index error. *)
Definition index_safe {T} (B : Backend T) : Prop :=
  (forall cm x name i, conv_module cm x <> inl (IndexError name i)) /\
  (forall g x name i, cbam_block g x <> inl (IndexError name i)) /\
  (forall p x name i, max_pool2d p x <> inl (IndexError name i)) /\
  (forall u x name i, upsample u x <> inl (IndexError name i)) /\
  (forall ts name i, torch_cat ts <> inl (IndexError name i)).

(** A run that does not end in an index error. *)
Definition no_IndexError {L A} (r : M L A) : Prop :=
  forall name i, outcome r <> inl (IndexError name i).

(** * Properties *)

(** ** The monad *)

Lemma bind_ret_l {L A B} (a : A) (f : A -> M L B) : bind (ret a) f = f a.
Proof. unfold bind, ret. destruct (f a); reflexivity. Qed.

Lemma bind_assoc {L A B C} (m : M L A) (f : A -> M L B) (g : B -> M L C) :
  bind (bind m f) g = bind m (fun a => bind (f a) g).
Proof.
  destruct m as [l [e | a]]; simpl; [reflexivity |].
  destruct (f a) as [l1 [e | b]]; simpl; [reflexivity |].
  destruct (g b) as [l2 r]. now rewrite app_assoc.
Qed.

Lemma bind_ext {L A B} (m : M L A) (f g : A -> M L B) :
  (forall a, f a = g a) -> bind m f = bind m g.
Proof. intros E. destruct m as [l [e | a]]; simpl; [reflexivity |]. now rewrite E. Qed.

Lemma bind_raise {L A B} (e : exn) (f : A -> M L B) : bind (raise e) f = raise e.
Proof. reflexivity. Qed.

(** A run that ends in a value went through both halves of a [bind]. *)
Lemma bind_inr {L A B} (m : M L A) (f : A -> M L B) (l : list L) (b : B) :
  bind m f = (l, inr b) ->
  exists l1 a l2, m = (l1, inr a) /\ f a = (l2, inr b) /\ l = l1 ++ l2.
Proof.
  destruct m as [l1 [e | a]]; simpl; [discriminate |].
  destruct (f a) as [l2 r] eqn:E. intros [= <- ->].
  now exists l1, a, l2.
Qed.

Lemma py_assert_inr {L} (b : bool) (msg : assert_msg) (l : list L) (u : unit) :
  py_assert b msg = (l, inr u) -> b = true /\ l = [].
Proof. destruct b; unfold py_assert, ret, raise; intros [= <-]; auto. Qed.

(** ** Ranges and indexing *)

Lemma range_length (n : Z) : len (range n) = Z.max 0 n.
Proof. unfold len, range. rewrite length_map, length_seq. lia. Qed.

Lemma range_nth (n i : Z) :
  0 <= i < n -> nth_error (range n) (Z.to_nat i) = Some i.
Proof.
  intros Hi. unfold range.
  rewrite nth_error_map, nth_error_seq.
  destruct (Nat.ltb_spec (Z.to_nat i) (Z.to_nat n)); [| lia].
  simpl. f_equal. lia.
Qed.

Lemma range_from_nth (a b i : Z) :
  a <= i < b -> nth_error (range_from a b) (Z.to_nat (i - a)) = Some i.
Proof.
  intros Hi. unfold range_from.
  rewrite nth_error_map, nth_error_seq.
  destruct (Nat.ltb_spec (Z.to_nat (i - a)) (Z.to_nat (b - a))); [| lia].
  simpl. f_equal. lia.
Qed.

Lemma range_from_length (a b : Z) : len (range_from a b) = Z.max 0 (b - a).
Proof. unfold len, range_from. rewrite length_map, length_seq. lia. Qed.

Lemma getitem_Some {L A} (name : string) (l : list A) (i : Z) (a : A) :
  nth_error l (Z.to_nat i) = Some a -> @getitem L A name l i = ret a.
Proof. unfold getitem. now intros ->. Qed.

Lemma getitem_out_of_range {L A} (name : string) (l : list A) (i : Z) :
  len l <= i -> @getitem L A name l i = raise (IndexError name i).
Proof.
  intros Hi. unfold getitem.
  destruct (nth_error l (Z.to_nat i)) eqn:E; [| reflexivity].
  assert (nth_error l (Z.to_nat i) <> None) as N by congruence.
  apply nth_error_Some in N. unfold len in Hi. lia.
Qed.

(** ** BasicConvBlock *)

Lemma mapM_first_refused {L A B} (f : A -> M L B) (g : A -> B)
    (refused : B -> option exn) (l : list A) :
  (forall a, In a l ->
     f a = match refused (g a) with Some e => raise e | None => ret (g a) end) ->
  mapM f l =
  match first_refused refused (map g l) with
  | Some e => raise e
  | None => ret (map g l)
  end.
Proof.
  induction l as [| a l IH]; intros Hf; [reflexivity |].
  cbn [mapM map first_refused]. rewrite (Hf a (or_introl eq_refl)).
  destruct (refused (g a)) as [e |]; [reflexivity |].
  rewrite bind_ret_l. rewrite IH by (intros; apply Hf; now right).
  destruct (first_refused refused (map g l)); [reflexivity |].
  now rewrite bind_ret_l.
Qed.

(** [BasicConvBlock.__init__] without [dcn] and [plugins]: the block in
    closed form, unless the library refuses one of its convolutions. *)
Lemma BasicConvBlock_init_spec {L} {lib : Library} (ic oc nc st dl : Z) (cp : bool)
    (lc : LayerCfg) :
  BasicConvBlock_init (L := L) ic oc nc st dl cp lc PyNone PyNone =
  match block_refused (block_of ic oc nc st dl cp lc) with
  | Some e => raise e
  | None => ret (block_of ic oc nc st dl cp lc)
  end.
Proof.
  unfold BasicConvBlock_init, block_refused. cbn [is_None py_assert].
  rewrite !bind_ret_l.
  rewrite (mapM_first_refused _
             (fun i => mkConvModule (if i =? 0 then ic else oc) oc 3
                         (if i =? 0 then st else 1) (if i =? 0 then 1 else dl)
                         (if i =? 0 then 1 else dl)
                         (conv_cfg lc) (norm_cfg lc) (act_cfg lc))
             ConvModule_refused) by reflexivity.
  cbn [bcb_convs block_of].
  destruct (first_refused _ _); [reflexivity |]. now rewrite bind_ret_l.
Qed.

Lemma BasicConvBlock_init_inr {L} {lib : Library} (ic oc nc st dl : Z) (cp : bool)
    (lc : LayerCfg) (dcn plugins : pyval) (l : list L) (blk : BasicConvBlock) :
  BasicConvBlock_init ic oc nc st dl cp lc dcn plugins = (l, inr blk) ->
  dcn = PyNone /\ plugins = PyNone /\ l = [] /\
  blk = {| bcb_with_cp := cp;
           bcb_convs :=
             map (fun i =>
                    mkConvModule (if i =? 0 then ic else oc) oc 3
                                 (if i =? 0 then st else 1)
                                 (if i =? 0 then 1 else dl)
                                 (if i =? 0 then 1 else dl)
                                 (conv_cfg lc) (norm_cfg lc) (act_cfg lc))
                 (range nc) |}.
Proof.
  intros E.
  destruct dcn; try discriminate E. destruct plugins; try discriminate E.
  rewrite BasicConvBlock_init_spec in E.
  destruct (block_refused _); [discriminate E |].
  injection E as <- <-. auto.
Qed.

(** The library has built every convolution of a block that is built. *)
Lemma BasicConvBlock_init_built {L} {lib : Library} (ic oc nc st dl : Z) (cp : bool)
    (lc : LayerCfg) (dcn plugins : pyval) (l : list L) (blk : BasicConvBlock) :
  BasicConvBlock_init ic oc nc st dl cp lc dcn plugins = (l, inr blk) ->
  block_refused blk = None.
Proof.
  intros E.
  destruct dcn; try discriminate E. destruct plugins; try discriminate E.
  rewrite BasicConvBlock_init_spec in E.
  destruct (block_refused _) eqn:R; [discriminate E |].
  injection E as _ <-. exact R.
Qed.

(** C8.  In a [BasicConvBlock] built from [in_channels], [out_channels],
    [num_convs], [stride] and [dilation] there are [num_convs] convolutions
    of kernel 3, run in sequence; the first maps [in_channels] to
    [out_channels] with the requested stride, dilation 1 and padding 1;
    every later one maps [out_channels] to [out_channels] with stride 1 and
    with the requested dilation as dilation and as padding. *)
Theorem BasicConvBlock_layout {L} {lib : Library} (in_channels out_channels : Z)
    (num_convs stride dilation : Z) (with_cp : bool) (lc : LayerCfg)
    (dcn plugins : pyval) (l : list L) (blk : BasicConvBlock) :
  BasicConvBlock_init in_channels out_channels num_convs stride dilation
                      with_cp lc dcn plugins = (l, inr blk) ->
  len (bcb_convs blk) = Z.max 0 num_convs /\
  (forall i, 0 <= i < num_convs ->
     exists cm, nth_error (bcb_convs blk) (Z.to_nat i) = Some cm /\
       cm_kernel_size cm = 3 /\
       cm_out_channels cm = out_channels /\
       (i = 0 -> cm_in_channels cm = in_channels /\ cm_stride cm = stride /\
                 cm_dilation cm = 1 /\ cm_padding cm = 1) /\
       (0 < i -> cm_in_channels cm = out_channels /\ cm_stride cm = 1 /\
                 cm_dilation cm = dilation /\ cm_padding cm = dilation)) /\
  (forall T (B : Backend T) (x : T),
     BasicConvBlock_forward blk x =
     Sequential_forward conv_module (bcb_convs blk) x).
Proof.
  intros E. apply BasicConvBlock_init_inr in E.
  destruct E as (_ & _ & _ & ->). cbn [bcb_convs bcb_with_cp].
  split; [| split].
  - unfold len. rewrite length_map. apply range_length.
  - intros i Hi. eexists. split.
    + rewrite nth_error_map, (range_nth _ _ Hi). reflexivity.
    + cbn. split; [reflexivity | split; [reflexivity |]].
      destruct (Z.eqb_spec i 0); split; intros Hi'; try lia;
        repeat split; reflexivity.
  - intros T B x. unfold BasicConvBlock_forward, checkpoint.
    now destruct (_ && _).
Qed.

(** A block of three convolutions with stride 2 and dilation 3. *)
Lemma BasicConvBlock_layout_witness :
  exists blk : BasicConvBlock,
    BasicConvBlock_init (L := unit) 3 64 3 2 3 false
       (mkLayerCfg PyNone (Some BN) (Some ReLU)) PyNone PyNone = ([], inr blk) /\
    len (bcb_convs blk) = 3 /\
    map cm_stride (bcb_convs blk) = [2; 1; 1] /\
    map cm_dilation (bcb_convs blk) = [1; 3; 3].
Proof.
  eexists. split; [reflexivity |].
  pose proof (BasicConvBlock_layout (lib := Torch_library) (L := unit) 3 64 3 2 3 false
                (mkLayerCfg PyNone (Some BN) (Some ReLU)) PyNone PyNone
                [] _ eq_refl) as [Hlen _].
  split; [exact Hlen | split; reflexivity].
Defined.

(** ** Construction *)

Lemma bind_ret_log {L A B} (l : list L) (a : A) (f : A -> M L B) (r : M L B) :
  f a = ([], snd r) -> fst r = l -> bind (l, inr a) f = r.
Proof.
  intros E <-. simpl. rewrite E. rewrite app_nil_r. now destruct r.
Qed.

Lemma mapM_ret_map {L A B} (f : A -> M L B) (g : A -> B) (l : list A) :
  (forall a, In a l -> f a = ret (g a)) -> mapM f l = ret (map g l).
Proof.
  induction l as [| a l IH]; intros Hf; [reflexivity |].
  cbn [mapM map]. rewrite (Hf a (or_introl eq_refl)), bind_ret_l.
  rewrite IH by (intros; apply Hf; now right).
  now rewrite bind_ret_l.
Qed.

Lemma In_range (n i : Z) : In i (range n) -> 0 <= i < n.
Proof.
  unfold range. rewrite in_map_iff. intros (k & <- & Hk).
  apply in_seq in Hk. lia.
Qed.

Lemma In_range_from (a b i : Z) : In i (range_from a b) -> a <= i < b.
Proof.
  unfold range_from. rewrite in_map_iff. intros (k & <- & Hk).
  apply in_seq in Hk. lia.
Qed.

Lemma nth_error_nth_len {A} (l : list A) (i : Z) (d : A) :
  0 <= i < len l -> nth_error l (Z.to_nat i) = Some (nth (Z.to_nat i) l d).
Proof. unfold len. intros Hi. apply nth_error_nth'. lia. Qed.

Lemma getitem_in_range {L A} (name : string) (l : list A) (i : Z) (d : A) :
  0 <= i < len l -> @getitem L A name l i = ret (nth (Z.to_nat i) l d).
Proof. intros Hi. apply getitem_Some. now apply nth_error_nth_len. Qed.

Lemma enc_channels_nth (c : Config) (i : Z) :
  0 <= i < c_num_stages c ->
  nth_error (enc_channels_of c) (Z.to_nat i) = Some (c_base_channels c * 2 ^ i).
Proof.
  intros Hi. unfold enc_channels_of.
  now rewrite nth_error_map, (range_nth _ _ Hi).
Qed.

Lemma first_refused_single {A} (refused : A -> option exn) (a : A) :
  first_refused refused [a] = refused a.
Proof. cbn. now destruct (refused a). Qed.

Lemma effu_c2_loop_closed {lib : Library} (c : Config) (m s : nat) (ic : Z) :
  (s + m <= Z.to_nat (c_num_stages c))%nat ->
  len (c_strides c) = c_num_stages c ->
  len (c_enc_num_convs c) = c_num_stages c ->
  len (c_enc_dilations c) = c_num_stages c ->
  let blocks :=
    map (fun i =>
           [block_of (if i =? Z.of_nat s then ic
                      else c_base_channels c * 2 ^ (i - 1))
                     (c_base_channels c * 2 ^ i)
                     (nth (Z.to_nat i) (c_enc_num_convs c) 0)
                     (nth (Z.to_nat i) (c_strides c) 0)
                     (nth (Z.to_nat i) (c_enc_dilations c) 0)
                     (c_with_cp c) (c_layer_cfg c)])
        (map Z.of_nat (seq s m)) in
  effu_c2_loop c (map Z.of_nat (seq s m)) ic =
  match first_refused (first_refused block_refused) blocks with
  | Some e => raise e
  | None => ret blocks
  end.
Proof.
  intros Hm Hs Hn Hd. cbv zeta. revert s ic Hm.
  induction m as [| m IH]; intros s ic Hm; [reflexivity |].
  cbn [seq map effu_c2_loop].
  rewrite (getitem_in_range _ _ _ 0) by lia. rewrite bind_ret_l.
  rewrite (getitem_in_range _ _ _ 0) by lia. rewrite bind_ret_l.
  rewrite (getitem_in_range _ _ _ 0) by lia. rewrite bind_ret_l.
  rewrite BasicConvBlock_init_spec, Z.eqb_refl. cbn [first_refused].
  destruct (block_refused _); [reflexivity |].
  rewrite bind_ret_l. rewrite IH by lia.
  assert (map (fun i =>
                 [block_of (if i =? Z.of_nat (S s)
                            then c_base_channels c * 2 ^ Z.of_nat s
                            else c_base_channels c * 2 ^ (i - 1))
                           (c_base_channels c * 2 ^ i)
                           (nth (Z.to_nat i) (c_enc_num_convs c) 0)
                           (nth (Z.to_nat i) (c_strides c) 0)
                           (nth (Z.to_nat i) (c_enc_dilations c) 0)
                           (c_with_cp c) (c_layer_cfg c)])
              (map Z.of_nat (seq (S s) m)) =
          map (fun i =>
                 [block_of (if i =? Z.of_nat s then ic
                            else c_base_channels c * 2 ^ (i - 1))
                           (c_base_channels c * 2 ^ i)
                           (nth (Z.to_nat i) (c_enc_num_convs c) 0)
                           (nth (Z.to_nat i) (c_strides c) 0)
                           (nth (Z.to_nat i) (c_enc_dilations c) 0)
                           (c_with_cp c) (c_layer_cfg c)])
              (map Z.of_nat (seq (S s) m))) as ->.
  { apply map_ext_in. intros i Hi.
    apply in_map_iff in Hi. destruct Hi as (k & <- & Hk). apply in_seq in Hk.
    destruct (Z.eqb_spec (Z.of_nat k) (Z.of_nat (S s)));
      destruct (Z.eqb_spec (Z.of_nat k) (Z.of_nat s)); try lia; [| reflexivity].
    rewrite e. replace (Z.of_nat (S s) - 1) with (Z.of_nat s) by lia.
    reflexivity. }
  destruct (first_refused _ _); [reflexivity |].
  now rewrite bind_ret_l.
Qed.

Lemma effu_c2_loop_built {lib : Library} (c : Config) :
  len (c_strides c) = c_num_stages c ->
  len (c_enc_num_convs c) = c_num_stages c ->
  len (c_enc_dilations c) = c_num_stages c ->
  effu_c2_loop c (range (c_num_stages c)) (c_in_channels c) =
  match first_refused (first_refused block_refused) (built_c2 c) with
  | Some e => raise e
  | None => ret (built_c2 c)
  end.
Proof.
  intros Hs Hn Hd.
  exact (effu_c2_loop_closed c (Z.to_nat (c_num_stages c)) 0 (c_in_channels c)
           (le_n _) Hs Hn Hd).
Qed.

(** The four loops of [__init__] give the closed form, unless the library
    refuses a layer: then the exception is that of the first such layer. *)
Lemma build_blocks_spec {lib : Library} (c : Config) (icfg : pyval) :
  len (c_strides c) = c_num_stages c ->
  len (c_enc_num_convs c) = c_num_stages c ->
  len (c_enc_dilations c) = c_num_stages c ->
  build_blocks c icfg =
  match network_refused (built c icfg) with
  | Some e => raise e
  | None => ret (built c icfg)
  end.
Proof.
  intros Hs Hn Hd. unfold build_blocks, network_refused.
  cbn [effu_cbam effu_c1 effu_c2 decoder built].
  rewrite (mapM_first_refused _
             (fun i => mkCBAMBlock (np_sum_prefix (enc_channels_of c) i))
             CBAMBlock_refused) by reflexivity.
  fold (built_cbam c).
  destruct (first_refused CBAMBlock_refused _); [reflexivity |].
  rewrite bind_ret_l. cbn [or_else].
  rewrite (mapM_first_refused _
             (fun i => [mkConvModule (np_sum_prefix (enc_channels_of c) i)
                          (c_base_channels c * 2 ^ (i - 1)) 1 1 1 0
                          (conv_cfg (c_layer_cfg c)) (norm_cfg (c_layer_cfg c))
                          (act_cfg (c_layer_cfg c))])
             (first_refused ConvModule_refused)).
  2:{ intros i Hi. apply In_range_from in Hi.
      rewrite (getitem_Some _ _ _ (c_base_channels c * 2 ^ (i - 1)))
        by (apply enc_channels_nth; lia).
      rewrite bind_ret_l, first_refused_single. unfold construct.
      destruct (ConvModule_refused _); [reflexivity |].
      now rewrite bind_ret_l. }
  fold (built_c1 c).
  destruct (first_refused (first_refused ConvModule_refused) _); [reflexivity |].
  rewrite bind_ret_l. cbn [or_else].
  rewrite (effu_c2_loop_built c Hs Hn Hd).
  destruct (first_refused (first_refused block_refused) _); [reflexivity |].
  rewrite bind_ret_l. cbn [or_else].
  rewrite (mapM_first_refused _
             (fun i => block_of (c_base_channels c * 2 ^ i
                                 + c_base_channels c * 2 ^ (i + 1))
                                (c_base_channels c * 2 ^ i) 2 1 1
                                (c_with_cp c) (c_layer_cfg c))
             block_refused).
  2:{ intros i Hi. apply In_range in Hi.
      rewrite (getitem_Some _ _ _ (c_base_channels c * 2 ^ i))
        by (apply enc_channels_nth; lia).
      rewrite bind_ret_l.
      rewrite (getitem_Some _ _ _ (c_base_channels c * 2 ^ (i + 1)))
        by (apply enc_channels_nth; lia).
      rewrite bind_ret_l. apply BasicConvBlock_init_spec. }
  fold (built_decoder c).
  destruct (first_refused block_refused _); [reflexivity |].
  now rewrite bind_ret_l.
Qed.

(** The assertions of [check_lengths], in their order. *)
Lemma check_lengths_spec (c : Config) :
  check_lengths c =
  if negb (is_None (c_dcn c) && is_None (c_plugins c))
  then raise (AssertionError Msg_not_implemented)
  else match first_wrong_length c with
       | Some (name, text, v, l, _) =>
           raise (AssertionError (Msg_length name text v l (c_num_stages c)))
       | None => ret tt
       end.
Proof.
  unfold check_lengths, first_wrong_length, length_table.
  destruct (is_None (c_dcn c)); [| reflexivity].
  destruct (is_None (c_plugins c)); [| reflexivity].
  cbn [negb andb py_assert find fst snd].
  repeat (match goal with
          | |- context [?a =? ?b] => destruct (a =? b)
          end; cbn [negb andb py_assert find fst snd]; try reflexivity).
Qed.

Lemma first_wrong_length_None (c : Config) :
  first_wrong_length c = None <->
  len (c_strides c) = c_num_stages c /\
  len (c_enc_num_convs c) = c_num_stages c /\
  len (c_dec_num_convs c) = c_num_stages c - 1 /\
  len (c_downsamples c) = c_num_stages c - 1 /\
  len (c_enc_dilations c) = c_num_stages c /\
  len (c_dec_dilations c) = c_num_stages c - 1.
Proof.
  unfold first_wrong_length, length_table. cbn [find fst snd].
  repeat match goal with
         | |- context [?a =? ?b] => destruct (Z.eqb_spec a b)
         end; cbn [negb]; split; try discriminate; try tauto; intros; lia.
Qed.

Lemma first_refused_nth {A} (refused : A -> option exn) (l : list A) (k : nat)
    (a : A) :
  first_refused refused l = None -> nth_error l k = Some a -> refused a = None.
Proof.
  revert k. induction l as [| x l IH]; intros k R E; [now destruct k |].
  cbn [first_refused] in R. destruct (refused x) eqn:Rx; [discriminate R |].
  destruct k as [| k]; cbn in E; [now injection E as <- | eauto].
Qed.

Lemma network_refused_None {lib : Library} (m : AMDNet_EFFU) :
  network_refused m = None ->
  first_refused CBAMBlock_refused (effu_cbam m) = None /\
  first_refused (first_refused ConvModule_refused) (effu_c1 m) = None /\
  first_refused (first_refused block_refused) (effu_c2 m) = None /\
  first_refused block_refused (decoder m) = None.
Proof.
  unfold network_refused, or_else.
  destruct (first_refused CBAMBlock_refused _); [discriminate |].
  destruct (first_refused (first_refused ConvModule_refused) _); [discriminate |].
  destruct (first_refused (first_refused block_refused) _); [discriminate |].
  auto.
Qed.

(** A construction that succeeds gave the closed form, and every argument
    check held. *)
Lemma AMDNet_EFFU_init_inr {lib : Library} (c : Config) (w : list warning)
    (m : AMDNet_EFFU) :
  AMDNet_EFFU_init c = (w, inr m) ->
  exists icfg,
    init_cfg_of c = (w, inr icfg) /\
    c_dcn c = PyNone /\ c_plugins c = PyNone /\
    first_wrong_length c = None /\
    m = built c icfg.
Proof.
  unfold AMDNet_EFFU_init. intros E.
  apply bind_inr in E. destruct E as (l1 & icfg & l2 & E1 & E2 & ->).
  apply bind_inr in E2. destruct E2 as (l3 & [] & l4 & E3 & E4 & ->).
  rewrite check_lengths_spec in E3.
  destruct (c_dcn c); try discriminate. destruct (c_plugins c); try discriminate.
  cbn [is_None andb negb] in E3.
  destruct (first_wrong_length c) as [[[[[? ?] ?] ?] ?] |] eqn:F; [discriminate |].
  injection E3 as <-.
  pose proof (proj1 (first_wrong_length_None c) F) as (Hs & Hn & _ & _ & Hd & _).
  rewrite (build_blocks_spec c icfg Hs Hn Hd) in E4.
  destruct (network_refused _); [discriminate E4 |].
  injection E4 as <- <-.
  exists icfg. rewrite !app_nil_r in *. auto.
Qed.

(** The library has built every layer of a network that is constructed. *)
Lemma AMDNet_EFFU_init_built {lib : Library} (c : Config) (w : list warning)
    (m : AMDNet_EFFU) :
  AMDNet_EFFU_init c = (w, inr m) -> network_refused m = None.
Proof.
  unfold AMDNet_EFFU_init. intros E.
  apply bind_inr in E. destruct E as (l1 & icfg & l2 & E1 & E2 & ->).
  apply bind_inr in E2. destruct E2 as (l3 & [] & l4 & E3 & E4 & ->).
  rewrite check_lengths_spec in E3.
  destruct (negb _); [discriminate |].
  destruct (first_wrong_length c) as [[[[[? ?] ?] ?] ?] |] eqn:F; [discriminate |].
  pose proof (proj1 (first_wrong_length_None c) F) as (Hs & Hn & _ & _ & Hd & _).
  rewrite (build_blocks_spec c icfg Hs Hn Hd) in E4.
  destruct (network_refused (built c icfg)) eqn:R; [discriminate E4 |].
  injection E4 as _ <-. exact R.
Qed.

(** The layers that the library refuses do not depend on [init_cfg]. *)
Lemma network_refused_built {lib : Library} (c : Config) (icfg icfg' : pyval) :
  network_refused (built c icfg) = network_refused (built c icfg').
Proof. reflexivity. Qed.

Lemma AMDNet_EFFU_init_ok {lib : Library} (c : Config) (w : list warning)
    (icfg : pyval) :
  init_cfg_of c = (w, inr icfg) ->
  c_dcn c = PyNone -> c_plugins c = PyNone ->
  first_wrong_length c = None ->
  network_refused (built c icfg) = None ->
  AMDNet_EFFU_init c = (w, inr (built c icfg)).
Proof.
  intros E Hd Hp F R. unfold AMDNet_EFFU_init. rewrite E.
  apply bind_ret_log; [| reflexivity].
  rewrite check_lengths_spec, Hd, Hp, F. cbn [is_None andb negb].
  rewrite bind_ret_l.
  pose proof (proj1 (first_wrong_length_None c) F) as (Hs & Hn & _ & _ & Hdl & _).
  now rewrite (build_blocks_spec c icfg Hs Hn Hdl), R.
Qed.

(** When every argument check holds and the library refuses a layer, the
    construction ends in the exception of the first such layer. *)
Lemma AMDNet_EFFU_init_refused {lib : Library} (c : Config) (w : list warning)
    (icfg : pyval) (e : exn) :
  init_cfg_of c = (w, inr icfg) ->
  c_dcn c = PyNone -> c_plugins c = PyNone ->
  first_wrong_length c = None ->
  network_refused (built c icfg) = Some e ->
  AMDNet_EFFU_init c = (w, inl e).
Proof.
  intros E Hd Hp F R. unfold AMDNet_EFFU_init. rewrite E.
  apply bind_ret_log; [| reflexivity].
  rewrite check_lengths_spec, Hd, Hp, F. cbn [is_None andb negb].
  rewrite bind_ret_l.
  pose proof (proj1 (first_wrong_length_None c) F) as (Hs & Hn & _ & _ & Hdl & _).
  now rewrite (build_blocks_spec c icfg Hs Hn Hdl), R.
Qed.

(** ** The arguments [pretrained] and [init_cfg] *)

Lemma init_cfg_of_assert (c : Config) :
  truthy (c_init_cfg c) && truthy (c_pretrained c) = true ->
  init_cfg_of c = raise (AssertionError Msg_init_cfg_and_pretrained).
Proof. unfold init_cfg_of. now intros ->. Qed.

Lemma init_cfg_of_pass (c : Config) :
  truthy (c_init_cfg c) && truthy (c_pretrained c) = false ->
  init_cfg_of c =
  if isinstance_str (c_pretrained c) then
    ([Warn_pretrained_deprecated],
     inr (PyDict [("type"%string, PyStr "Pretrained");
                  ("checkpoint"%string, c_pretrained c)]))
  else if is_None (c_pretrained c) then
    ret (if is_None (c_init_cfg c) then default_init_cfg else c_init_cfg c)
  else raise (TypeError "pretrained must be a str or None").
Proof.
  unfold init_cfg_of. intros ->. cbn [negb py_assert]. rewrite bind_ret_l.
  destruct (isinstance_str (c_pretrained c)); [reflexivity |].
  destruct (is_None (c_pretrained c)); [| reflexivity].
  now destruct (is_None (c_init_cfg c)).
Qed.

(** The checks after the handling of [pretrained] and the construction of
    the layers emit no warning. *)
Lemma check_and_build_log {lib : Library} (c : Config) (icfg : pyval) :
  log_of (check_lengths c ;; build_blocks c icfg) = [].
Proof.
  rewrite check_lengths_spec.
  destruct (negb (is_None (c_dcn c) && is_None (c_plugins c))); [reflexivity |].
  destruct (first_wrong_length c) as [[[[[name text] v] l] e] |] eqn:F;
    [reflexivity |].
  rewrite bind_ret_l.
  apply first_wrong_length_None in F. destruct F as (Hs & Hn & _ & _ & Hd & _).
  rewrite build_blocks_spec by assumption.
  now destruct (network_refused _).
Qed.

(** C6, as the code has it.  The assertion fires exactly when [init_cfg]
    and [pretrained] are both true values for Python; when it does not
    fire, a [pretrained] that is neither a string nor [None] raises the
    type error, and a string [pretrained] logs the deprecation warning,
    which is the only warning of the run, sets [init_cfg] to the directive
    that loads the checkpoint and goes on with the remaining checks and the
    construction of the layers; the network is built when those checks hold
    and the library refuses none of its layers. *)
Theorem pretrained_handling {lib : Library} (c : Config) :
  (truthy (c_init_cfg c) && truthy (c_pretrained c) = true ->
   AMDNet_EFFU_init c = raise (AssertionError Msg_init_cfg_and_pretrained)) /\
  (truthy (c_init_cfg c) && truthy (c_pretrained c) = false ->
   isinstance_str (c_pretrained c) = false ->
   is_None (c_pretrained c) = false ->
   AMDNet_EFFU_init c = raise (TypeError "pretrained must be a str or None")) /\
  (forall s, c_pretrained c = PyStr s ->
   truthy (c_init_cfg c) && truthy (c_pretrained c) = false ->
   let directive := PyDict [("type"%string, PyStr "Pretrained");
                            ("checkpoint"%string, PyStr s)] in
   AMDNet_EFFU_init c =
     (tell Warn_pretrained_deprecated ;;
      check_lengths c ;; build_blocks c directive) /\
   log_of (AMDNet_EFFU_init c) = [Warn_pretrained_deprecated] /\
   (c_dcn c = PyNone -> c_plugins c = PyNone -> first_wrong_length c = None ->
    network_refused (built c directive) = None ->
    AMDNet_EFFU_init c = ([Warn_pretrained_deprecated], inr (built c directive)))).
Proof.
  split; [| split].
  - intros E. unfold AMDNet_EFFU_init. now rewrite init_cfg_of_assert.
  - intros E Hs Hn. unfold AMDNet_EFFU_init.
    now rewrite init_cfg_of_pass, Hs, Hn.
  - intros s Hs Ht directive.
    assert (init_cfg_of c = ([Warn_pretrained_deprecated], inr directive)) as E.
    { rewrite init_cfg_of_pass by exact Ht. now rewrite Hs. }
    assert (AMDNet_EFFU_init c =
            (tell Warn_pretrained_deprecated ;;
             check_lengths c ;; build_blocks c directive)) as Eq.
    { unfold AMDNet_EFFU_init. rewrite E. cbn [tell bind].
      destruct (check_lengths c ;; build_blocks c directive); reflexivity. }
    split; [exact Eq | split].
    + rewrite Eq. pose proof (check_and_build_log c directive) as Hl.
      unfold log_of in *. cbn [tell bind].
      destruct (check_lengths c ;; build_blocks c directive) as [l r].
      cbn in *. now subst l.
    + intros. now apply AMDNet_EFFU_init_ok.
Qed.

(** The three cases of [pretrained_handling] on the default configuration:
    a checkpoint path with an [init_cfg], the integer 5 alone, and a
    checkpoint path alone. *)
Lemma pretrained_handling_witness :
  AMDNet_EFFU_init
    (with_pretrained (default_config 3 64) (PyStr "ckpt.pth") default_init_cfg)
  = raise (AssertionError Msg_init_cfg_and_pretrained) /\
  AMDNet_EFFU_init (with_pretrained (default_config 3 64) (PyInt 5) PyNone)
  = raise (TypeError "pretrained must be a str or None") /\
  exists m,
    AMDNet_EFFU_init
      (with_pretrained (default_config 3 64) (PyStr "ckpt.pth") PyNone)
    = ([Warn_pretrained_deprecated], inr m) /\
    init_cfg m = PyDict [("type"%string, PyStr "Pretrained");
                         ("checkpoint"%string, PyStr "ckpt.pth")].
Proof.
  split; [| split].
  - apply (proj1 (pretrained_handling (lib := Torch_library) _)). reflexivity.
  - apply (proj1 (proj2 (pretrained_handling (lib := Torch_library) _))); reflexivity.
  - eexists. split.
    + apply (proj2 (proj2 (proj2 (proj2 (pretrained_handling (lib := Torch_library)
             (with_pretrained (default_config 3 64) (PyStr "ckpt.pth") PyNone)))
             "ckpt.pth"%string eq_refl eq_refl)));
        reflexivity.
    + reflexivity.
Defined.

(** C6 as it is worded fails in two places: a [pretrained] that is neither
    a string nor [None], supplied together with an [init_cfg], raises the
    assertion error and not the type error; and an empty path together
    with an [init_cfg] raises nothing. *)
Lemma pretrained_handling_counterexample :
  (isinstance_str (c_pretrained int_pretrained_config) = false /\
   is_None (c_pretrained int_pretrained_config) = false /\
   is_None (c_init_cfg int_pretrained_config) = false /\
   AMDNet_EFFU_init int_pretrained_config
     = ([], inl (AssertionError Msg_init_cfg_and_pretrained)) /\
   ~ exists msg,
       outcome (AMDNet_EFFU_init int_pretrained_config) = inl (TypeError msg)) /\
  (isinstance_str (c_pretrained empty_path_config) = true /\
   is_None (c_init_cfg empty_path_config) = false /\
   AMDNet_EFFU_init empty_path_config
     = ([Warn_pretrained_deprecated],
        inr (built empty_path_config
               (PyDict [("type"%string, PyStr "Pretrained");
                        ("checkpoint"%string, PyStr EmptyString)])))).
Proof.
  split.
  - repeat split; try reflexivity.
    intros [msg E]. vm_compute in E. discriminate E.
  - repeat split; reflexivity.
Qed.

(** ** The length assertions *)

Lemma first_wrong_length_Some (c : Config) (name text : string) (v : pyval)
    (l e : Z) :
  first_wrong_length c = Some (name, text, v, l, e) ->
  In (name, text, v, l, e) (length_table c) /\ l <> e.
Proof.
  intros F. unfold first_wrong_length in F. apply find_some in F.
  destruct F as [HIn Hne]. split; [exact HIn |].
  cbn [fst snd] in Hne. intros ->. now rewrite Z.eqb_refl in Hne.
Qed.

(** C7, as the code has it.  Once the handling of [pretrained] and
    [init_cfg] has passed and [dcn] and [plugins] are [None], a
    configuration with a sequence of the wrong length raises the assertion
    error that names the first such sequence (in the order strides,
    enc_num_convs, dec_num_convs, downsamples, enc_dilations,
    dec_dilations), its length and the expected one; a configuration whose
    six lengths are right is built when the library refuses none of its
    layers, and ends in the exception of the first refused layer
    otherwise. *)
Theorem length_assertions {lib : Library} (c : Config) (w : list warning)
    (icfg : pyval) :
  init_cfg_of c = (w, inr icfg) ->
  c_dcn c = PyNone -> c_plugins c = PyNone ->
  (forall name text v l e,
     first_wrong_length c = Some (name, text, v, l, e) ->
     AMDNet_EFFU_init c =
       (w, inl (AssertionError (Msg_length name text v l (c_num_stages c)))) /\
     In (name, text, v, l, e) (length_table c) /\ l <> e) /\
  (first_wrong_length c = None ->
     AMDNet_EFFU_init c =
       match network_refused (built c icfg) with
       | Some e => (w, inl e)
       | None => (w, inr (built c icfg))
       end) /\
  (first_wrong_length c = None <->
     len (c_strides c) = c_num_stages c /\
     len (c_enc_num_convs c) = c_num_stages c /\
     len (c_dec_num_convs c) = c_num_stages c - 1 /\
     len (c_downsamples c) = c_num_stages c - 1 /\
     len (c_enc_dilations c) = c_num_stages c /\
     len (c_dec_dilations c) = c_num_stages c - 1).
Proof.
  intros E Hd Hp. split; [| split].
  - intros name text v l e F. split; [| now apply first_wrong_length_Some].
    unfold AMDNet_EFFU_init. rewrite E.
    apply bind_ret_log; [| reflexivity].
    now rewrite check_lengths_spec, Hd, Hp, F.
  - intros F. destruct (network_refused (built c icfg)) as [e |] eqn:R.
    + now apply (AMDNet_EFFU_init_refused c w icfg e).
    + now apply AMDNet_EFFU_init_ok.
  - apply first_wrong_length_None.
Qed.

(** The default configuration is built; with a [strides] of four entries
    the assertion names [strides], its length 4 and the 5 stages. *)
Lemma length_assertions_witness :
  AMDNet_EFFU_init short_strides_config =
    ([], inl (AssertionError
                (Msg_length "strides" "num_stages"
                            (PyList [PyInt 1; PyInt 1; PyInt 1; PyInt 1]) 4 5))) /\
  AMDNet_EFFU_init (default_config 3 64) =
    ([], inr (built (default_config 3 64) default_init_cfg)).
Proof.
  split.
  - apply (proj1 (length_assertions (lib := Torch_library) short_strides_config [] default_init_cfg
                    eq_refl eq_refl eq_refl)
             "strides"%string "num_stages"%string _ 4 5).
    reflexivity.
  - exact (proj1 (proj2 (length_assertions (lib := Torch_library) (default_config 3 64) []
                           default_init_cfg eq_refl eq_refl eq_refl))
                  eq_refl).
Defined.

(** C7 as it is worded fails when an earlier check of [__init__] fails: a
    [strides] of the wrong length with a [pretrained] that is an integer
    raises the type error, and with a [dcn] that is not [None] it raises
    the assertion of the unimplemented feature, which names no sequence.
    And six right lengths do not build the network when the library
    refuses a layer: with [in_channels = -3] the first convolution of the
    encoder is refused. *)
Lemma length_assertions_counterexample :
  (len (c_strides short_strides_int_pretrained)
     <> c_num_stages short_strides_int_pretrained /\
   AMDNet_EFFU_init short_strides_int_pretrained
     = ([], inl (TypeError "pretrained must be a str or None"))) /\
  (len (c_strides short_strides_dcn) <> c_num_stages short_strides_dcn /\
   AMDNet_EFFU_init short_strides_dcn
     = ([], inl (AssertionError Msg_not_implemented))) /\
  (first_wrong_length (default_config (-3) 64) = None /\
   c_dcn (default_config (-3) 64) = PyNone /\
   c_plugins (default_config (-3) 64) = PyNone /\
   AMDNet_EFFU_init (default_config (-3) 64)
     = ([], inl (RuntimeError "Trying to create tensor with negative dimension"))).
Proof.
  split; [| split].
  - split; [vm_compute; discriminate | reflexivity].
  - split; [vm_compute; discriminate | reflexivity].
  - repeat split; reflexivity.
Qed.

(** ** Arguments that the construction does not use *)

Lemma block_of_convs_2 (ic oc st dl : Z) (cp : bool) (lc : LayerCfg) :
  bcb_convs (block_of ic oc 2 st dl cp lc) =
  [ mkConvModule ic oc 3 st 1 1 (conv_cfg lc) (norm_cfg lc) (act_cfg lc);
    mkConvModule oc oc 3 1 dl dl (conv_cfg lc) (norm_cfg lc) (act_cfg lc) ].
Proof. reflexivity. Qed.

(** C9.  Two configurations that differ only in the entries of
    [dec_num_convs] and [dec_dilations], both accepted by [__init__], give
    the same warnings and the same network; every decoder block has two
    convolutions, both of dilation 1. *)
Theorem decoder_args_unused {lib : Library} (c : Config) (dec_num_convs dec_dilations : list Z)
    (w w' : list warning) (m m' : AMDNet_EFFU) :
  AMDNet_EFFU_init c = (w, inr m) ->
  AMDNet_EFFU_init (with_decoder_args c dec_num_convs dec_dilations)
    = (w', inr m') ->
  w' = w /\ m' = m /\
  Forall (fun d => len (bcb_convs d) = 2 /\
                   Forall (fun cm => cm_dilation cm = 1) (bcb_convs d))
         (decoder m).
Proof.
  intros E E'.
  apply AMDNet_EFFU_init_inr in E. destruct E as (icfg & Ei & _ & _ & _ & ->).
  apply AMDNet_EFFU_init_inr in E'. destruct E' as (icfg' & Ei' & _ & _ & _ & ->).
  change (init_cfg_of (with_decoder_args c dec_num_convs dec_dilations))
    with (init_cfg_of c) in Ei'.
  rewrite Ei in Ei'. injection Ei' as <- <-.
  split; [reflexivity | split; [reflexivity |]].
  cbn [decoder built]. unfold built_decoder.
  apply Forall_forall. intros d Hd. apply in_map_iff in Hd.
  destruct Hd as (i & <- & _). rewrite block_of_convs_2.
  split; [reflexivity |]. repeat constructor.
Qed.

(** The default decoder arguments against three convolutions of dilation 4
    in every decoder stage. *)
Lemma decoder_args_unused_witness :
  AMDNet_EFFU_init
    (with_decoder_args (default_config 3 64) [3; 3; 3; 3] [4; 4; 4; 4])
  = AMDNet_EFFU_init (default_config 3 64) /\
  Forall (fun d => len (bcb_convs d) = 2 /\
                   Forall (fun cm => cm_dilation cm = 1) (bcb_convs d))
         (decoder (built (default_config 3 64) default_init_cfg)).
Proof.
  destruct (decoder_args_unused (lib := Torch_library)
              (default_config 3 64) [3; 3; 3; 3] [4; 4; 4; 4]
              [] [] (built (default_config 3 64) default_init_cfg)
              (built (with_decoder_args (default_config 3 64)
                                        [3; 3; 3; 3] [4; 4; 4; 4])
                     default_init_cfg)
              eq_refl eq_refl) as (_ & _ & HF).
  split; [reflexivity | exact HF].
Defined.

(** ** The divisibility check *)

Lemma getitem_log {L A} (name : string) (l : list A) (i : Z) :
  log_of (@getitem L A name l i) = [].
Proof. unfold getitem. now destruct (nth_error l (Z.to_nat i)). Qed.

Lemma log_bind_nil {L A B} (m : M L A) (f : A -> M L B) :
  log_of m = [] -> (forall a, log_of (f a) = []) -> log_of (bind m f) = [].
Proof.
  destruct m as [l [e | a]]; simpl; intros ->; [reflexivity |].
  intros Hf. specialize (Hf a). destruct (f a). exact Hf.
Qed.

Lemma whole_downsample_rate_loop_log (m : AMDNet_EFFU) (stages : list Z)
    (rate : Z) :
  log_of (whole_downsample_rate_loop m stages rate) = [].
Proof.
  revert rate. induction stages as [| i stages IH]; intros rate; [reflexivity |].
  cbn [whole_downsample_rate_loop].
  apply log_bind_nil; [apply getitem_log |]. intros s.
  destruct (s =? 2); [apply IH |].
  apply log_bind_nil; [apply getitem_log |]. intros d.
  destruct (truthy d); apply IH.
Qed.

(** The check calls no sub-module. *)
Lemma _check_input_divisible_log {T} `{Backend T} (m : AMDNet_EFFU) (x : T) :
  log_of (_check_input_divisible m x) = [].
Proof.
  unfold _check_input_divisible.
  apply log_bind_nil; [apply whole_downsample_rate_loop_log |].
  intros rate. unfold py_assert. now destruct (_ && _).
Qed.

Lemma forward_check_passes {T} `{Backend T} (m : AMDNet_EFFU) (x : T) :
  outcome (_check_input_divisible m x) = inr tt ->
  forward m x = forward_body m x.
Proof.
  intros E. unfold forward.
  pose proof (_check_input_divisible_log m x) as Hl.
  destruct (_check_input_divisible m x) as [l r]. cbn in E, Hl. subst.
  exact (bind_ret_l tt (fun _ => forward_body m x)).
Qed.

Lemma forward_check_fails {T} `{Backend T} (m : AMDNet_EFFU) (x : T) (e : exn) :
  outcome (_check_input_divisible m x) = inl e ->
  forward m x = ([], inl e).
Proof.
  intros E. unfold forward.
  pose proof (_check_input_divisible_log m x) as Hl.
  destruct (_check_input_divisible m x) as [l r]. cbn in E, Hl. now subst.
Qed.

(** C10.  Two configurations that differ only in [downsamples], both
    accepted by [__init__], give networks with the same pools (of factors
    2, 4, 8 and 16) and the same blocks; on an input that passes the
    divisibility check of both, the two forward passes call the same
    sub-modules in the same order and end in the same outcome, for every
    tensor library. *)
Theorem downsamples_only_checked {lib : Library} {T} `{Backend T} (c : Config)
    (ds : list pyval) (w w' : list warning) (m m' : AMDNet_EFFU) (x : T) :
  AMDNet_EFFU_init c = (w, inr m) ->
  AMDNet_EFFU_init (with_downsamples c ds) = (w', inr m') ->
  outcome (_check_input_divisible m x) = inr tt ->
  outcome (_check_input_divisible m' x) = inr tt ->
  forward m' x = forward m x /\
  (pool_2 m', pool_4 m', pool_8 m', pool_16 m')
    = (pool_2 m, pool_4 m, pool_8 m, pool_16 m) /\
  (pool_2 m, pool_4 m, pool_8 m, pool_16 m)
    = (mkMaxPool2d 2 2 true, mkMaxPool2d 4 4 true,
       mkMaxPool2d 8 8 true, mkMaxPool2d 16 16 true) /\
  (effu_cbam m', effu_c1 m', effu_c2 m', decoder m')
    = (effu_cbam m, effu_c1 m, effu_c2 m, decoder m).
Proof.
  intros E E' Hc Hc'.
  rewrite (forward_check_passes m x Hc), (forward_check_passes m' x Hc').
  apply AMDNet_EFFU_init_inr in E. destruct E as (icfg & _ & _ & _ & _ & ->).
  apply AMDNet_EFFU_init_inr in E'. destruct E' as (icfg' & _ & _ & _ & _ & ->).
  repeat split; reflexivity.
Qed.

(** All flags off against the default flags, on a 64 x 64 input. *)
Lemma downsamples_only_checked_witness :
  forward (built (with_downsamples (default_config 3 64)
                    [PyBool false; PyBool false; PyBool false; PyBool false])
                 default_init_cfg)
          (mkShape 2 3 64 64)
  = forward (built (default_config 3 64) default_init_cfg) (mkShape 2 3 64 64).
Proof.
  apply (downsamples_only_checked (lib := Torch_library) (default_config 3 64)
           [PyBool false; PyBool false; PyBool false; PyBool false] [] []
           (built (default_config 3 64) default_init_cfg)
           (built (with_downsamples (default_config 3 64)
                     [PyBool false; PyBool false; PyBool false; PyBool false])
                  default_init_cfg)
           (mkShape 2 3 64 64)).
  - vm_compute. reflexivity.
  - vm_compute. reflexivity.
  - vm_compute. reflexivity.
  - vm_compute. reflexivity.
Defined.

(** The factor of a stage, as the loop of the check sees it. *)
Lemma whole_downsample_rate_loop_closed (m : AMDNet_EFFU) (stages : list Z)
    (rate : Z) :
  (forall i, In i stages -> 1 <= i < len (strides m) /\ i - 1 < len (downsamples m)) ->
  whole_downsample_rate_loop m stages rate =
  ret (rate *
       fold_right Z.mul 1
         (map (fun i =>
                 if (nth (Z.to_nat i) (strides m) 0 =? 2)
                    || truthy (nth (Z.to_nat (i - 1)) (downsamples m) PyNone)
                 then 2 else 1)
              stages)).
Proof.
  revert rate. induction stages as [| i stages IH]; intros rate Hin.
  - cbn. f_equal. lia.
  - cbn [whole_downsample_rate_loop map fold_right].
    destruct (Hin i (or_introl eq_refl)) as [Hi Hi'].
    assert (forall j, In j stages ->
                      1 <= j < len (strides m) /\ j - 1 < len (downsamples m))
      as Hin' by (intros; apply Hin; now right).
    rewrite (getitem_in_range _ _ _ 0) by lia. rewrite bind_ret_l.
    destruct (nth (Z.to_nat i) (strides m) 0 =? 2); cbn [orb].
    + rewrite IH by exact Hin'. f_equal. lia.
    + rewrite (getitem_in_range _ _ _ PyNone) by lia. rewrite bind_ret_l.
      destruct (truthy _); rewrite IH by exact Hin'; f_equal; lia.
Qed.

Lemma spec_downsample_factor_pos (n : Z) (st : list Z) (ds : list pyval) :
  0 < spec_downsample_factor n st ds.
Proof.
  unfold spec_downsample_factor.
  induction (range_from 1 n) as [| i l IH]; cbn [map fold_right]; [lia |].
  destruct (_ || _); lia.
Qed.

(** On a constructed network the loop computes the factor of the
    specification. *)
Lemma whole_downsample_rate_built {lib : Library} (c : Config) (w : list warning)
    (m : AMDNet_EFFU) :
  AMDNet_EFFU_init c = (w, inr m) ->
  whole_downsample_rate m =
  ret (spec_downsample_factor (num_stages m) (strides m) (downsamples m)).
Proof.
  intros E. apply AMDNet_EFFU_init_inr in E.
  destruct E as (icfg & _ & _ & _ & F & ->).
  apply first_wrong_length_None in F. destruct F as (Hs & _ & _ & Hd & _).
  unfold whole_downsample_rate. cbn [num_stages strides downsamples built].
  rewrite whole_downsample_rate_loop_closed.
  - unfold spec_downsample_factor. now rewrite Z.mul_1_l.
  - cbn [strides downsamples built]. intros i Hi.
    apply In_range_from in Hi. lia.
Qed.

(** C2.  On a constructed network, an input whose height or width is not
    divisible by the cumulative downsampling factor of the specification
    makes the forward pass raise the assertion error that carries the two
    extents and the factor, and the log of called sub-modules is empty: no
    layer has run. *)
Theorem indivisible_input_asserts {lib : Library} {T} `{Backend T} (c : Config)
    (w : list warning) (m : AMDNet_EFFU) (x : T) :
  AMDNet_EFFU_init c = (w, inr m) ->
  let rate := spec_downsample_factor (num_stages m) (strides m) (downsamples m) in
  ~ (rate | sh_H (shape x)) \/ ~ (rate | sh_W (shape x)) ->
  forward m x =
  ([], inl (AssertionError
              (Msg_not_divisible (sh_H (shape x)) (sh_W (shape x)) rate
                                 (num_stages m) (strides m) (downsamples m)))).
Proof.
  intros E rate Hnd.
  apply forward_check_fails. unfold _check_input_divisible.
  rewrite (whole_downsample_rate_built c w m E), bind_ret_l. fold rate.
  assert (rate <> 0) as Hr
    by (pose proof (spec_downsample_factor_pos (num_stages m) (strides m)
                      (downsamples m)); subst rate; lia).
  assert ((sh_H (shape x) mod rate =? 0) && (sh_W (shape x) mod rate =? 0) = false)
    as ->.
  { apply andb_false_iff.
    destruct Hnd as [Hnd | Hnd]; [left | right]; apply Z.eqb_neq;
      intros Hz; apply Hnd; now apply Z.mod_divide. }
  reflexivity.
Qed.

(** The default network on a 24 x 64 input: the factor is 16. *)
Lemma indivisible_input_asserts_witness :
  forward (built (default_config 3 64) default_init_cfg) (mkShape 2 3 24 64) =
  ([], inl (AssertionError
              (Msg_not_divisible 24 64 16 5 [1; 1; 1; 1; 1]
                 [PyBool true; PyBool true; PyBool true; PyBool true]))).
Proof.
  assert (~ (16 | 24) \/ ~ (16 | 64)) as Hnd by (left; intros [q Hq]; lia).
  exact (indivisible_input_asserts (lib := Torch_library) (default_config 3 64) []
           (built (default_config 3 64) default_init_cfg) (mkShape 2 3 24 64)
           eq_refl Hnd).
Defined.

(** ** The wiring of the forward pass *)

Lemma lift_inr {L A} (a : A) : @lift L A (inr a) = ret a.
Proof. reflexivity. Qed.

Ltac monad_head := repeat (rewrite bind_assoc || rewrite bind_ret_l).
Ltac monad_step :=
  monad_head;
  first [ reflexivity | apply bind_ext; intro ].

Lemma forward_body_spec {T} `{Backend T} (m : AMDNet_EFFU) (x : T) :
  pool_2 m = mkMaxPool2d 2 2 true -> pool_4 m = mkMaxPool2d 4 4 true ->
  pool_8 m = mkMaxPool2d 8 8 true -> pool_16 m = mkMaxPool2d 16 16 true ->
  up_2 m = mkUpsample 2 Bilinear true ->
  forward_body m x = spec_forward_body m x.
Proof.
  intros H2 H4 H8 H16 Hu.
  unfold forward_body, spec_forward_body, spec_encoder_level,
    spec_decoder_level, spec_fusion_input.
  rewrite H2, H4, H8, H16, Hu.
  change (range 1) with [0]. change (range 2) with [0; 1].
  change (range 3) with [0; 1; 2]. change (range 4) with [0; 1; 2; 3].
  cbn [combine mapM fst snd].
  change (2 ^ (1 - 0)) with 2.
  change (2 ^ (2 - 0)) with 4. change (2 ^ (2 - 1)) with 2.
  change (2 ^ (3 - 0)) with 8. change (2 ^ (3 - 1)) with 4.
  change (2 ^ (3 - 2)) with 2.
  change (2 ^ (4 - 0)) with 16. change (2 ^ (4 - 1)) with 8.
  change (2 ^ (4 - 2)) with 4. change (2 ^ (4 - 3)) with 2.
  change (1 - 1) with 0. change (2 - 1) with 1. change (3 - 1) with 2.
  change (4 - 1) with 3.
  do 6 monad_step. monad_head. rewrite torch_cat_single, lift_inr.
  repeat monad_step.
Qed.

Lemma firstn_seq_le (k s n : nat) :
  (k <= n)%nat -> firstn k (seq s n) = seq s k.
Proof.
  revert s n. induction k as [| k IH]; intros s n Hk; [reflexivity |].
  destruct n as [| n]; [lia |]. cbn [seq firstn]. f_equal. apply IH. lia.
Qed.

Lemma firstn_range (n i : Z) :
  0 <= i <= n -> firstn (Z.to_nat i) (range n) = range i.
Proof.
  intros Hi. unfold range. rewrite firstn_map, firstn_seq_le by lia.
  reflexivity.
Qed.

Lemma np_sum_prefix_enc_channels (c : Config) (i : Z) :
  0 <= i <= c_num_stages c ->
  np_sum_prefix (enc_channels_of c) i = spec_width_below (c_base_channels c) i.
Proof.
  intros Hi. unfold np_sum_prefix, enc_channels_of, spec_width_below.
  now rewrite firstn_map, firstn_range.
Qed.

(** C3.  On a constructed network: the forward pass after the check is the
    wiring of the specification, in which level [i] of 1..4 feeds its fusion
    block with the concatenation of the outputs of the levels [j < i], each
    max-pooled in ceiling mode by [2^(i-j)], then applies the attention
    gate, the 1x1 convolution and the convolution block of the level; there
    are [num_stages - 1] attention gates, 1x1 convolutions and decoder
    blocks; the gate and the 1x1 convolution of level [i] are built for the
    sum of the widths [base_channels * 2^j] of the levels [j < i], and the
    convolution gives the width of level [i - 1]; decoder block [i] expects
    [base_channels * 2^i + base_channels * 2^(i+1)] channels. *)
Theorem fusion_wiring {lib : Library} {T} `{Backend T} (c : Config) (w : list warning)
    (m : AMDNet_EFFU) :
  AMDNet_EFFU_init c = (w, inr m) ->
  let n := c_num_stages c in
  let base := c_base_channels c in
  (forall x : T,
     forward m x = (_check_input_divisible m x ;; spec_forward_body m x)) /\
  len (effu_cbam m) = n - 1 /\
  len (effu_c1 m) = n - 1 /\
  len (decoder m) = n - 1 /\
  (forall i, 1 <= i < n ->
     nth_error (effu_cbam m) (Z.to_nat (i - 1))
       = Some (mkCBAMBlock (spec_width_below base i)) /\
     exists cm,
       nth_error (effu_c1 m) (Z.to_nat (i - 1)) = Some [cm] /\
       cm_kernel_size cm = 1 /\ cm_stride cm = 1 /\ cm_padding cm = 0 /\
       cm_in_channels cm = spec_width_below base i /\
       cm_out_channels cm = spec_width base (i - 1)) /\
  (forall i, 0 <= i < n - 1 ->
     exists d cm rest,
       nth_error (decoder m) (Z.to_nat i) = Some d /\
       bcb_convs d = cm :: rest /\
       cm_in_channels cm = spec_width base i + spec_width base (i + 1) /\
       cm_out_channels cm = spec_width base i).
Proof.
  intros E n base.
  apply AMDNet_EFFU_init_inr in E. destruct E as (icfg & _ & _ & _ & F & ->).
  apply first_wrong_length_None in F. destruct F as (_ & _ & Hdec & _).
  assert (1 <= n) as Hn by (unfold len in Hdec; subst n; lia).
  split; [| split; [| split; [| split; [| split]]]].
  - intros x. unfold forward. apply bind_ext. intros _.
    now apply forward_body_spec.
  - cbn [effu_cbam built]. unfold built_cbam, len.
    rewrite length_map. fold (len (range_from 1 (c_num_stages c))).
    rewrite range_from_length. subst n. lia.
  - cbn [effu_c1 built]. unfold built_c1, len.
    rewrite length_map. fold (len (range_from 1 (c_num_stages c))).
    rewrite range_from_length. subst n. lia.
  - cbn [decoder built]. unfold built_decoder, len.
    rewrite length_map. fold (len (range (c_num_stages c - 1))).
    rewrite range_length. subst n. lia.
  - intros i Hi. cbn [effu_cbam effu_c1 built]. unfold built_cbam, built_c1.
    rewrite !nth_error_map, (range_from_nth 1 _ i) by (subst n; lia).
    cbn [option_map].
    rewrite np_sum_prefix_enc_channels by (subst n; lia).
    split; [reflexivity |]. eexists. split; [reflexivity |].
    cbn. repeat split; reflexivity.
  - intros i Hi. cbn [decoder built]. unfold built_decoder.
    rewrite nth_error_map, (range_nth _ i) by (subst n; lia).
    cbn [option_map]. do 3 eexists.
    split; [reflexivity |]. rewrite block_of_convs_2.
    split; [reflexivity |]. split; reflexivity.
Qed.

(** The default network: four blocks of each kind; the fusion block of
    level 3 takes 64 + 128 + 256 channels. *)
Lemma fusion_wiring_witness :
  len (effu_cbam default_network) = 4 /\
  nth_error (effu_cbam default_network) 2 = Some (mkCBAMBlock 448) /\
  forward default_network (mkShape 2 3 64 64) =
    (_check_input_divisible default_network (mkShape 2 3 64 64) ;;
     spec_forward_body default_network (mkShape 2 3 64 64)).
Proof.
  destruct (fusion_wiring (lib := Torch_library) (T := Shape) (default_config 3 64) []
              default_network eq_refl)
    as (Hf & Hl & _ & _ & Hi & _).
  split; [exact Hl | split; [| exact (Hf (mkShape 2 3 64 64))]].
  exact (proj1 (Hi 3 ltac:(cbn; lia))).
Defined.

(** ** The five hard-wired levels *)

Lemma fails_raise {L A} (e : exn) : fails (@raise L A e).
Proof. now exists e. Qed.

Lemma fails_bind {L A B} (m : M L A) (f : A -> M L B) :
  (forall a, fails (f a)) -> fails (bind m f).
Proof.
  intros Hf. destruct m as [l [e | a]]; [now exists e |].
  destruct (Hf a) as [e He]. exists e. unfold outcome in *. cbn.
  destruct (f a). exact He.
Qed.

Lemma log_bind_Forall {L A B} (P : L -> Prop) (m : M L A) (f : A -> M L B) :
  Forall P (log_of m) -> (forall a, Forall P (log_of (f a))) ->
  Forall P (log_of (bind m f)).
Proof.
  destruct m as [l [e | a]]; cbn; intros Hl Hf; [exact Hl |].
  specialize (Hf a). destruct (f a) as [l' r]. cbn in *.
  apply Forall_app. now split.
Qed.

Lemma getitem_log_Forall {L A} (P : L -> Prop) (name : string) (l : list A)
    (i : Z) : Forall P (log_of (@getitem L A name l i)).
Proof. rewrite getitem_log. constructor. Qed.

Lemma call_log_Forall {T} (P : submodule -> Prop) (ev : submodule)
    (f : T -> exn + T) (x : T) :
  P ev -> Forall P (log_of (call ev f x)).
Proof.
  intros Hev. unfold call, tell, lift. cbn. destruct (f x); now repeat constructor.
Qed.

Lemma lift_log_Forall {L A} (P : L -> Prop) (r : exn + A) :
  Forall P (log_of (lift r)).
Proof. constructor. Qed.

(** No forward pass calls a block of stage 5 or later. *)
Lemma forward_log_early {T} `{Backend T} (m : AMDNet_EFFU) (x : T) :
  Forall (fun ev => later_stage ev = false) (log_of (forward m x)).
Proof.
  unfold forward. apply log_bind_Forall.
  { rewrite _check_input_divisible_log. constructor. }
  intros _. unfold forward_body.
  repeat first
    [ apply log_bind_Forall;
      [ first [ apply getitem_log_Forall
              | apply call_log_Forall; reflexivity
              | apply lift_log_Forall ]
      | intro ]
    | constructor ].
Qed.

Lemma getitem_firstn_app {L A} (name : string) (l l' : list A) (k : nat)
    (i : Z) :
  (Z.to_nat i < k)%nat -> (k <= List.length l)%nat ->
  @getitem L A name (firstn k l ++ l') i = getitem name l i.
Proof.
  intros Hi Hk. unfold getitem.
  rewrite nth_error_app1 by (rewrite length_firstn; lia).
  now rewrite nth_error_firstn, (proj2 (Nat.ltb_lt _ _) Hi).
Qed.

(** The check reads only [num_stages], [strides] and [downsamples]. *)
Lemma _check_input_divisible_ext {T} `{Backend T} (m m' : AMDNet_EFFU) (x : T) :
  num_stages m' = num_stages m -> strides m' = strides m ->
  downsamples m' = downsamples m ->
  _check_input_divisible m' x = _check_input_divisible m x.
Proof.
  intros Hn Hs Hd. unfold _check_input_divisible, whole_downsample_rate.
  rewrite Hn, Hs, Hd.
  assert (forall stages rate,
            whole_downsample_rate_loop m' stages rate
            = whole_downsample_rate_loop m stages rate) as ->; [| reflexivity].
  induction stages as [| i stages IH]; intros rate; [reflexivity |].
  cbn [whole_downsample_rate_loop]. rewrite Hs, Hd.
  apply bind_ext. intros s. destruct (s =? 2); [apply IH |].
  apply bind_ext. intros d. destruct (truthy d); apply IH.
Qed.

(** The blocks after the first five (four) entries of the module lists do
    not enter the forward pass. *)
Lemma forward_later_blocks {T} `{Backend T} (m : AMDNet_EFFU)
    (cbam' : list CBAMBlock) (c1' : list (list ConvModule))
    (c2' : list (list BasicConvBlock)) (dec' : list BasicConvBlock) (x : T) :
  5 <= len (effu_c2 m) -> 4 <= len (effu_c1 m) ->
  4 <= len (effu_cbam m) -> 4 <= len (decoder m) ->
  forward (with_later_blocks m cbam' c1' c2' dec') x = forward m x.
Proof.
  unfold len. intros H2 H1 Hc Hd.
  unfold forward.
  rewrite (_check_input_divisible_ext m (with_later_blocks m cbam' c1' c2' dec'))
    by reflexivity.
  apply bind_ext. intros _.
  unfold forward_body.
  cbn [with_later_blocks effu_c2 effu_c1 effu_cbam decoder
       pool_2 pool_4 pool_8 pool_16 up_2].
  rewrite !(getitem_firstn_app "effu_c2") by (cbn; lia).
  rewrite !(getitem_firstn_app "effu_c1") by (cbn; lia).
  rewrite !(getitem_firstn_app "effu_cbam") by (cbn; lia).
  rewrite !(getitem_firstn_app "decoder") by (cbn; lia).
  reflexivity.
Qed.

Lemma built_lengths (c : Config) (icfg : pyval) :
  1 <= c_num_stages c ->
  len (effu_c2 (built c icfg)) = c_num_stages c /\
  len (effu_c1 (built c icfg)) = c_num_stages c - 1 /\
  len (effu_cbam (built c icfg)) = c_num_stages c - 1 /\
  len (decoder (built c icfg)) = c_num_stages c - 1.
Proof.
  intros Hn. cbn [effu_c2 effu_c1 effu_cbam decoder built].
  unfold built_c2, built_c1, built_cbam, built_decoder, len.
  rewrite !length_map.
  fold (len (range (c_num_stages c))).
  fold (len (range_from 1 (c_num_stages c))).
  fold (len (range (c_num_stages c - 1))).
  rewrite !range_length, range_from_length. lia.
Qed.

(** A network of fewer than five stages: the forward pass is the check
    and the levels that exist, followed by the failing lookup. *)
Lemma forward_short {T} `{Backend T} (m : AMDNet_EFFU) (x : T) (n : nat) :
  (1 <= n < 5)%nat ->
  len (effu_c2 m) = Z.of_nat n ->
  pool_2 m = mkMaxPool2d 2 2 true -> pool_4 m = mkMaxPool2d 4 4 true ->
  pool_8 m = mkMaxPool2d 8 8 true -> pool_16 m = mkMaxPool2d 16 16 true ->
  up_2 m = mkUpsample 2 Bilinear true ->
  forward m x =
  (_check_input_divisible m x ;;
   xs <- spec_encoder m x n ;;
   raise (IndexError "effu_c2" (Z.of_nat n))).
Proof.
  intros Hn Hlen H2 H4 H8 H16 Hu.
  unfold forward. apply bind_ext. intros _.
  rewrite forward_body_spec by assumption.
  unfold spec_forward_body.
  assert (forall (xs : list T) (K : T -> M submodule (list T)),
             bind (spec_encoder_level m (Z.of_nat n) xs) K
             = raise (IndexError "effu_c2" (Z.of_nat n))) as Hfail.
  { intros xs K. unfold spec_encoder_level.
    rewrite (getitem_out_of_range "effu_c2") by lia. reflexivity. }
  destruct n as [| [| [| [| [| n]]]]]; try lia;
    cbn [spec_encoder app Z.of_nat Pos.of_succ_nat Pos.succ] in *;
    repeat first [ rewrite Hfail; reflexivity | monad_step ].
Qed.

(** C4, as the code has it.  A constructed network of fewer than five
    stages never returns from a forward pass: the pass is the divisibility
    check and the encoder levels that exist, then the out-of-range lookup
    [effu_c2[num_stages]], so it ends in the error of the check, in the
    error of a layer, or in that index error.  A constructed network of more
    than five stages has [num_stages] encoder blocks and [num_stages - 1]
    fusion and decoder blocks, but the forward pass calls none of the blocks
    of stage 5 or later and is unchanged when they are replaced. *)
Theorem forward_five_levels {lib : Library} {T} `{Backend T} (c : Config) (w : list warning)
    (m : AMDNet_EFFU) :
  AMDNet_EFFU_init c = (w, inr m) ->
  (c_num_stages c < 5 ->
   forall x : T,
     forward m x =
       (_check_input_divisible m x ;;
        xs <- spec_encoder m x (Z.to_nat (c_num_stages c)) ;;
        raise (IndexError "effu_c2" (c_num_stages c))) /\
     fails (forward m x)) /\
  (5 < c_num_stages c ->
   len (effu_c2 m) = c_num_stages c /\
   len (effu_c1 m) = c_num_stages c - 1 /\
   len (effu_cbam m) = c_num_stages c - 1 /\
   len (decoder m) = c_num_stages c - 1 /\
   forall (x : T) cbam' c1' c2' dec',
     forward (with_later_blocks m cbam' c1' c2' dec') x = forward m x /\
     Forall (fun ev => later_stage ev = false) (log_of (forward m x))).
Proof.
  intros E.
  apply AMDNet_EFFU_init_inr in E. destruct E as (icfg & _ & _ & _ & F & ->).
  apply first_wrong_length_None in F. destruct F as (_ & _ & Hdec & _).
  assert (1 <= c_num_stages c) as Hn by (unfold len in Hdec; lia).
  destruct (built_lengths c icfg Hn) as (L2 & L1 & Lc & Ld).
  split.
  - intros Hlt x.
    assert (forward (built c icfg) x =
            (_check_input_divisible (built c icfg) x ;;
             xs <- spec_encoder (built c icfg) x (Z.to_nat (c_num_stages c)) ;;
             raise (IndexError "effu_c2" (c_num_stages c)))) as Eq.
    { rewrite (forward_short (built c icfg) x (Z.to_nat (c_num_stages c)));
        try reflexivity; try lia.
      now rewrite Z2Nat.id by lia. }
    split; [exact Eq |].
    rewrite Eq. apply fails_bind. intros _. apply fails_bind. intros xs.
    apply fails_raise.
  - intros Hgt. repeat split; try assumption.
    + apply forward_later_blocks; lia.
    + apply forward_log_early.
Qed.

(** Four stages against a 64 x 64 input: the first four levels run and
    the lookup [effu_c2[4]] fails; six stages: the sixth encoder block and
    the fifth fusion and decoder blocks can be dropped. *)
Lemma forward_five_levels_witness :
  fails (forward four_stage_network (mkShape 2 3 64 64)) /\
  outcome (forward four_stage_network (mkShape 2 3 64 64))
    = inl (IndexError "effu_c2" 4) /\
  forward (with_later_blocks six_stage_network [] [] [] []) (mkShape 2 3 64 64)
  = forward six_stage_network (mkShape 2 3 64 64).
Proof.
  assert (c_num_stages (uniform_config 3 64 4) < 5) as H4 by (cbn; lia).
  assert (5 < c_num_stages (uniform_config 3 64 6)) as H6 by (cbn; lia).
  pose proof (forward_five_levels (lib := Torch_library) (T := Shape) (uniform_config 3 64 4) []
                four_stage_network eq_refl) as [Hshort _].
  pose proof (forward_five_levels (lib := Torch_library) (T := Shape) (uniform_config 3 64 6) []
                six_stage_network eq_refl) as [_ Hlong].
  split; [| split].
  - exact (proj2 (Hshort H4 (mkShape 2 3 64 64))).
  - rewrite (proj1 (Hshort H4 (mkShape 2 3 64 64))). vm_compute. reflexivity.
  - destruct (Hlong H6) as (_ & _ & _ & _ & Hrep).
    exact (proj1 (Hrep (mkShape 2 3 64 64) [] [] [] [])).
Defined.

(** C4 as it is worded fails on an input that the check refuses: a network
    of four stages on a 3 x 3 input raises the assertion error of the
    check, not an index error. *)
Lemma forward_five_levels_counterexample :
  AMDNet_EFFU_init (uniform_config 3 64 4) = ([], inr four_stage_network) /\
  c_num_stages (uniform_config 3 64 4) < 5 /\
  forward four_stage_network (mkShape 1 3 3 3) =
    ([], inl (AssertionError
                (Msg_not_divisible 3 3 8 4 [1; 1; 1; 1]
                   [PyBool true; PyBool true; PyBool true]))) /\
  ~ exists name i,
      outcome (forward four_stage_network (mkShape 1 3 3 3))
      = inl (IndexError name i).
Proof.
  split; [reflexivity | split; [cbn; lia | split]].
  - vm_compute. reflexivity.
  - intros (name & i & E). vm_compute in E. discriminate E.
Qed.

(** ** The order of the calls *)

Lemma follows_bind_nil {L A B} (l : list L) (m : M L A) (f : A -> M L B) :
  log_of m = [] -> (forall a, follows l (f a)) -> follows l (bind m f).
Proof.
  intros Hm Hf. destruct m as [lm [e | a]]; cbn in Hm; subst lm.
  - split; [exists 0%nat; reflexivity | discriminate].
  - destruct (Hf a) as [Hp Hs]. unfold follows, log_of, outcome in *. cbn.
    destruct (f a) as [lf r]. cbn in *. auto.
Qed.

Lemma follows_bind_cons {L A B} (ev : L) (l : list L) (m : M L A)
    (f : A -> M L B) :
  log_of m = [ev] -> (forall a, follows l (f a)) ->
  follows (ev :: l) (bind m f).
Proof.
  intros Hm Hf. destruct m as [lm [e | a]]; cbn in Hm; subst lm.
  - split; [exists 1%nat; reflexivity | discriminate].
  - destruct (Hf a) as [[k Hk] Hs]. unfold follows, log_of, outcome in *. cbn.
    destruct (f a) as [lf r]. cbn in *. split.
    + exists (S k). cbn. now rewrite Hk.
    + intros b Hb. now rewrite (Hs b Hb).
Qed.

Lemma call_log {T} (ev : submodule) (f : T -> exn + T) (x : T) :
  log_of (call ev f x) = [ev].
Proof. unfold call, tell, lift. cbn. now destruct (f x). Qed.

Lemma follows_ret {L A} (a : A) : follows [] (@ret L A a).
Proof. split; [exists 0%nat; reflexivity | reflexivity]. Qed.

(** The calls of a forward pass, for every network, input and library. *)
Lemma forward_follows {T} `{Backend T} (m : AMDNet_EFFU) (x : T) :
  follows full_call_log (forward m x).
Proof.
  unfold forward, forward_body, full_call_log.
  apply follows_bind_nil; [apply _check_input_divisible_log | intros _].
  repeat first
    [ apply follows_bind_cons; [apply call_log | intro]
    | apply follows_bind_nil; [first [apply getitem_log | reflexivity] | intro]
    | apply follows_ret ].
Qed.

(** A run that follows [l] and returns [a] is the run [(l, inr a)]. *)
Lemma follows_returns {L A} (l : list L) (r : M L A) (a : A) :
  follows l r -> outcome r = inr a -> r = (l, inr a).
Proof.
  intros [_ Hl] E. specialize (Hl a E). destruct r as [lr o].
  unfold log_of, outcome in *. cbn in *. now subst.
Qed.

(** ** Shapes through the default network *)

Lemma outcome_bind {L A B} (m : M L A) (f : A -> M L B) :
  outcome (bind m f) =
  match outcome m with inl e => inl e | inr a => outcome (f a) end.
Proof. destruct m as [l [e | a]]; cbn; [reflexivity |]. now destruct (f a). Qed.

Lemma outcome_getitem_bind {L A B} (name : string) (l : list A) (i : Z)
    (a : A) (K : A -> M L B) :
  nth_error l (Z.to_nat i) = Some a ->
  outcome (bind (getitem name l i) K) = outcome (K a).
Proof. intros E. unfold getitem. rewrite E. now rewrite bind_ret_l. Qed.

Lemma outcome_call_bind {T B} (ev : submodule) (f : T -> exn + T) (x y : T)
    (K : T -> M submodule B) :
  f x = inr y -> outcome (bind (call ev f x) K) = outcome (K y).
Proof.
  intros E. rewrite outcome_bind. unfold call, tell, lift. cbn. now rewrite E.
Qed.

Lemma outcome_lift_bind {L A B} (r : exn + A) (y : A) (K : A -> M L B) :
  r = inr y -> outcome (bind (lift r) K) = outcome (K y).
Proof. intros ->. now rewrite lift_inr, bind_ret_l. Qed.

(** A batch normalisation that has more than one value per channel, or is
    not in training mode, keeps the shape. *)
Lemma shape_norm_ok (tr : bool) (n : option norm_type) (x : Shape) :
  batch_ok tr n (sh_B x) (sh_H x) (sh_W x) -> shape_norm tr n x = inr x.
Proof.
  intros Hb. destruct n as [[] |]; try reflexivity.
  cbn [shape_norm]. unfold shape_batch_norm.
  destruct tr; [| reflexivity].
  specialize (Hb eq_refl eq_refl).
  destruct (Z.eqb_spec (sh_B x * sh_H x * sh_W x) 1); [lia | reflexivity].
Qed.

Lemma batch_ok_mono (tr : bool) (n : option norm_type) (B h w h' w' : Z) :
  batch_ok tr n B h w -> 0 < B -> 0 < h <= h' -> 0 < w <= w' ->
  batch_ok tr n B h' w'.
Proof.
  intros Hb HB Hh Hw Ht Hn. specialize (Hb Ht Hn).
  assert (B * h <= B * h') by (apply Z.mul_le_mono_nonneg_l; lia).
  assert (B * h * w <= B * h' * w') by (apply Z.mul_le_mono_nonneg; nia).
  lia.
Qed.

Lemma batch_ok_big (tr : bool) (n : option norm_type) (B h w : Z) :
  0 < B -> 0 < h -> 0 < w -> 1 < h \/ 1 < w -> batch_ok tr n B h w.
Proof. intros HB Hh Hw Hbig _ _. nia. Qed.

Lemma batch_ok_eval (n : option norm_type) (B h w : Z) : batch_ok false n B h w.
Proof. intros Ht. discriminate Ht. Qed.

(** The extent after a convolution of stride 1 whose padding makes up for
    the kernel. *)
Lemma conv_out_same (size k p d : Z) :
  2 * p = d * (k - 1) -> conv_out size k 1 p d = size.
Proof. intros Hp. unfold conv_out. rewrite Z.div_1_r. lia. Qed.

Lemma kernel_fits_same (size k p d : Z) :
  2 * p = d * (k - 1) -> 0 < size -> kernel_too_large size k p d = false.
Proof. intros Hp Hs. unfold kernel_too_large. apply Z.ltb_ge. lia. Qed.

(** A convolution of stride 1 whose padding makes up for the kernel keeps
    the extents. *)
Lemma shape_conv_module_same (tr : bool) (cm : ConvModule) (x : Shape) :
  cm_stride cm = 1 ->
  2 * cm_padding cm = cm_dilation cm * (cm_kernel_size cm - 1) ->
  0 <= cm_padding cm -> 0 < cm_dilation cm -> 0 < cm_out_channels cm ->
  sh_C x = cm_in_channels cm -> 0 < sh_H x -> 0 < sh_W x ->
  batch_ok tr (cm_norm_cfg cm) (sh_B x) (sh_H x) (sh_W x) ->
  shape_conv_module tr cm x
  = inr (mkShape (sh_B x) (cm_out_channels cm) (sh_H x) (sh_W x)).
Proof.
  intros Hs Hp Hp0 Hd Ho Hc Hh Hw Hb. unfold shape_conv_module, shape_conv2d.
  destruct (Z.ltb_spec (cm_padding cm) 0); [lia |].
  rewrite Hs. cbn [Z.leb Z.compare].
  destruct (Z.ltb_spec (cm_dilation cm) 0); [lia |].
  destruct (Z.leb_spec (cm_out_channels cm) 0); [lia |].
  rewrite Hc, Z.eqb_refl. cbn [negb].
  rewrite !kernel_fits_same by assumption. cbn [orb].
  destruct (Z.eqb_spec (cm_dilation cm) 0); [lia |].
  rewrite !conv_out_same by assumption.
  now apply shape_norm_ok.
Qed.

Ltac shape_side :=
  cbn [cm_stride cm_padding cm_dilation cm_kernel_size cm_in_channels
       cm_out_channels cm_norm_cfg norm_cfg sh_B sh_C sh_H sh_W cbam_channels];
  first [ assumption | reflexivity | lia
        | (eapply batch_ok_mono; [eassumption | lia ..]) ].

(** A block of two convolutions of stride 1 maps [(B, ic, H, W)] to
    [(B, oc, H, W)]. *)
Lemma block_forward_same (tr : bool) (ic oc dl : Z) (cp : bool) (lc : LayerCfg)
    (x : Shape) :
  0 < dl -> 0 < oc -> sh_C x = ic -> 0 < sh_H x -> 0 < sh_W x ->
  batch_ok tr (norm_cfg lc) (sh_B x) (sh_H x) (sh_W x) ->
  @BasicConvBlock_forward Shape (Shape_backend tr) (block_of ic oc 2 1 dl cp lc) x
  = inr (mkShape (sh_B x) oc (sh_H x) (sh_W x)).
Proof.
  intros Hd Ho Hc Hh Hw Hb. unfold BasicConvBlock_forward, checkpoint.
  cbn [requires_grad Shape_backend andb]. rewrite andb_false_r.
  rewrite block_of_convs_2. cbn [Sequential_forward conv_module Shape_backend].
  rewrite shape_conv_module_same by shape_side.
  now rewrite shape_conv_module_same by shape_side.
Qed.

Lemma run_c2_same (tr : bool) (ic oc dl : Z) (cp : bool) (lc : LayerCfg)
    (x : Shape) :
  0 < dl -> 0 < oc -> sh_C x = ic -> 0 < sh_H x -> 0 < sh_W x ->
  batch_ok tr (norm_cfg lc) (sh_B x) (sh_H x) (sh_W x) ->
  @run_c2 Shape (Shape_backend tr) [block_of ic oc 2 1 dl cp lc] x
  = inr (mkShape (sh_B x) oc (sh_H x) (sh_W x)).
Proof.
  intros Hd Ho Hc Hh Hw Hb. unfold run_c2. cbn [Sequential_forward].
  now rewrite block_forward_same.
Qed.

Lemma run_c1_same (tr : bool) (ic oc : Z) (cc : pyval) (nc : option norm_type)
    (ac : option act_type) (x : Shape) :
  0 < oc -> sh_C x = ic -> 0 < sh_H x -> 0 < sh_W x ->
  batch_ok tr nc (sh_B x) (sh_H x) (sh_W x) ->
  @run_c1 Shape (Shape_backend tr) [mkConvModule ic oc 1 1 1 0 cc nc ac] x
  = inr (mkShape (sh_B x) oc (sh_H x) (sh_W x)).
Proof.
  intros Ho Hc Hh Hw Hb. unfold run_c1.
  cbn [Sequential_forward conv_module Shape_backend].
  now rewrite shape_conv_module_same by shape_side.
Qed.

Lemma cbam_block_same (tr : bool) (ch : Z) (x : Shape) :
  sh_C x = ch -> @cbam_block Shape (Shape_backend tr) (mkCBAMBlock ch) x = inr x.
Proof.
  intros Hc. cbn. unfold shape_cbam_block. cbn. now rewrite Hc, Z.eqb_refl.
Qed.

(** A pooling window of size and stride [k] on an extent [q * k]. *)
Lemma pool_out_exact (k q : Z) :
  0 < k -> 0 < q -> pool_out (q * k) k k true = inr q.
Proof.
  intros Hk Hq. unfold pool_out.
  destruct (Z.leb_spec k 0); [lia |]. cbn [orb andb].
  replace (q * k - (k - 1) - 1 + (k - 1)) with ((q - 1) * k + (k - 1)) by lia.
  rewrite Z.div_add_l by lia. rewrite (Z.div_small (k - 1) k) by lia.
  replace (q - 1 + 0 + 1) with q by lia.
  destruct (Z.leb_spec (q * k) ((q - 1) * k)); [nia |].
  destruct (Z.leb_spec q 0); [lia | reflexivity].
Qed.

Lemma max_pool2d_exact (tr : bool) (k h w : Z) (x : Shape) :
  0 < k -> 0 < h -> 0 < w -> sh_H x = h * k -> sh_W x = w * k ->
  @max_pool2d Shape (Shape_backend tr) (mkMaxPool2d k k true) x
  = inr (mkShape (sh_B x) (sh_C x) h w).
Proof.
  intros Hk Hh Hw EH EW. cbn. unfold shape_max_pool2d. cbn.
  now rewrite EH, EW, !pool_out_exact.
Qed.

Lemma torch_cat_same (tr : bool) (x : Shape) (ys : list Shape) :
  Forall (fun y => sh_B y = sh_B x /\ sh_H y = sh_H x /\ sh_W y = sh_W x) ys ->
  @torch_cat Shape (Shape_backend tr) (x :: ys)
  = inr (mkShape (sh_B x)
                 (fold_left (fun acc u => acc + sh_C u) ys (sh_C x))
                 (sh_H x) (sh_W x)).
Proof.
  intros HF. cbn. unfold shape_cat.
  replace (forallb (same_extent x) ys) with true; [reflexivity |].
  symmetry. apply forallb_forall. intros y Hy.
  rewrite Forall_forall in HF. destruct (HF y Hy) as (EB & EH & EW).
  unfold same_extent. now rewrite EB, EH, EW, !Z.eqb_refl.
Qed.

(** The blocks of the default network, written out. *)
Lemma default_network_lists (ic bc : Z) (icfg : pyval) :
  let m := built (default_config ic bc) icfg in
  let lc := mkLayerCfg PyNone (Some BN) (Some ReLU) in
  effu_c2 m =
    [ [block_of ic (bc * 1) 2 1 1 false lc];
      [block_of (bc * 1) (bc * 2) 2 1 1 false lc];
      [block_of (bc * 2) (bc * 4) 2 1 1 false lc];
      [block_of (bc * 4) (bc * 8) 2 1 1 false lc];
      [block_of (bc * 8) (bc * 16) 2 1 1 false lc] ] /\
  effu_c1 m =
    [ [mkConvModule (bc * 1 + 0) (bc * 1) 1 1 1 0 PyNone (Some BN) (Some ReLU)];
      [mkConvModule (bc * 1 + (bc * 2 + 0)) (bc * 2) 1 1 1 0
                    PyNone (Some BN) (Some ReLU)];
      [mkConvModule (bc * 1 + (bc * 2 + (bc * 4 + 0))) (bc * 4) 1 1 1 0
                    PyNone (Some BN) (Some ReLU)];
      [mkConvModule (bc * 1 + (bc * 2 + (bc * 4 + (bc * 8 + 0)))) (bc * 8)
                    1 1 1 0 PyNone (Some BN) (Some ReLU)] ] /\
  effu_cbam m =
    [ mkCBAMBlock (bc * 1 + 0);
      mkCBAMBlock (bc * 1 + (bc * 2 + 0));
      mkCBAMBlock (bc * 1 + (bc * 2 + (bc * 4 + 0)));
      mkCBAMBlock (bc * 1 + (bc * 2 + (bc * 4 + (bc * 8 + 0)))) ] /\
  decoder m =
    [ block_of (bc * 1 + bc * 2) (bc * 1) 2 1 1 false lc;
      block_of (bc * 2 + bc * 4) (bc * 2) 2 1 1 false lc;
      block_of (bc * 4 + bc * 8) (bc * 4) 2 1 1 false lc;
      block_of (bc * 8 + bc * 16) (bc * 8) 2 1 1 false lc ].
Proof. cbv zeta. repeat split; reflexivity. Qed.

Ltac fwd_getitem := erewrite outcome_getitem_bind by reflexivity.
Ltac fwd_call lem :=
  erewrite outcome_call_bind by (apply lem; shape_side);
  cbn [sh_B sh_C sh_H sh_W].
Ltac fwd_pool h w :=
  erewrite outcome_call_bind by (apply (max_pool2d_exact _ _ h w); shape_side);
  cbn [sh_B sh_C sh_H sh_W].
Ltac fwd_cat :=
  erewrite outcome_lift_bind
    by (apply torch_cat_same; repeat constructor; shape_side);
  cbn [sh_B sh_C sh_H sh_W fold_left].
Ltac fwd_up :=
  erewrite outcome_call_bind by reflexivity;
  cbn [sh_B sh_C sh_H sh_W up_scale_factor].

(** The default network on an input of extents [h * 16] and [w * 16]. *)
Lemma default_forward_body (tr : bool) (ic bc B h w : Z) (icfg : pyval) :
  0 < bc -> 0 < B -> 0 < h -> 0 < w ->
  batch_ok tr (Some BN) B h w ->
  outcome (@forward_body Shape (Shape_backend tr)
             (built (default_config ic bc) icfg)
             (mkShape B ic (h * 16) (w * 16)))
  = inr [ mkShape B (bc * 16) h w;
          mkShape B (bc * 8) (h * 2) (w * 2);
          mkShape B (bc * 4) (h * 4) (w * 4);
          mkShape B (bc * 2) (h * 8) (w * 8);
          mkShape B (bc * 1) (h * 16) (w * 16) ].
Proof.
  intros Hbc HB Hh Hw Hbn. unfold forward_body.
  destruct (default_network_lists ic bc icfg) as (-> & -> & -> & ->).
  cbn [pool_2 pool_4 pool_8 pool_16 up_2 built].
  (* level 0 *)
  fwd_getitem. fwd_call run_c2_same.
  (* level 1 *)
  do 3 fwd_getitem.
  fwd_pool (h * 8) (w * 8).
  fwd_call cbam_block_same. fwd_call run_c1_same. fwd_call run_c2_same.
  (* level 2 *)
  do 3 fwd_getitem.
  fwd_pool (h * 4) (w * 4). fwd_pool (h * 4) (w * 4). fwd_cat.
  fwd_call cbam_block_same. fwd_call run_c1_same. fwd_call run_c2_same.
  (* level 3 *)
  do 3 fwd_getitem.
  fwd_pool (h * 2) (w * 2). fwd_pool (h * 2) (w * 2).
  fwd_pool (h * 2) (w * 2). fwd_cat.
  fwd_call cbam_block_same. fwd_call run_c1_same. fwd_call run_c2_same.
  (* level 4 *)
  do 3 fwd_getitem.
  fwd_pool h w. fwd_pool h w. fwd_pool h w. fwd_pool h w. fwd_cat.
  fwd_call cbam_block_same. fwd_call run_c1_same. fwd_call run_c2_same.
  (* decoder *)
  fwd_getitem. fwd_up. fwd_cat. fwd_call block_forward_same.
  fwd_getitem. fwd_up. fwd_cat. fwd_call block_forward_same.
  fwd_getitem. fwd_up. fwd_cat. fwd_call block_forward_same.
  fwd_getitem. fwd_up. fwd_cat. fwd_call block_forward_same.
  reflexivity.
Qed.

(** The default network in training mode on one image of 16 x 16: the
    coarsest maps hold one value per channel, and the batch normalisation
    of the 1x1 convolution of level 4 refuses them. *)
Lemma default_forward_one_value :
  @forward Shape (Shape_backend true) default_network (mkShape 1 3 16 16)
  = (firstn 22 full_call_log,
     inl (ValueError "Expected more than 1 value per channel when training")).
Proof. vm_compute. reflexivity. Qed.

(** C1, as the code has it.  For a network built from the default
    five-stage configuration with positive [in_channels] and
    [base_channels], the cumulative downsampling factor is 16; for every
    tensor library the forward pass is the check followed by the five
    encoder levels and the four decoder levels of the specification, and
    what it returns is the output of encoder level 4 followed by the
    outputs of the decoder levels 3, 2, 1 and 0; on shapes, for every input
    [(B, in_channels, H, W)] with positive extents, [H] and [W] divisible by
    the factor, it calls its 31 sub-modules in order and returns five maps
    of [base_channels] times 16, 8, 4, 2 and 1 channels and of extents
    [H / 16] up to [H]; this for batch normalisations in evaluation mode,
    and in training mode when the coarsest level holds more than one value
    per channel. *)
Theorem default_forward_shapes {lib : Library} (training : bool)
    (in_channels base_channels B H W : Z) (w : list warning)
    (m : AMDNet_EFFU) :
  AMDNet_EFFU_init (default_config in_channels base_channels) = (w, inr m) ->
  0 < in_channels -> 0 < base_channels ->
  0 < B -> 0 < H -> 0 < W ->
  let rate := spec_downsample_factor (num_stages m) (strides m) (downsamples m) in
  (rate | H) -> (rate | W) ->
  (training = true -> 1 < B * (H / rate) * (W / rate)) ->
  rate = 16 /\
  (forall T (Bk : Backend T) (x : T),
     forward m x = (_check_input_divisible m x ;; spec_forward_body m x)) /\
  @forward Shape (Shape_backend training) m (mkShape B in_channels H W)
  = (full_call_log,
     inr [ mkShape B (base_channels * 16) (H / 16) (W / 16);
           mkShape B (base_channels * 8) (H / 8) (W / 8);
           mkShape B (base_channels * 4) (H / 4) (W / 4);
           mkShape B (base_channels * 2) (H / 2) (W / 2);
           mkShape B base_channels H W ]).
Proof.
  intros E Hic Hbc HB HH HW rate.
  apply AMDNet_EFFU_init_inr in E. destruct E as (icfg & _ & _ & _ & _ & ->).
  assert (rate = 16) as -> by reflexivity.
  intros [h ->] [v ->] Hbn. split; [reflexivity | split].
  { intros T Bk x. unfold forward. apply bind_ext. intros _.
    now apply forward_body_spec. }
  assert (0 < h) as Hh by lia. assert (0 < v) as Hv by lia.
  rewrite !Z.div_mul in Hbn by lia.
  apply follows_returns; [apply forward_follows |].
  rewrite forward_check_passes.
  - rewrite (default_forward_body training in_channels base_channels B h v icfg)
      by (auto; intros Ht _; auto).
    replace (h * 16 / 16) with h by (now rewrite Z.div_mul).
    replace (v * 16 / 16) with v by (now rewrite Z.div_mul).
    replace (h * 16 / 8) with (h * 2)
      by (replace (h * 16) with (h * 2 * 8) by lia; now rewrite Z.div_mul).
    replace (v * 16 / 8) with (v * 2)
      by (replace (v * 16) with (v * 2 * 8) by lia; now rewrite Z.div_mul).
    replace (h * 16 / 4) with (h * 4)
      by (replace (h * 16) with (h * 4 * 4) by lia; now rewrite Z.div_mul).
    replace (v * 16 / 4) with (v * 4)
      by (replace (v * 16) with (v * 4 * 4) by lia; now rewrite Z.div_mul).
    replace (h * 16 / 2) with (h * 8)
      by (replace (h * 16) with (h * 8 * 2) by lia; now rewrite Z.div_mul).
    replace (v * 16 / 2) with (v * 8)
      by (replace (v * 16) with (v * 8 * 2) by lia; now rewrite Z.div_mul).
    now rewrite Z.mul_1_r.
  - unfold _check_input_divisible.
    assert (whole_downsample_rate (built (default_config in_channels base_channels) icfg)
            = ret 16) as -> by reflexivity.
    rewrite bind_ret_l. cbn [shape Shape_backend sh_H sh_W].
    now rewrite !Z.mod_mul by lia.
Qed.

(** The scenario of the specification: [base_channels = 64] and an input
    of shape [(2, 3, 64, 64)], after the construction (training mode). *)
Lemma default_forward_shapes_witness :
  @forward Shape (Shape_backend true) default_network (mkShape 2 3 64 64)
  = (full_call_log,
     inr [ mkShape 2 1024 4 4; mkShape 2 512 8 8; mkShape 2 256 16 16;
           mkShape 2 128 32 32; mkShape 2 64 64 64 ]).
Proof.
  assert (0 < 64) as Hp by lia. assert (0 < 3) as H3 by lia.
  assert (0 < 2) as H2 by lia.
  assert ((16 | 64)) as Hd by (exists 4; reflexivity).
  assert (true = true -> 1 < 2 * (64 / 16) * (64 / 16)) as Hbn
    by (intros _; reflexivity).
  exact (proj2 (proj2 (default_forward_shapes (lib := Torch_library) true
                         3 64 2 64 64 [] default_network eq_refl
                         H3 Hp H2 Hp Hp Hd Hd Hbn))).
Defined.

(** C1 as it is worded fails in training mode, the mode of a network after
    its construction: the default network takes one image of 16 x 16, whose
    extents the factor 16 divides, through the divisibility check, and the
    batch normalisation of the coarsest level raises a value error; no
    feature map is returned. *)
Lemma default_forward_shapes_counterexample :
  AMDNet_EFFU_init (default_config 3 64) = ([], inr default_network) /\
  spec_downsample_factor (num_stages default_network) (strides default_network)
                         (downsamples default_network) = 16 /\
  (16 | 16) /\
  outcome (@forward Shape (Shape_backend true) default_network
             (mkShape 1 3 16 16))
  = inl (ValueError "Expected more than 1 value per channel when training") /\
  ~ exists outs,
      outcome (@forward Shape (Shape_backend true) default_network
                 (mkShape 1 3 16 16)) = inr outs.
Proof.
  split; [reflexivity | split; [reflexivity | split; [exists 1; reflexivity |]]].
  rewrite default_forward_one_value. split; [reflexivity |].
  intros [outs E]. discriminate E.
Qed.

(** ** The training mode *)

Section TrainFacts.

Context {Buf : Type}.

(** Induction on module trees. *)
Lemma Module_tree_ind (P : Module Buf -> Prop) :
  (forall c t g b ch, Forall P ch -> P (Node c t g b ch)) ->
  forall m, P m.
Proof.
  intros Hnode.
  fix IH 1. intros [c t g b ch]. apply Hnode.
  induction ch as [| x ch IHch]; constructor; [apply IH | exact IHch].
Qed.

Lemma isinstance_BatchNorm_cls (m m' : Module Buf) :
  m_cls m = m_cls m' -> isinstance_BatchNorm m = isinstance_BatchNorm m'.
Proof. unfold isinstance_BatchNorm. now intros ->. Qed.

Lemma Module_train_idem (mode : bool) (m : Module Buf) :
  Module_train mode (Module_train mode m) = Module_train mode m.
Proof.
  induction m as [c t g b ch IH] using Module_tree_ind. cbn. f_equal.
  rewrite map_map. apply map_ext_Forall. exact IH.
Qed.

Lemma module_paths_train (mode : bool) (m : Module Buf) :
  module_paths (Module_train mode m) = module_paths m.
Proof.
  induction m as [c t g b ch IH] using Module_tree_ind. cbn. f_equal.
  generalize 0%nat. induction IH as [| x ch Hx _ IHch]; intros k; [reflexivity |].
  cbn. now rewrite Hx, IHch.
Qed.

Lemma child_paths_train (mode : bool) (k : nat) (ch : list (Module Buf)) :
  child_paths module_paths k (map (Module_train mode) ch)
  = child_paths module_paths k ch.
Proof.
  revert k. induction ch as [| x ch IH]; intros k; [reflexivity |].
  cbn. now rewrite module_paths_train, IH.
Qed.

(** *** Updates of one entry of a list *)

Lemma update_nth_id {A} (k : nat) (l : list A) : update_nth k (fun x => x) l = l.
Proof.
  revert k. induction l as [| x l IH]; intros [| k]; cbn; try reflexivity.
  now rewrite IH.
Qed.

Lemma update_nth_ext_at {A} (k : nat) (f f' : A -> A) (l : list A) :
  (forall x, nth_error l k = Some x -> f x = f' x) ->
  update_nth k f l = update_nth k f' l.
Proof.
  revert k. induction l as [| x l IH]; intros [| k] Hf; cbn; try reflexivity.
  - now rewrite (Hf x eq_refl).
  - f_equal. apply IH. intros y Hy. now apply Hf.
Qed.

Lemma update_nth_compose {A} (k : nat) (f f' : A -> A) (l : list A) :
  update_nth k f' (update_nth k f l) = update_nth k (fun x => f' (f x)) l.
Proof.
  revert k. induction l as [| x l IH]; intros [| k]; cbn; try reflexivity.
  now rewrite IH.
Qed.

Lemma update_nth_app {A} (f : A -> A) (pre : list A) (x : A) (l : list A) :
  update_nth (List.length pre) f (pre ++ x :: l) = pre ++ f x :: l.
Proof. induction pre as [| y pre IH]; cbn; [reflexivity | now rewrite IH]. Qed.

(** *** The loop of [train] *)

(** A round of the loop at a position below child [k] is a round on that
    child. *)
Lemma train_step_cons (c : module_class) (t g : bool) (b : Buf)
    (ch : list (Module Buf)) (k : nat) (p : path) :
  train_step (Node c t g b ch) (k :: p)
  = Node c t g b (update_nth k (fun y => train_step y p) ch).
Proof.
  unfold train_step at 1. cbn [module_at m_children].
  destruct (nth_error ch k) as [x |] eqn:E.
  - destruct (module_at x p) as [c' |] eqn:E'.
    + destruct (isinstance_BatchNorm c') eqn:Hbn.
      * cbn [update_at]. f_equal. apply update_nth_ext_at.
        intros y Hy. rewrite E in Hy. injection Hy as <-.
        unfold train_step. now rewrite E', Hbn.
      * f_equal. rewrite <- (update_nth_id k ch) at 1.
        apply update_nth_ext_at.
        intros y Hy. rewrite E in Hy. injection Hy as <-.
        unfold train_step. now rewrite E', Hbn.
    + f_equal. rewrite <- (update_nth_id k ch) at 1.
      apply update_nth_ext_at.
      intros y Hy. rewrite E in Hy. injection Hy as <-.
      unfold train_step. now rewrite E'.
  - f_equal. rewrite <- (update_nth_id k ch) at 1.
    apply update_nth_ext_at. intros y Hy. congruence.
Qed.

Lemma train_loop_child (c : module_class) (t g : bool) (b : Buf)
    (ch : list (Module Buf)) (k : nat) (ps : list path) :
  fold_left train_step (map (cons k) ps) (Node c t g b ch)
  = Node c t g b (update_nth k (fun y => fold_left train_step ps y) ch).
Proof.
  revert ch. induction ps as [| p ps IH]; intros ch; cbn [map fold_left].
  - now rewrite update_nth_id.
  - rewrite train_step_cons, IH, update_nth_compose. reflexivity.
Qed.

(** The rounds at the positions of the children [l], when the rounds at
    the positions of each child [x] turn it into [F x]. *)
Lemma train_loop_children (F : Module Buf -> Module Buf) (c : module_class) (t g : bool)
    (b : Buf) (l pre : list (Module Buf)) :
  Forall (fun x => fold_left train_step (module_paths x) x = F x) l ->
  fold_left train_step (child_paths module_paths (List.length pre) l)
            (Node c t g b (pre ++ l))
  = Node c t g b (pre ++ map F l).
Proof.
  intros HF. revert pre.
  induction HF as [| x l Hx _ IH]; intros pre; [reflexivity |].
  cbn [child_paths map]. rewrite fold_left_app, train_loop_child.
  rewrite update_nth_app, Hx.
  replace (pre ++ F x :: l) with ((pre ++ [F x]) ++ l)
    by (now rewrite <- app_assoc).
  replace (S (List.length pre)) with (List.length (pre ++ [F x]))
    by (rewrite length_app; cbn; lia).
  rewrite IH. now rewrite <- app_assoc.
Qed.

Lemma train_loop_children_0 (F : Module Buf -> Module Buf) (c : module_class)
    (t g : bool) (b : Buf) (l : list (Module Buf)) :
  Forall (fun x => fold_left train_step (module_paths x) x = F x) l ->
  fold_left train_step (child_paths module_paths 0 l) (Node c t g b l)
  = Node c t g b (map F l).
Proof. intros HF. exact (train_loop_children F c t g b l [] HF). Qed.

(** On a tree in evaluation mode the loop changes nothing. *)
Lemma train_loop_eval (m : Module Buf) :
  fold_left train_step (module_paths (Module_eval m)) (Module_eval m)
  = Module_eval m.
Proof.
  induction m as [c t g b ch IH] using Module_tree_ind.
  unfold Module_eval in *. cbn [Module_train module_paths fold_left].
  assert (train_step (Node c false g b (map (Module_train false) ch)) []
          = Node c false g b (map (Module_train false) ch)) as ->.
  { unfold train_step. cbn [module_at].
    destruct (isinstance_BatchNorm _); [| reflexivity].
    cbn [update_at]. unfold Module_eval. cbn [Module_train]. f_equal.
    rewrite map_map. apply map_ext. intros x. apply Module_train_idem. }
  rewrite (train_loop_children_0 (fun x => x)).
  - now rewrite map_id.
  - apply Forall_map. exact IH.
Qed.

(** The loop puts in evaluation mode the batch normalisations and what is
    below them, and nothing else. *)
Lemma train_loop_freeze (m : Module Buf) :
  fold_left train_step (module_paths m) m = freeze_BatchNorm m.
Proof.
  induction m as [c t g b ch IH] using Module_tree_ind.
  cbn [module_paths fold_left freeze_BatchNorm].
  unfold train_step at 2. cbn [module_at].
  destruct (isinstance_BatchNorm (Node c t g b ch)) eqn:Hbn.
  - cbn [update_at]. unfold Module_eval. cbn [Module_train].
    rewrite <- (child_paths_train false).
    rewrite (train_loop_children_0 (fun x => x)).
    + now rewrite map_id.
    + apply Forall_map. apply Forall_forall. intros x _.
      apply train_loop_eval.
  - now rewrite (train_loop_children_0 freeze_BatchNorm).
Qed.

Lemma train_frozen (m : Module Buf) :
  train true true m = freeze_BatchNorm (Module_train true m).
Proof. unfold train. cbn [andb]. apply train_loop_freeze. Qed.

End TrainFacts.

Section TrainMode.

Context {Buf Batch : Type}.
Variable update_stats : Buf -> Batch -> Buf.

Lemma modules_train_flag (mode : bool) (m : Module Buf) :
  Forall (fun c => m_training c = mode) (modules (Module_train mode m)).
Proof.
  induction m as [c t g b ch IH] using Module_tree_ind.
  cbn [Module_train modules]. constructor; [reflexivity |].
  apply Forall_flat_map. apply Forall_map. exact IH.
Qed.

Lemma modules_train_data (mode : bool) (m : Module Buf) :
  map node_data (modules (Module_train mode m)) = map node_data (modules m).
Proof.
  induction m as [c t g b ch IH] using Module_tree_ind.
  cbn [Module_train modules map]. f_equal.
  induction IH as [| x ch Hx _ IHch]; [reflexivity |].
  cbn [map flat_map]. now rewrite !map_app, Hx, IHch.
Qed.

Lemma modules_freeze_data (m : Module Buf) :
  map node_data (modules (freeze_BatchNorm m)) = map node_data (modules m).
Proof.
  induction m as [c t g b ch IH] using Module_tree_ind.
  cbn [freeze_BatchNorm].
  destruct (isinstance_BatchNorm _); [apply modules_train_data |].
  cbn [modules map]. f_equal.
  induction IH as [| x ch Hx _ IHch]; [reflexivity |].
  cbn [map flat_map]. now rewrite !map_app, Hx, IHch.
Qed.

(** A batch normalisation in evaluation mode keeps its buffers. *)
Lemma BatchNorm_forward_eval (c : Module Buf) (batch : Batch) :
  m_training c = false -> BatchNorm_forward update_stats c batch = c.
Proof. destruct c as [cl t g b ch]. cbn. now intros ->. Qed.

Lemma modules_freeze_BatchNorm (m : Module Buf) :
  Forall (fun c => isinstance_BatchNorm c = true -> m_training c = false)
         (modules (freeze_BatchNorm m)).
Proof.
  induction m as [c t g b ch IH] using Module_tree_ind.
  cbn [freeze_BatchNorm].
  destruct (isinstance_BatchNorm (Node c t g b ch)) eqn:Hbn.
  - eapply Forall_impl; [| apply modules_train_flag]. auto.
  - cbn [modules]. constructor.
    + intros H. unfold isinstance_BatchNorm in *. cbn in *. congruence.
    + apply Forall_flat_map. apply Forall_map. exact IH.
Qed.

Lemma BatchNorm_leaves_children (c : module_class) (t g : bool) (b : Buf)
    (ch : list (Module Buf)) :
  BatchNorm_leaves (Node c t g b ch) -> Forall BatchNorm_leaves ch.
Proof.
  unfold BatchNorm_leaves. cbn [modules]. intros H.
  apply Forall_inv_tail in H. now apply Forall_flat_map in H.
Qed.

Lemma modules_freeze_training (m : Module Buf) :
  BatchNorm_leaves m ->
  Forall (fun c => m_training c = true) (modules m) ->
  Forall (fun c => m_training c = negb (isinstance_BatchNorm c))
         (modules (freeze_BatchNorm m)).
Proof.
  induction m as [c t g b ch IH] using Module_tree_ind.
  intros Hleaves Htrain.
  pose proof (BatchNorm_leaves_children _ _ _ _ _ Hleaves) as Hch.
  cbn [modules] in Htrain.
  pose proof (Forall_inv Htrain) as Ht. cbn in Ht. subst t.
  apply Forall_inv_tail in Htrain. apply Forall_flat_map in Htrain.
  cbn [freeze_BatchNorm].
  destruct (isinstance_BatchNorm (Node c true g b ch)) eqn:Hbn.
  - unfold BatchNorm_leaves in Hleaves. cbn [modules] in Hleaves.
    pose proof (Forall_inv Hleaves Hbn) as Hnil. cbn in Hnil. subst ch.
    cbn. constructor; [| constructor].
    cbn. unfold isinstance_BatchNorm in *. cbn in *. now rewrite Hbn.
  - cbn [modules]. constructor.
    + cbn. unfold isinstance_BatchNorm in *. cbn in *. now rewrite Hbn.
    + apply Forall_flat_map. apply Forall_map.
      rewrite Forall_forall in *. intros x Hx.
      apply IH; auto.
Qed.

Lemma BatchNorm_leaves_train (mode : bool) (m : Module Buf) :
  BatchNorm_leaves m -> BatchNorm_leaves (Module_train mode m).
Proof.
  induction m as [c t g b ch IH] using Module_tree_ind. intros Hl.
  pose proof (BatchNorm_leaves_children _ _ _ _ _ Hl) as Hch.
  unfold BatchNorm_leaves in *. cbn [Module_train modules] in *.
  constructor.
  - intros Hbn. pose proof (Forall_inv Hl Hbn) as Hnil. cbn in *. now subst ch.
  - apply Forall_flat_map. apply Forall_map.
    rewrite Forall_forall in *. intros x Hx. apply IH; auto.
Qed.

(** C5, as the code has it.  [train(True)] with [norm_eval] set gives
    ordinary training mode except below the batch normalisations: every
    module that is an instance of [_BatchNorm] ends in evaluation mode, so
    a batch leaves its buffers (the running mean and variance) as they
    were; classes, [requires_grad] flags and buffers of all modules are
    untouched; and when the batch normalisations have no child modules,
    every other module, a normalisation of another kind included, is in
    training mode. *)
Theorem train_norm_eval (m : Module Buf) :
  let m' := train true true m in
  m' = freeze_BatchNorm (Module_train true m) /\
  Forall (fun c => isinstance_BatchNorm c = true ->
                   m_training c = false /\
                   forall batch, BatchNorm_forward update_stats c batch = c)
         (modules m') /\
  map node_data (modules m') = map node_data (modules m) /\
  (BatchNorm_leaves m ->
   Forall (fun c => m_training c = negb (isinstance_BatchNorm c)) (modules m')).
Proof.
  cbv zeta. rewrite train_frozen.
  split; [reflexivity | split; [| split]].
  - eapply Forall_impl; [| apply modules_freeze_BatchNorm].
    intros c Hc Hbn. split; [auto |].
    intros batch. apply BatchNorm_forward_eval. auto.
  - now rewrite modules_freeze_data, modules_train_data.
  - intros Hl. apply modules_freeze_training.
    + now apply BatchNorm_leaves_train.
    + apply modules_train_flag.
Qed.

End TrainMode.

Lemma BatchNorm_leaves_dec {Buf : Type} (m : Module Buf) :
  forallb (fun c => negb (isinstance_BatchNorm c)
                    || match m_children c with [] => true | _ :: _ => false end)
          (modules m) = true ->
  BatchNorm_leaves m.
Proof.
  intros H. apply Forall_forall. intros c Hc Hbn.
  rewrite forallb_forall in H. specialize (H c Hc). rewrite Hbn in H.
  cbn in H. now destruct (m_children c).
Qed.

(** The default network, whose normalisations are batch normalisations;
    the buffer of a layer counts the batches it has tracked. *)
Lemma train_norm_eval_witness :
  Forall (fun c => m_training c = negb (isinstance_BatchNorm c))
         (modules (train true true (module_tree 0 default_network))) /\
  nth_error (map (fun c => (m_cls c, m_training c))
                 (modules (train true true (module_tree 0 default_network)))) 18
  = Some (C_Norm BN, false).
Proof.
  pose proof (train_norm_eval (fun (b : Z) (_ : unit) => b + 1)
                (module_tree 0 default_network))
    as (_ & _ & _ & Hall).
  split.
  - apply Hall. apply BatchNorm_leaves_dec. vm_compute. reflexivity.
  - vm_compute. reflexivity.
Defined.

(** C5 as it is worded fails on a network built with group normalisation:
    after [train(True)] with [norm_eval] set, its normalisation layers are
    in training mode. *)
Lemma train_norm_eval_counterexample :
  AMDNet_EFFU_init group_norm_config = ([], inr group_norm_network) /\
  norm_eval group_norm_network = true /\
  In (Node (C_Norm GN) true true 0 [])
     (modules (train (norm_eval group_norm_network) true
                     (module_tree 0 group_norm_network))) /\
  is_norm_layer (Node (C_Norm GN) true true 0 []) = true /\
  m_training (Node (C_Norm GN) true true 0 []) = true.
Proof.
  split; [reflexivity | split; [reflexivity | split; [| split; reflexivity]]].
  apply (nth_error_In _ 18). vm_compute. reflexivity.
Qed.

(** * Further properties of the construction *)

Lemma is_None_eq (v : pyval) : is_None v = true <-> v = PyNone.
Proof. destruct v; cbn; split; congruence. Qed.

Lemma init_cfg_of_inr (c : Config) (w : list warning) (icfg : pyval) :
  init_cfg_of c = (w, inr icfg) ->
  truthy (c_init_cfg c) && truthy (c_pretrained c) = false /\
  (isinstance_str (c_pretrained c) = true \/ c_pretrained c = PyNone).
Proof.
  intros E.
  destruct (truthy (c_init_cfg c) && truthy (c_pretrained c)) eqn:Ht.
  - rewrite init_cfg_of_assert in E by exact Ht. discriminate E.
  - split; [reflexivity |]. rewrite init_cfg_of_pass in E by exact Ht.
    destruct (isinstance_str (c_pretrained c)); [now left |].
    destruct (is_None (c_pretrained c)) eqn:Hn; [| discriminate E].
    right. now apply is_None_eq.
Qed.

(** X1.  [__init__] returns a network exactly when [init_cfg] and
    [pretrained] are not both true values, [pretrained] is a string or
    [None], [dcn] and [plugins] are [None], the six sequences have the
    lengths that [num_stages] asks for, and the library refuses none of the
    layers of the network: nothing else in [__init__] can fail. *)
Theorem construction_accepts_iff {lib : Library} (c : Config) :
  (exists w m, AMDNet_EFFU_init c = (w, inr m)) <->
  accepted c /\ network_refused (built c PyNone) = None.
Proof.
  split.
  - intros (w & m & E). pose proof (AMDNet_EFFU_init_built c w m E) as R.
    apply AMDNet_EFFU_init_inr in E.
    destruct E as (icfg & Ei & Hd & Hp & F & ->).
    apply init_cfg_of_inr in Ei. destruct Ei as [Ht Hs].
    apply first_wrong_length_None in F. unfold accepted.
    split; [tauto | exact R].
  - intros [(Ht & Hs & Hd & Hp & HL) R].
    assert (exists w icfg, init_cfg_of c = (w, inr icfg)) as (w & icfg & Ei).
    { rewrite init_cfg_of_pass by exact Ht.
      destruct Hs as [Hs | Hs].
      - rewrite Hs. eauto.
      - rewrite Hs. cbn. destruct (is_None (c_init_cfg c)); unfold ret; eauto. }
    exists w, (built c icfg). apply AMDNet_EFFU_init_ok; auto.
    now apply first_wrong_length_None.
Qed.

(** The default configuration is built; with [in_channels = -3] every
    argument check passes and the first convolution is refused. *)
Lemma construction_accepts_iff_witness :
  (exists w m, AMDNet_EFFU_init (default_config 3 64) = (w, inr m)) /\
  accepted (default_config (-3) 64) /\
  ~ exists w m, AMDNet_EFFU_init (default_config (-3) 64) = (w, inr m).
Proof.
  split; [| split].
  - apply (proj2 (construction_accepts_iff (lib := Torch_library)
                    (default_config 3 64))).
    repeat split; try reflexivity. now right.
  - repeat split; try reflexivity. now right.
  - intros Hex.
    apply (proj1 (construction_accepts_iff (lib := Torch_library)
                    (default_config (-3) 64))) in Hex.
    destruct Hex as [_ R]. vm_compute in R. discriminate R.
Defined.

(** X2.  No configuration with [num_stages <= 0] is accepted: the lengths
    of the decoder sequences cannot be [num_stages - 1]. *)
Theorem nonpositive_stages_rejected {lib : Library} (c : Config) :
  c_num_stages c <= 0 -> fails (AMDNet_EFFU_init c).
Proof.
  intros Hn. unfold fails.
  destruct (AMDNet_EFFU_init c) as [w [e | m]] eqn:E; [now exists e |].
  apply AMDNet_EFFU_init_inr in E. destruct E as (_ & _ & _ & _ & F & _).
  apply first_wrong_length_None in F. destruct F as (_ & _ & Hdec & _).
  unfold len in Hdec. lia.
Qed.

(** No stages at all, every sequence empty: the assertion on
    [dec_num_convs] fires. *)
Lemma nonpositive_stages_rejected_witness :
  fails (AMDNet_EFFU_init (uniform_config 3 64 0)) /\
  AMDNet_EFFU_init (uniform_config 3 64 0)
  = ([], inl (AssertionError
                (Msg_length "dec_num_convs" "(num_stages-1)" (PyList []) 0 0))).
Proof.
  split; [| reflexivity].
  apply (nonpositive_stages_rejected (lib := Torch_library) (uniform_config 3 64 0)). cbn. lia.
Defined.

(** X3.  In a constructed network the encoder block of stage [i] is the
    [BasicConvBlock] of [enc_num_convs[i]] convolutions with stride
    [strides[i]] and dilation [enc_dilations[i]] that gives
    [base_channels * 2^i] channels; block 0 takes [in_channels], and block
    [i >= 1] takes what the 1x1 convolution of its fusion block gives. *)
Theorem encoder_blocks_layout {lib : Library} (c : Config) (w : list warning)
    (m : AMDNet_EFFU) (i : Z) :
  AMDNet_EFFU_init c = (w, inr m) ->
  0 <= i < c_num_stages c ->
  exists blk ic,
    nth_error (effu_c2 m) (Z.to_nat i) = Some [blk] /\
    BasicConvBlock_init (L := warning) ic (c_base_channels c * 2 ^ i)
       (nth (Z.to_nat i) (c_enc_num_convs c) 0)
       (nth (Z.to_nat i) (c_strides c) 0)
       (nth (Z.to_nat i) (c_enc_dilations c) 0)
       (c_with_cp c) (c_layer_cfg c) PyNone PyNone = ret blk /\
    (i = 0 -> ic = c_in_channels c) /\
    (1 <= i ->
     exists cm, nth_error (effu_c1 m) (Z.to_nat (i - 1)) = Some [cm] /\
                ic = cm_out_channels cm).
Proof.
  intros E Hi. pose proof (AMDNet_EFFU_init_built c w m E) as R.
  apply AMDNet_EFFU_init_inr in E. destruct E as (icfg & _ & _ & _ & _ & ->).
  apply network_refused_None in R. destruct R as (_ & _ & R & _).
  revert R. cbn [effu_c2 effu_c1 built]. unfold built_c2, built_c1. intros R.
  set (ic := if i =? 0 then c_in_channels c else c_base_channels c * 2 ^ (i - 1)).
  set (blk := block_of ic (c_base_channels c * 2 ^ i)
                (nth (Z.to_nat i) (c_enc_num_convs c) 0)
                (nth (Z.to_nat i) (c_strides c) 0)
                (nth (Z.to_nat i) (c_enc_dilations c) 0)
                (c_with_cp c) (c_layer_cfg c)).
  assert (nth_error
            (map (fun i =>
                    [block_of (if i =? 0 then c_in_channels c
                               else c_base_channels c * 2 ^ (i - 1))
                              (c_base_channels c * 2 ^ i)
                              (nth (Z.to_nat i) (c_enc_num_convs c) 0)
                              (nth (Z.to_nat i) (c_strides c) 0)
                              (nth (Z.to_nat i) (c_enc_dilations c) 0)
                              (c_with_cp c) (c_layer_cfg c)])
                 (range (c_num_stages c))) (Z.to_nat i) = Some [blk]) as Hnth
    by (rewrite nth_error_map, (range_nth _ _ Hi); reflexivity).
  exists blk, ic. split; [exact Hnth | split; [| split]].
  - rewrite BasicConvBlock_init_spec. fold blk.
    pose proof (first_refused_nth _ _ _ _ R Hnth) as Rb.
    rewrite first_refused_single in Rb. now rewrite Rb.
  - intros ->. reflexivity.
  - intros Hi1. eexists. split.
    + rewrite nth_error_map, (range_from_nth 1 _ i) by lia. reflexivity.
    + cbn. destruct (Z.eqb_spec i 0); [lia | reflexivity].
Qed.

(** Stage 2 of the default network. *)
Lemma encoder_blocks_layout_witness :
  exists blk ic,
    nth_error (effu_c2 default_network) 2 = Some [blk] /\
    BasicConvBlock_init (L := warning) ic (64 * 2 ^ 2) 2 1 1 false
       (mkLayerCfg PyNone (Some BN) (Some ReLU)) PyNone PyNone = ret blk /\
    (2 = 0 -> ic = 3) /\
    (1 <= 2 ->
     exists cm, nth_error (effu_c1 default_network) 1 = Some [cm] /\
                ic = cm_out_channels cm).
Proof.
  assert (0 <= 2 < c_num_stages (default_config 3 64)) as Hi by (cbn; lia).
  exact (encoder_blocks_layout (lib := Torch_library) (default_config 3 64) [] default_network 2
           eq_refl Hi).
Defined.

Lemma fold_right_add_app (l : list Z) (a : Z) :
  fold_right Z.add 0 (l ++ [a]) = fold_right Z.add 0 l + a.
Proof. induction l as [| x l IH]; cbn; [lia | rewrite IH; lia]. Qed.

(** The widths below level [k] add up to [base * (2^k - 1)]. *)
Lemma spec_width_below_closed (base : Z) (k : nat) :
  spec_width_below base (Z.of_nat k) = base * (2 ^ Z.of_nat k - 1).
Proof.
  unfold spec_width_below, range. rewrite Nat2Z.id.
  induction k as [| k IH]; [cbn; lia |].
  rewrite seq_S, !map_app. cbn [Nat.add map].
  rewrite fold_right_add_app, IH.
  unfold spec_width. rewrite Nat2Z.inj_succ, Z.pow_succ_r by lia. lia.
Qed.

(** X4.  In a constructed network the attention gate and the 1x1
    convolution of level [i >= 1] are built for
    [base_channels * (2^i - 1)] channels, and the convolution gives
    [base_channels * 2^(i-1)]. *)
Theorem fusion_width_closed_form {lib : Library} (c : Config) (w : list warning)
    (m : AMDNet_EFFU) (i : Z) :
  AMDNet_EFFU_init c = (w, inr m) ->
  1 <= i < c_num_stages c ->
  exists g cm,
    nth_error (effu_cbam m) (Z.to_nat (i - 1)) = Some g /\
    nth_error (effu_c1 m) (Z.to_nat (i - 1)) = Some [cm] /\
    cbam_channels g = c_base_channels c * (2 ^ i - 1) /\
    cm_in_channels cm = c_base_channels c * (2 ^ i - 1) /\
    cm_out_channels cm = c_base_channels c * 2 ^ (i - 1).
Proof.
  intros E Hi.
  apply AMDNet_EFFU_init_inr in E. destruct E as (icfg & _ & _ & _ & _ & ->).
  cbn [effu_cbam effu_c1 built]. unfold built_cbam, built_c1.
  rewrite !nth_error_map, (range_from_nth 1 _ i) by lia. cbn [option_map].
  do 2 eexists. split; [reflexivity | split; [reflexivity |]].
  cbn [cbam_channels cm_in_channels cm_out_channels].
  assert (spec_width_below (c_base_channels c) i
          = c_base_channels c * (2 ^ i - 1)) as Hw.
  { rewrite <- (Z2Nat.id i) by lia. apply spec_width_below_closed. }
  rewrite np_sum_prefix_enc_channels, Hw by lia. auto.
Qed.

(** Level 4 of the default network: 15 * 64 channels. *)
Lemma fusion_width_closed_form_witness :
  exists g cm,
    nth_error (effu_cbam default_network) 3 = Some g /\
    nth_error (effu_c1 default_network) 3 = Some [cm] /\
    cbam_channels g = 64 * (2 ^ 4 - 1) /\
    cm_in_channels cm = 64 * (2 ^ 4 - 1) /\
    cm_out_channels cm = 64 * 2 ^ (4 - 1).
Proof.
  assert (1 <= 4 < c_num_stages (default_config 3 64)) as Hi by (cbn; lia).
  exact (fusion_width_closed_form (lib := Torch_library) (default_config 3 64) [] default_network 4
           eq_refl Hi).
Defined.

(** The loop of [effu_c2] reads five fields of the configuration. *)
Lemma effu_c2_loop_ext {lib : Library} (c c' : Config) (stages : list Z) (ic : Z) :
  c_enc_num_convs c' = c_enc_num_convs c -> c_strides c' = c_strides c ->
  c_enc_dilations c' = c_enc_dilations c ->
  c_base_channels c' = c_base_channels c ->
  c_with_cp c' = c_with_cp c -> c_layer_cfg c' = c_layer_cfg c ->
  effu_c2_loop c' stages ic = effu_c2_loop c stages ic.
Proof.
  intros Hn Hs Hd Hb Hc Hl. revert ic.
  induction stages as [| i stages IH]; intros ic; [reflexivity |].
  cbn [effu_c2_loop]. rewrite Hn, Hs, Hd, Hb, Hc, Hl.
  do 4 (apply bind_ext; intro). now rewrite IH.
Qed.

(** X5.  [upsample_cfg] is never read: changing it changes neither the
    outcome of [__init__] (network or exception) nor its warnings. *)
Theorem upsample_cfg_unused {lib : Library} (c : Config) (u : pyval) :
  AMDNet_EFFU_init (with_upsample_cfg c u) = AMDNet_EFFU_init c.
Proof.
  unfold AMDNet_EFFU_init.
  change (init_cfg_of (with_upsample_cfg c u)) with (init_cfg_of c).
  apply bind_ext. intros icfg.
  change (check_lengths (with_upsample_cfg c u)) with (check_lengths c).
  apply bind_ext. intros _.
  unfold build_blocks.
  rewrite (effu_c2_loop_ext c (with_upsample_cfg c u)) by reflexivity.
  reflexivity.
Qed.

(** X6.  With [pretrained=None] a successful construction gives no
    warning, and [self.init_cfg] is the default pair of directives when
    [init_cfg] is [None] and the given [init_cfg] otherwise. *)
Theorem pretrained_None_init_cfg {lib : Library} (c : Config) (w : list warning)
    (m : AMDNet_EFFU) :
  c_pretrained c = PyNone ->
  AMDNet_EFFU_init c = (w, inr m) ->
  w = [] /\ pretrained m = PyNone /\
  init_cfg m = if is_None (c_init_cfg c) then default_init_cfg
               else c_init_cfg c.
Proof.
  intros Hp E. apply AMDNet_EFFU_init_inr in E.
  destruct E as (icfg & Ei & _ & _ & _ & ->).
  rewrite init_cfg_of_pass in Ei by (rewrite Hp; apply andb_false_r).
  rewrite Hp in Ei. cbn in Ei. injection Ei as <- <-.
  cbn [pretrained init_cfg built]. auto.
Qed.

(** The default configuration, and the one with a Kaiming directive. *)
Lemma pretrained_None_init_cfg_witness :
  init_cfg default_network = default_init_cfg /\
  init_cfg (built (with_pretrained (default_config 3 64) PyNone
                     (PyDict [("type"%string, PyStr "Kaiming")]))
                  (PyDict [("type"%string, PyStr "Kaiming")]))
  = PyDict [("type"%string, PyStr "Kaiming")].
Proof.
  split.
  - exact (proj2 (proj2 (pretrained_None_init_cfg (lib := Torch_library) (default_config 3 64) []
                           default_network eq_refl eq_refl))).
  - exact (proj2 (proj2 (pretrained_None_init_cfg (lib := Torch_library)
                           (with_pretrained (default_config 3 64) PyNone
                              (PyDict [("type"%string, PyStr "Kaiming")]))
                           [] _ eq_refl eq_refl))).
Defined.

(** * Further properties of the divisibility check *)

Lemma factor_list_power (g : Z -> bool) (l : list Z) :
  exists k, 0 <= k <= len l /\
            fold_right Z.mul 1 (map (fun i => if g i then 2 else 1) l) = 2 ^ k.
Proof.
  unfold len. induction l as [| i l (k & Hk & IH)].
  - exists 0. cbn. lia.
  - cbn [map fold_right List.length]. rewrite IH. destruct (g i).
    + exists (k + 1). split; [lia |]. rewrite Z.pow_add_r by lia. lia.
    + exists k. split; [lia |]. lia.
Qed.

Lemma spec_downsample_factor_power (n : Z) (st : list Z) (ds : list pyval) :
  exists k, 0 <= k <= Z.max 0 (n - 1) /\ spec_downsample_factor n st ds = 2 ^ k.
Proof.
  unfold spec_downsample_factor.
  destruct (factor_list_power
              (fun i => (nth (Z.to_nat i) st 0 =? 2)
                        || truthy (nth (Z.to_nat (i - 1)) ds PyNone))
              (range_from 1 n)) as (k & Hk & E).
  rewrite range_from_length in Hk. exists k. split; [lia | exact E].
Qed.

(** X7.  On a constructed network the check passes exactly when the
    height and the width of the input are divisible by the cumulative
    downsampling factor; then the forward pass goes on with the first
    encoder block. *)
Theorem check_passes_iff {lib : Library} {T} `{Backend T} (c : Config) (w : list warning)
    (m : AMDNet_EFFU) (x : T) :
  AMDNet_EFFU_init c = (w, inr m) ->
  let rate := spec_downsample_factor (num_stages m) (strides m) (downsamples m) in
  (_check_input_divisible m x = ret tt <->
   (rate | sh_H (shape x)) /\ (rate | sh_W (shape x))) /\
  (_check_input_divisible m x = ret tt -> forward m x = forward_body m x).
Proof.
  intros E rate.
  assert (rate <> 0) as Hr
    by (pose proof (spec_downsample_factor_pos (num_stages m) (strides m)
                      (downsamples m)); subst rate; lia).
  split.
  - unfold _check_input_divisible.
    rewrite (whole_downsample_rate_built c w m E), bind_ret_l. fold rate.
    rewrite <- !Z.mod_divide by exact Hr.
    destruct (Z.eqb_spec (sh_H (shape x) mod rate) 0) as [-> | Hh];
      destruct (Z.eqb_spec (sh_W (shape x) mod rate) 0) as [-> | Hw];
      cbn [andb py_assert]; unfold ret, raise;
      split; try tauto; try discriminate; intros [? ?]; contradiction.
  - intros Hc. apply forward_check_passes. now rewrite Hc.
Qed.

(** The default network on a 32 x 48 input. *)
Lemma check_passes_iff_witness :
  _check_input_divisible default_network (mkShape 1 3 32 48) = ret tt.
Proof.
  pose proof (check_passes_iff (lib := Torch_library) (default_config 3 64) [] default_network
                (mkShape 1 3 32 48) eq_refl) as [Hiff _].
  apply Hiff. split; [exists 2 | exists 3]; reflexivity.
Defined.

(** X8.  The cumulative downsampling factor of a constructed network is a
    power of two [2^k] with [k <= num_stages - 1], so the check passes on
    every input whose height and width are multiples of
    [2^(num_stages - 1)]. *)
Theorem full_rate_multiples_pass {lib : Library} {T} `{Backend T} (c : Config)
    (w : list warning) (m : AMDNet_EFFU) (x : T) :
  AMDNet_EFFU_init c = (w, inr m) ->
  (2 ^ (num_stages m - 1) | sh_H (shape x)) ->
  (2 ^ (num_stages m - 1) | sh_W (shape x)) ->
  (exists k, 0 <= k <= num_stages m - 1 /\ whole_downsample_rate m = ret (2 ^ k)) /\
  _check_input_divisible m x = ret tt.
Proof.
  intros E HH HW.
  pose proof (whole_downsample_rate_built c w m E) as Hrate.
  destruct (spec_downsample_factor_power (num_stages m) (strides m)
              (downsamples m)) as (k & Hk & Ek).
  assert (1 <= num_stages m) as Hn.
  { apply AMDNet_EFFU_init_inr in E. destruct E as (icfg & _ & _ & _ & F & ->).
    apply first_wrong_length_None in F. destruct F as (_ & _ & Hdec & _).
    cbn [num_stages built]. unfold len in Hdec. lia. }
  rewrite Ek in Hrate.
  assert ((2 ^ k | 2 ^ (num_stages m - 1))) as Hdiv.
  { exists (2 ^ (num_stages m - 1 - k)). rewrite <- Z.pow_add_r by lia.
    f_equal. lia. }
  split; [exists k; split; [lia | exact Hrate] |].
  unfold _check_input_divisible. rewrite Hrate, bind_ret_l.
  assert (2 ^ k <> 0) as Hnz by (apply Z.pow_nonzero; lia).
  rewrite (proj2 (Z.mod_divide _ _ Hnz) (Z.divide_trans _ _ _ Hdiv HH)).
  rewrite (proj2 (Z.mod_divide _ _ Hnz) (Z.divide_trans _ _ _ Hdiv HW)).
  reflexivity.
Qed.

(** The network with no downsampling flag set takes a 16 x 32 input, as
    every five-stage network does. *)
Lemma full_rate_multiples_pass_witness :
  _check_input_divisible
    (built (with_downsamples (default_config 3 64)
              [PyBool false; PyBool true; PyBool false; PyBool true])
           default_init_cfg)
    (mkShape 1 3 16 32) = ret tt.
Proof.
  assert ((2 ^ (5 - 1) | 16)) as H16 by (exists 1; reflexivity).
  assert ((2 ^ (5 - 1) | 32)) as H32 by (exists 2; reflexivity).
  exact (proj2 (full_rate_multiples_pass (lib := Torch_library)
                  (with_downsamples (default_config 3 64)
                     [PyBool false; PyBool true; PyBool false; PyBool true])
                  [] _ (mkShape 1 3 16 32) eq_refl H16 H32)).
Defined.

(** * Further properties of the forward pass on shapes *)

Ltac dlia := Z.div_mod_to_equations; lia.

(** The first convolution of a block: kernel 3, padding 1, stride [st]. *)
Lemma conv_out_first (size st : Z) :
  conv_out size 3 st 1 1 = (size - 1) / st + 1.
Proof. unfold conv_out. do 2 f_equal. lia. Qed.

Lemma kernel_fits_first (size : Z) :
  0 < size -> kernel_too_large size 3 1 1 = false.
Proof. intros Hs. unfold kernel_too_large. apply Z.ltb_ge. lia. Qed.

Lemma conv_out_first_pos (size st : Z) :
  0 < st -> 0 < size -> 0 < (size - 1) / st + 1.
Proof. intros. assert (0 <= (size - 1) / st) by (apply Z.div_pos; lia). lia. Qed.

(** Convolutions of stride 1 from [oc] to [oc] channels whose padding
    makes up for the kernel, in sequence, keep the shape. *)
Lemma Sequential_same_size (tr : bool) (oc : Z) (n : option norm_type)
    (l : list ConvModule) (y : Shape) :
  Forall (fun cm => cm_stride cm = 1 /\
                    2 * cm_padding cm = cm_dilation cm * (cm_kernel_size cm - 1) /\
                    0 <= cm_padding cm /\ 0 < cm_dilation cm /\
                    cm_in_channels cm = oc /\ cm_out_channels cm = oc /\
                    cm_norm_cfg cm = n) l ->
  0 < oc -> sh_C y = oc -> 0 < sh_H y -> 0 < sh_W y ->
  batch_ok tr n (sh_B y) (sh_H y) (sh_W y) ->
  Sequential_forward (shape_conv_module tr) l y = inr y.
Proof.
  intros HF Hoc. revert y.
  induction HF as [| cm l (Hs & Hp & Hp0 & Hd & Hi & Ho & Hn) _ IH];
    intros y Hc Hh Hw Hb; [reflexivity |].
  cbn [Sequential_forward].
  rewrite shape_conv_module_same
    by first [ assumption | lia | congruence | (rewrite Hn; assumption) ].
  rewrite Ho, <- Hc. destruct y as [b ch h wd]. cbn in *. now apply IH.
Qed.

(** The shape after a block of [nc >= 1] convolutions with stride [st]. *)
Lemma block_of_forward_shape (tr : bool) (ic oc nc st dl : Z) (cp : bool)
    (lc : LayerCfg) (x : Shape) :
  1 <= nc -> 0 < st -> (2 <= nc -> 0 < dl) -> 0 < oc ->
  sh_C x = ic -> 0 < sh_H x -> 0 < sh_W x ->
  batch_ok tr (norm_cfg lc) (sh_B x)
           ((sh_H x - 1) / st + 1) ((sh_W x - 1) / st + 1) ->
  @BasicConvBlock_forward Shape (Shape_backend tr)
     (block_of ic oc nc st dl cp lc) x
  = inr (mkShape (sh_B x) oc ((sh_H x - 1) / st + 1) ((sh_W x - 1) / st + 1)).
Proof.
  intros Hnc Hst Hdl Hoc Hc Hh Hw Hb. unfold BasicConvBlock_forward, checkpoint.
  cbn [requires_grad Shape_backend]. rewrite andb_false_r.
  cbn [bcb_convs block_of conv_module Shape_backend]. unfold range.
  destruct (Z.to_nat nc) as [| k] eqn:Ek; [lia |].
  cbn [seq map Sequential_forward Z.of_nat Z.eqb].
  unfold shape_conv_module at 1, shape_conv2d.
  cbn [cm_in_channels cm_kernel_size cm_stride cm_padding cm_dilation
       cm_out_channels cm_norm_cfg].
  cbn [Z.ltb Z.compare Z.eqb].
  destruct (Z.leb_spec st 0); [lia |].
  destruct (Z.leb_spec oc 0); [lia |].
  rewrite Hc, Z.eqb_refl. cbn [negb].
  rewrite !kernel_fits_first by assumption. cbn [orb].
  rewrite !conv_out_first.
  rewrite shape_norm_ok by exact Hb.
  apply (Sequential_same_size tr oc (norm_cfg lc)).
  - apply Forall_map. apply Forall_map. apply Forall_forall.
    intros j Hj. apply in_seq in Hj.
    destruct (Z.eqb_spec (Z.of_nat j) 0); [lia |].
    cbn [cm_stride cm_padding cm_dilation cm_kernel_size cm_in_channels
         cm_out_channels cm_norm_cfg].
    assert (0 < dl) by (apply Hdl; lia).
    repeat split; lia.
  - exact Hoc.
  - reflexivity.
  - cbn. now apply conv_out_first_pos.
  - cbn. now apply conv_out_first_pos.
  - exact Hb.
Qed.

(** X9.  On shapes, a [BasicConvBlock] of plain layers built with at least
    one convolution, a positive stride [s], positive channel counts and,
    when it has a second convolution, a positive dilation maps an input of
    [in_channels] channels and positive extents [H x W] to [out_channels]
    channels and extents [(H - 1) / s + 1] by [(W - 1) / s + 1], whatever
    the number of convolutions and the dilation; a batch normalisation in
    training mode needs more than one value per channel in that output. *)
Theorem BasicConvBlock_forward_shape {lib : Library} (training : bool)
    (in_channels out_channels : Z)
    (num_convs stride dilation : Z) (with_cp : bool) (lc : LayerCfg)
    (dcn plugins : pyval) (l : list warning) (blk : BasicConvBlock)
    (x : Shape) :
  BasicConvBlock_init in_channels out_channels num_convs stride dilation
                      with_cp lc dcn plugins = (l, inr blk) ->
  plain_layers lc ->
  1 <= num_convs -> 0 < stride -> (2 <= num_convs -> 0 < dilation) ->
  0 < in_channels -> 0 < out_channels ->
  sh_C x = in_channels -> 0 < sh_B x -> 0 < sh_H x -> 0 < sh_W x ->
  batch_ok training (norm_cfg lc) (sh_B x)
           ((sh_H x - 1) / stride + 1) ((sh_W x - 1) / stride + 1) ->
  @BasicConvBlock_forward Shape (Shape_backend training) blk x
  = inr (mkShape (sh_B x) out_channels
                 ((sh_H x - 1) / stride + 1) ((sh_W x - 1) / stride + 1)).
Proof.
  intros E _ Hnc Hst Hdl _ Hoc Hc _ Hh Hw Hb. apply BasicConvBlock_init_inr in E.
  destruct E as (_ & _ & _ & ->).
  now apply block_of_forward_shape.
Qed.

(** Three convolutions with stride 2 and dilation 3 on a 7 x 10 input, in
    training mode. *)
Lemma BasicConvBlock_forward_shape_witness :
  @BasicConvBlock_forward Shape (Shape_backend true)
    (block_of 3 64 3 2 3 false (mkLayerCfg PyNone (Some BN) (Some ReLU)))
    (mkShape 2 3 7 10)
  = inr (mkShape 2 64 4 5).
Proof.
  assert (1 <= 3) as H1 by lia. assert (0 < 2) as H2 by lia.
  assert (2 <= 3 -> 0 < 3) as Hd by lia.
  assert (0 < 3) as H3 by lia. assert (0 < 64) as H64 by lia.
  assert (0 < 7) as H7 by lia. assert (0 < 10) as H10 by lia.
  assert (plain_layers (mkLayerCfg PyNone (Some BN) (Some ReLU))) as Hpl
    by (split; [reflexivity | now left]).
  assert (batch_ok true (Some BN) 2 ((7 - 1) / 2 + 1) ((10 - 1) / 2 + 1)) as Hb
    by (intros _ _; reflexivity).
  exact (BasicConvBlock_forward_shape (lib := Torch_library) true 3 64 3 2 3
           false (mkLayerCfg PyNone (Some BN) (Some ReLU)) PyNone PyNone []
           _ (mkShape 2 3 7 10) eq_refl Hpl H1 H2 Hd H3 H64 eq_refl H2 H7 H10
           Hb).
Defined.

Lemma block_of_forward_unit (tr : bool) (ic oc nc dl : Z) (cp : bool)
    (lc : LayerCfg) (x : Shape) :
  1 <= nc -> 0 < dl -> 0 < oc -> sh_C x = ic -> 0 < sh_H x -> 0 < sh_W x ->
  batch_ok tr (norm_cfg lc) (sh_B x) (sh_H x) (sh_W x) ->
  @BasicConvBlock_forward Shape (Shape_backend tr)
     (block_of ic oc nc 1 dl cp lc) x
  = inr (mkShape (sh_B x) oc (sh_H x) (sh_W x)).
Proof.
  intros Hnc Hdl Hoc Hc Hh Hw Hb.
  assert ((sh_H x - 1) / 1 + 1 = sh_H x) as EH by (rewrite Z.div_1_r; lia).
  assert ((sh_W x - 1) / 1 + 1 = sh_W x) as EW by (rewrite Z.div_1_r; lia).
  rewrite block_of_forward_shape by (auto; try lia; now rewrite EH, EW).
  now rewrite EH, EW.
Qed.

Lemma run_c2_unit (tr : bool) (ic oc nc dl : Z) (cp : bool) (lc : LayerCfg)
    (x : Shape) :
  1 <= nc -> 0 < dl -> 0 < oc -> sh_C x = ic -> 0 < sh_H x -> 0 < sh_W x ->
  batch_ok tr (norm_cfg lc) (sh_B x) (sh_H x) (sh_W x) ->
  @run_c2 Shape (Shape_backend tr) [block_of ic oc nc 1 dl cp lc] x
  = inr (mkShape (sh_B x) oc (sh_H x) (sh_W x)).
Proof.
  intros Hnc Hdl Hoc Hc Hh Hw Hb. unfold run_c2. cbn [Sequential_forward].
  now rewrite block_of_forward_unit.
Qed.

(** A pooling window of size and stride [k] in ceiling mode. *)
Lemma pool_out_ceil (size k : Z) :
  0 < k -> 0 < size -> pool_out size k k true = inr ((size - 1) / k + 1).
Proof.
  intros Hk Hs. unfold pool_out.
  destruct (Z.leb_spec k 0); [lia |]. cbn [orb andb].
  replace (size - (k - 1) - 1 + (k - 1)) with (size - 1) by lia.
  replace ((size - 1) / k + 1 - 1) with ((size - 1) / k) by lia.
  pose proof (Z.mul_div_le (size - 1) k Hk) as Hle.
  assert (0 <= (size - 1) / k) as Hge by (apply Z.div_pos; lia).
  destruct (Z.leb_spec size ((size - 1) / k * k)); [lia |].
  destruct (Z.leb_spec ((size - 1) / k + 1) 0); [lia | reflexivity].
Qed.

Lemma max_pool2d_ceil (tr : bool) (k : Z) (x : Shape) :
  0 < k -> 0 < sh_H x -> 0 < sh_W x ->
  @max_pool2d Shape (Shape_backend tr) (mkMaxPool2d k k true) x
  = inr (mkShape (sh_B x) (sh_C x) ((sh_H x - 1) / k + 1) ((sh_W x - 1) / k + 1)).
Proof.
  intros Hk Hh Hw. cbn. unfold shape_max_pool2d. cbn.
  now rewrite !pool_out_ceil.
Qed.

Lemma same_extent_true (a b : Shape) :
  same_extent a b = true <->
  sh_B a = sh_B b /\ sh_H a = sh_H b /\ sh_W a = sh_W b.
Proof.
  unfold same_extent. rewrite !andb_true_iff, !Z.eqb_eq. tauto.
Qed.

Lemma outcome_cat2_bind {B} (tr : bool) (a b : Shape)
    (K : Shape -> M submodule B) :
  outcome (bind (lift (@torch_cat Shape (Shape_backend tr) [a; b])) K) =
  if same_extent a b
  then outcome (K (mkShape (sh_B a) (sh_C a + sh_C b) (sh_H a) (sh_W a)))
  else inl (RuntimeError "Sizes of tensors must match except in dimension 1").
Proof.
  rewrite outcome_bind. cbn. unfold shape_cat. cbn.
  rewrite andb_true_r. now destruct (same_extent a b).
Qed.

Lemma Forall_nth_Z (P : Z -> Prop) (l : list Z) (i : nat) :
  Forall P l -> (i < List.length l)%nat -> P (nth i l 0).
Proof. intros HF Hi. rewrite Forall_forall in HF. apply HF. now apply nth_In. Qed.

(** The blocks of a five-stage network with unit strides, written out. *)
Lemma unit_stride_network_lists (c : Config) (icfg : pyval) :
  c_num_stages c = 5 -> c_strides c = [1; 1; 1; 1; 1] ->
  let m := built c icfg in
  let b := c_base_channels c in
  let lc := c_layer_cfg c in
  let cp := c_with_cp c in
  let nc i := nth i (c_enc_num_convs c) 0 in
  let dl i := nth i (c_enc_dilations c) 0 in
  let c1 i o := [mkConvModule i o 1 1 1 0 (conv_cfg lc) (norm_cfg lc) (act_cfg lc)] in
  effu_c2 m =
    [ [block_of (c_in_channels c) (b * 1) (nc 0%nat) 1 (dl 0%nat) cp lc];
      [block_of (b * 1) (b * 2) (nc 1%nat) 1 (dl 1%nat) cp lc];
      [block_of (b * 2) (b * 4) (nc 2%nat) 1 (dl 2%nat) cp lc];
      [block_of (b * 4) (b * 8) (nc 3%nat) 1 (dl 3%nat) cp lc];
      [block_of (b * 8) (b * 16) (nc 4%nat) 1 (dl 4%nat) cp lc] ] /\
  effu_c1 m =
    [ c1 (b * 1 + 0) (b * 1);
      c1 (b * 1 + (b * 2 + 0)) (b * 2);
      c1 (b * 1 + (b * 2 + (b * 4 + 0))) (b * 4);
      c1 (b * 1 + (b * 2 + (b * 4 + (b * 8 + 0)))) (b * 8) ] /\
  effu_cbam m =
    [ mkCBAMBlock (b * 1 + 0);
      mkCBAMBlock (b * 1 + (b * 2 + 0));
      mkCBAMBlock (b * 1 + (b * 2 + (b * 4 + 0)));
      mkCBAMBlock (b * 1 + (b * 2 + (b * 4 + (b * 8 + 0)))) ] /\
  decoder m =
    [ block_of (b * 1 + b * 2) (b * 1) 2 1 1 cp lc;
      block_of (b * 2 + b * 4) (b * 2) 2 1 1 cp lc;
      block_of (b * 4 + b * 8) (b * 4) 2 1 1 cp lc;
      block_of (b * 8 + b * 16) (b * 8) 2 1 1 cp lc ].
Proof.
  intros Hn Hs. cbv zeta.
  cbn [effu_c2 effu_c1 effu_cbam decoder built].
  unfold built_c2, built_c1, built_cbam, built_decoder, enc_channels_of.
  rewrite Hn, Hs. repeat split; reflexivity.
Qed.

Ltac shape_side2 :=
  cbn [cm_stride cm_padding cm_dilation cm_kernel_size cm_in_channels
       cm_out_channels cm_norm_cfg sh_B sh_C sh_H sh_W cbam_channels];
  first [ assumption | reflexivity | lia | dlia
        | (eapply batch_ok_mono; [eassumption | first [lia | dlia] ..]) ].
Ltac fwd_call2 lem :=
  erewrite outcome_call_bind by (apply lem; shape_side2);
  cbn [sh_B sh_C sh_H sh_W].
Ltac fwd_cat2 :=
  erewrite outcome_lift_bind
    by (apply torch_cat_same; repeat constructor; shape_side2);
  cbn [sh_B sh_C sh_H sh_W fold_left].

(** A concatenation of the decoder: either the extents agree, or the pass
    ends in the size error and one of the extents is no multiple of 16. *)
Ltac fwd_decoder_cat E :=
  rewrite outcome_cat2_bind; cbn [sh_B sh_C sh_H sh_W];
  match goal with
  | |- context [same_extent ?a ?b] =>
      destruct (same_extent a b) eqn:E;
      [ apply same_extent_true in E; cbn [sh_B sh_C sh_H sh_W] in E;
        destruct E as (_ & E)
      | match goal with
        | |- _ = (if ?cond then _ else _) =>
            destruct cond eqn:Hcond; [exfalso | reflexivity];
            apply andb_true_iff in Hcond; destruct Hcond as [Hc1 Hc2];
            apply Z.eqb_eq in Hc1, Hc2;
            assert (same_extent a b = true)
              by (apply same_extent_true; cbn [sh_B sh_C sh_H sh_W];
                  repeat split; dlia);
            congruence
        end ]
  end.

(** A five-stage network with unit strides, on an input of positive
    extents: the encoder always runs; the decoder runs exactly when both
    extents are multiples of 16. *)
Lemma unit_stride_forward_body (tr : bool) (c : Config) (icfg : pyval)
    (B H W : Z) :
  c_num_stages c = 5 -> c_strides c = [1; 1; 1; 1; 1] ->
  len (c_enc_num_convs c) = 5 -> len (c_enc_dilations c) = 5 ->
  Forall (fun n => 1 <= n) (c_enc_num_convs c) ->
  Forall (fun d => 0 < d) (c_enc_dilations c) ->
  0 < c_base_channels c -> 0 < B -> 0 < H -> 0 < W ->
  batch_ok tr (norm_cfg (c_layer_cfg c)) B
           ((H - 1) / 16 + 1) ((W - 1) / 16 + 1) ->
  outcome (@forward_body Shape (Shape_backend tr) (built c icfg)
             (mkShape B (c_in_channels c) H W))
  = if (H mod 16 =? 0) && (W mod 16 =? 0)
    then inr [ mkShape B (c_base_channels c * 16) ((H - 1) / 16 + 1) ((W - 1) / 16 + 1);
               mkShape B (c_base_channels c * 8) ((H - 1) / 8 + 1) ((W - 1) / 8 + 1);
               mkShape B (c_base_channels c * 4) ((H - 1) / 4 + 1) ((W - 1) / 4 + 1);
               mkShape B (c_base_channels c * 2) ((H - 1) / 2 + 1) ((W - 1) / 2 + 1);
               mkShape B (c_base_channels c * 1) H W ]
    else inl (RuntimeError "Sizes of tensors must match except in dimension 1").
Proof.
  intros Hn Hs Hlen Hlend Hnc Hdl Hbc HB HH HW Hbn. unfold forward_body.
  destruct (unit_stride_network_lists c icfg Hn Hs) as (-> & -> & -> & ->).
  cbn [pool_2 pool_4 pool_8 pool_16 up_2 built].
  unfold len in Hlen, Hlend.
  assert (1 <= nth 0 (c_enc_num_convs c) 0) as N0 by (apply Forall_nth_Z; auto; lia).
  assert (1 <= nth 1 (c_enc_num_convs c) 0) as N1 by (apply Forall_nth_Z; auto; lia).
  assert (1 <= nth 2 (c_enc_num_convs c) 0) as N2 by (apply Forall_nth_Z; auto; lia).
  assert (1 <= nth 3 (c_enc_num_convs c) 0) as N3 by (apply Forall_nth_Z; auto; lia).
  assert (1 <= nth 4 (c_enc_num_convs c) 0) as N4 by (apply Forall_nth_Z; auto; lia).
  assert (0 < nth 0 (c_enc_dilations c) 0) as D0
    by (apply (Forall_nth_Z (fun d => 0 < d)); auto; lia).
  assert (0 < nth 1 (c_enc_dilations c) 0) as D1
    by (apply (Forall_nth_Z (fun d => 0 < d)); auto; lia).
  assert (0 < nth 2 (c_enc_dilations c) 0) as D2
    by (apply (Forall_nth_Z (fun d => 0 < d)); auto; lia).
  assert (0 < nth 3 (c_enc_dilations c) 0) as D3
    by (apply (Forall_nth_Z (fun d => 0 < d)); auto; lia).
  assert (0 < nth 4 (c_enc_dilations c) 0) as D4
    by (apply (Forall_nth_Z (fun d => 0 < d)); auto; lia).
  clear Hnc Hlen Hdl Hlend.
  (* level 0 *)
  fwd_getitem. fwd_call2 run_c2_unit.
  (* level 1 *)
  do 3 fwd_getitem.
  fwd_call2 max_pool2d_ceil.
  fwd_call2 cbam_block_same. fwd_call2 run_c1_same. fwd_call2 run_c2_unit.
  (* level 2 *)
  do 3 fwd_getitem.
  fwd_call2 max_pool2d_ceil. fwd_call2 max_pool2d_ceil. fwd_cat2.
  fwd_call2 cbam_block_same. fwd_call2 run_c1_same. fwd_call2 run_c2_unit.
  (* level 3 *)
  do 3 fwd_getitem.
  fwd_call2 max_pool2d_ceil. fwd_call2 max_pool2d_ceil.
  fwd_call2 max_pool2d_ceil. fwd_cat2.
  fwd_call2 cbam_block_same. fwd_call2 run_c1_same. fwd_call2 run_c2_unit.
  (* level 4 *)
  do 3 fwd_getitem.
  fwd_call2 max_pool2d_ceil. fwd_call2 max_pool2d_ceil.
  fwd_call2 max_pool2d_ceil. fwd_call2 max_pool2d_ceil. fwd_cat2.
  fwd_call2 cbam_block_same. fwd_call2 run_c1_same. fwd_call2 run_c2_unit.
  (* decoder *)
  fwd_getitem. fwd_up. fwd_decoder_cat E3. fwd_call2 block_of_forward_unit.
  fwd_getitem. fwd_up. fwd_decoder_cat E2. fwd_call2 block_of_forward_unit.
  fwd_getitem. fwd_up. fwd_decoder_cat E1. fwd_call2 block_of_forward_unit.
  fwd_getitem. fwd_up. fwd_decoder_cat E0. fwd_call2 block_of_forward_unit.
  destruct E3 as [E3h E3w], E2 as [E2h E2w], E1 as [E1h E1w], E0 as [E0h E0w].
  assert (H mod 16 = 0) as -> by dlia.
  assert (W mod 16 = 0) as -> by dlia.
  reflexivity.
Qed.

Lemma check_divisible_ret {lib : Library} {T} `{Backend T} (c : Config) (w : list warning)
    (m : AMDNet_EFFU) (x : T) :
  AMDNet_EFFU_init c = (w, inr m) ->
  let rate := spec_downsample_factor (num_stages m) (strides m) (downsamples m) in
  (rate | sh_H (shape x)) -> (rate | sh_W (shape x)) ->
  _check_input_divisible m x = ret tt.
Proof.
  intros E rate HH HW.
  assert (rate <> 0) as Hr
    by (pose proof (spec_downsample_factor_pos (num_stages m) (strides m)
                      (downsamples m)); subst rate; lia).
  unfold _check_input_divisible.
  rewrite (whole_downsample_rate_built c w m E), bind_ret_l. fold rate.
  rewrite (proj2 (Z.mod_divide _ _ Hr) HH), (proj2 (Z.mod_divide _ _ Hr) HW).
  reflexivity.
Qed.

Lemma rate_divides_full {lib : Library} (c : Config) (w : list warning) (m : AMDNet_EFFU) :
  AMDNet_EFFU_init c = (w, inr m) ->
  (spec_downsample_factor (num_stages m) (strides m) (downsamples m)
   | 2 ^ (num_stages m - 1)).
Proof.
  intros E.
  destruct (spec_downsample_factor_power (num_stages m) (strides m)
              (downsamples m)) as (k & Hk & ->).
  assert (1 <= num_stages m) as Hn.
  { apply AMDNet_EFFU_init_inr in E. destruct E as (icfg & _ & _ & _ & F & ->).
    apply first_wrong_length_None in F. destruct F as (_ & _ & Hdec & _).
    cbn [num_stages built]. unfold len in Hdec. lia. }
  exists (2 ^ (num_stages m - 1 - k)). rewrite <- Z.pow_add_r by lia.
  f_equal. lia.
Qed.

Lemma fails_forward_body {T} `{Backend T} (m : AMDNet_EFFU) (x : T) :
  fails (forward_body m x) -> fails (forward m x).
Proof. intros Hf. unfold forward. apply fails_bind. now intros _. Qed.

(** X10.  A constructed five-stage network of plain layers with unit
    strides, at least one convolution and a positive dilation per encoder
    stage and positive channel counts, on an input of [in_channels]
    channels and positive extents; the batch normalisations are in
    evaluation mode or get more than one value per channel at the coarsest
    level.  The forward pass returns the five maps, after all 31 calls,
    exactly when the height and the width are multiples of 16, whatever the
    flags [downsamples] say; otherwise it ends in an exception, which is the
    size error of a decoder concatenation once the check has passed. *)
Theorem unit_stride_forward {lib : Library} (training : bool) (c : Config)
    (w : list warning) (m : AMDNet_EFFU) (B H W : Z) :
  AMDNet_EFFU_init c = (w, inr m) ->
  c_num_stages c = 5 -> c_strides c = [1; 1; 1; 1; 1] ->
  Forall (fun n => 1 <= n) (c_enc_num_convs c) ->
  Forall (fun d => 0 < d) (c_enc_dilations c) ->
  plain_layers (c_layer_cfg c) ->
  0 < c_in_channels c -> 0 < c_base_channels c ->
  0 < B -> 0 < H -> 0 < W ->
  batch_ok training (norm_cfg (c_layer_cfg c)) B
           ((H - 1) / 16 + 1) ((W - 1) / 16 + 1) ->
  ((16 | H) /\ (16 | W) ->
   @forward Shape (Shape_backend training) m (mkShape B (c_in_channels c) H W)
   = (full_call_log,
      inr [ mkShape B (c_base_channels c * 16) (H / 16) (W / 16);
            mkShape B (c_base_channels c * 8) (H / 8) (W / 8);
            mkShape B (c_base_channels c * 4) (H / 4) (W / 4);
            mkShape B (c_base_channels c * 2) (H / 2) (W / 2);
            mkShape B (c_base_channels c) H W ])) /\
  (~ ((16 | H) /\ (16 | W)) ->
   fails (@forward Shape (Shape_backend training) m
            (mkShape B (c_in_channels c) H W)) /\
   outcome (@forward_body Shape (Shape_backend training) m
              (mkShape B (c_in_channels c) H W))
   = inl (RuntimeError "Sizes of tensors must match except in dimension 1")).
Proof.
  intros E Hn Hs Hnc Hdl _ _ Hbc HB HH HW Hbn.
  pose proof (rate_divides_full c w m E) as Hrate.
  pose proof (check_divisible_ret (H := Shape_backend training) c w m
                (mkShape B (c_in_channels c) H W) E) as Hcheck.
  apply AMDNet_EFFU_init_inr in E. destruct E as (icfg & _ & _ & _ & F & ->).
  apply first_wrong_length_None in F. destruct F as (_ & Hlen & _ & _ & Hlend & _).
  rewrite Hn in Hlen, Hlend.
  pose proof (unit_stride_forward_body training c icfg B H W Hn Hs Hlen Hlend
                Hnc Hdl Hbc HB HH HW Hbn) as Hb.
  cbn [num_stages built] in Hrate. rewrite Hn in Hrate.
  change (2 ^ (5 - 1)) with 16 in Hrate.
  split.
  - intros [H16 W16].
    apply follows_returns; [apply forward_follows |].
    rewrite forward_check_passes.
    + rewrite Hb.
      rewrite (proj2 (Z.mod_divide H 16 ltac:(lia)) H16).
      rewrite (proj2 (Z.mod_divide W 16 ltac:(lia)) W16).
      cbn [Z.eqb andb].
      destruct H16 as [h ->], W16 as [v ->].
      repeat (f_equal; try dlia).
    + rewrite Hcheck; [reflexivity | |];
        cbn [shape Shape_backend sh_H sh_W num_stages built]; rewrite Hn;
        [exact (Z.divide_trans _ _ _ Hrate H16)
        | exact (Z.divide_trans _ _ _ Hrate W16)].
  - intros Hnot.
    assert ((H mod 16 =? 0) && (W mod 16 =? 0) = false) as Hc.
    { apply not_true_iff_false. intros Ht. apply Hnot.
      apply andb_true_iff in Ht. destruct Ht as [Ht1 Ht2].
      apply Z.eqb_eq in Ht1, Ht2.
      split; apply Z.mod_divide; auto; lia. }
    rewrite Hc in Hb. split; [| exact Hb].
    apply fails_forward_body. eexists. exact Hb.
Qed.

(** The default network in training mode with every flag of [downsamples]
    off: the check takes a 24 x 32 input, and the decoder refuses it;
    64 x 64 goes through. *)
Lemma unit_stride_forward_witness :
  (fails (@forward Shape (Shape_backend true)
            (built (with_downsamples (default_config 3 64)
                      [PyBool false; PyBool false; PyBool false;
                       PyBool false])
                   default_init_cfg)
            (mkShape 1 3 24 32)) /\
   outcome (@forward_body Shape (Shape_backend true)
              (built (with_downsamples (default_config 3 64)
                        [PyBool false; PyBool false; PyBool false;
                         PyBool false])
                     default_init_cfg)
              (mkShape 1 3 24 32))
   = inl (RuntimeError "Sizes of tensors must match except in dimension 1")) /\
  @forward Shape (Shape_backend true) default_network (mkShape 2 3 64 64)
  = (full_call_log,
     inr [ mkShape 2 (64 * 16) (64 / 16) (64 / 16);
           mkShape 2 (64 * 8) (64 / 8) (64 / 8);
           mkShape 2 (64 * 4) (64 / 4) (64 / 4);
           mkShape 2 (64 * 2) (64 / 2) (64 / 2);
           mkShape 2 64 64 64 ]).
Proof.
  assert (Forall (fun n => 1 <= n) [2; 2; 2; 2; 2]) as Hnc
    by (repeat constructor; lia).
  assert (Forall (fun d => 0 < d) [1; 1; 1; 1; 1]) as Hdl
    by (repeat constructor; lia).
  assert (plain_layers (mkLayerCfg PyNone (Some BN) (Some ReLU))) as Hpl
    by (split; [reflexivity | now left]).
  assert (0 < 1) as H1 by lia. assert (0 < 2) as H2 by lia.
  assert (0 < 3) as H3 by lia.
  assert (0 < 24) as H24 by lia. assert (0 < 32) as H32 by lia.
  assert (0 < 64) as H64 by lia.
  assert (batch_ok true (Some BN) 1 ((24 - 1) / 16 + 1) ((32 - 1) / 16 + 1))
    as Hb1 by (intros _ _; reflexivity).
  assert (batch_ok true (Some BN) 2 ((64 - 1) / 16 + 1) ((64 - 1) / 16 + 1))
    as Hb2 by (intros _ _; reflexivity).
  split.
  - apply (proj2 (unit_stride_forward (lib := Torch_library) true
                    (with_downsamples (default_config 3 64)
                       [PyBool false; PyBool false; PyBool false; PyBool false])
                    [] _ 1 24 32 eq_refl eq_refl eq_refl Hnc Hdl Hpl H3 H64
                    H1 H24 H32 Hb1)).
    intros [[q Hq] _]. lia.
  - apply (proj1 (unit_stride_forward (lib := Torch_library) true
                    (default_config 3 64) [] default_network
                    2 64 64 eq_refl eq_refl eq_refl Hnc Hdl Hpl H3 H64
                    H2 H64 H64 Hb2)).
    split; exists 4; reflexivity.
Defined.

Lemma block_of_wrong_channels (tr : bool) (ic oc nc st dl : Z) (cp : bool)
    (lc : LayerCfg) (x : Shape) :
  1 <= nc -> 0 < st -> 0 < oc -> sh_C x <> ic ->
  @BasicConvBlock_forward Shape (Shape_backend tr)
     (block_of ic oc nc st dl cp lc) x
  = inl (RuntimeError "input channels do not match the weight").
Proof.
  intros Hnc Hst Hoc Hc. unfold BasicConvBlock_forward, checkpoint.
  cbn [requires_grad Shape_backend]. rewrite andb_false_r.
  cbn [bcb_convs block_of conv_module Shape_backend]. unfold range.
  destruct (Z.to_nat nc) as [| k] eqn:Ek; [lia |].
  cbn [seq map Sequential_forward Z.of_nat Z.eqb].
  unfold shape_conv_module at 1, shape_conv2d.
  cbn [cm_in_channels cm_kernel_size cm_stride cm_padding cm_dilation
       cm_out_channels].
  cbn [Z.ltb Z.compare].
  destruct (Z.leb_spec st 0); [lia |].
  destruct (Z.leb_spec oc 0); [lia |].
  destruct (Z.eqb_spec (sh_C x) ic); [contradiction | reflexivity].
Qed.

Lemma call_inl_bind {T B} (ev : submodule) (f : T -> exn + T) (x : T) (e : exn)
    (K : T -> M submodule B) :
  f x = inl e -> bind (call ev f x) K = ([ev], inl e).
Proof. intros E. unfold call, tell, lift. cbn. now rewrite E. Qed.

(** X11.  On shapes, a constructed network whose first encoder stage has
    at least one plain convolution with a positive stride and a positive
    number of output channels refuses an input with a channel count other
    than [in_channels]: once the divisibility check has passed, the first
    encoder block is the only sub-module called and the pass ends in the
    channel error of its first convolution, in training and in evaluation
    mode. *)
Theorem wrong_channels_rejected {lib : Library} (training : bool) (c : Config)
    (w : list warning) (m : AMDNet_EFFU) (x : Shape) :
  AMDNet_EFFU_init c = (w, inr m) ->
  conv_cfg (c_layer_cfg c) = PyNone ->
  1 <= nth 0 (c_enc_num_convs c) 0 ->
  0 < nth 0 (c_strides c) 0 ->
  0 < c_base_channels c ->
  sh_C x <> c_in_channels c ->
  let rate := spec_downsample_factor (num_stages m) (strides m) (downsamples m) in
  (rate | sh_H x) -> (rate | sh_W x) ->
  @forward Shape (Shape_backend training) m x
  = ([Effu_c2 0], inl (RuntimeError "input channels do not match the weight")).
Proof.
  intros E _ Hnc Hst Hbc Hc rate HH HW.
  rewrite forward_check_passes
    by (rewrite (check_divisible_ret (H := Shape_backend training) c w m x E);
        auto).
  apply AMDNet_EFFU_init_inr in E. destruct E as (icfg & _ & _ & _ & F & ->).
  apply first_wrong_length_None in F. destruct F as (_ & _ & Hdec & _).
  assert (0 <= 0 < c_num_stages c) as H0 by (unfold len in Hdec; lia).
  unfold forward_body. cbn [effu_c2 built]. unfold built_c2.
  erewrite getitem_Some
    by (rewrite nth_error_map, (range_nth _ _ H0); reflexivity).
  rewrite bind_ret_l. apply call_inl_bind.
  unfold run_c2. cbn [Sequential_forward Z.eqb Z.to_nat].
  rewrite block_of_wrong_channels; [reflexivity | assumption .. | lia | assumption].
Qed.

(** A one-channel image given to the default network. *)
Lemma wrong_channels_rejected_witness :
  @forward Shape (Shape_backend true) default_network (mkShape 2 1 64 64)
  = ([Effu_c2 0], inl (RuntimeError "input channels do not match the weight")).
Proof.
  assert (1 <= nth 0 (c_enc_num_convs (default_config 3 64)) 0) as Hnc
    by (cbn; lia).
  assert (0 < nth 0 (c_strides (default_config 3 64)) 0) as Hst by (cbn; lia).
  assert (0 < c_base_channels (default_config 3 64)) as Hbc by (cbn; lia).
  assert (sh_C (mkShape 2 1 64 64) <> c_in_channels (default_config 3 64))
    as Hc by (cbn; lia).
  assert ((16 | 64)) as Hd by (exists 4; reflexivity).
  exact (wrong_channels_rejected (lib := Torch_library) true
           (default_config 3 64) [] default_network
           (mkShape 2 1 64 64) eq_refl eq_refl Hnc Hst Hbc Hc Hd Hd).
Defined.

(** X12.  For every network, input and tensor library, the sub-modules
    that a forward pass calls are a prefix of one fixed sequence of 31
    calls, and the whole sequence when the pass returns: each encoder
    level pools the earlier outputs from the coarsest factor down, then
    runs its gate, its 1x1 convolution and its block; every decoder level
    upsamples by 2; the upsamplers of factors 4, 8 and 16 are never
    called. *)
Theorem forward_call_order {T} `{Backend T} (m : AMDNet_EFFU) (x : T) :
  (exists k, log_of (forward m x) = firstn k full_call_log) /\
  (forall outs, outcome (forward m x) = inr outs ->
                log_of (forward m x) = full_call_log).
Proof. exact (forward_follows m x). Qed.

(** The default network on a 64 x 64 input makes all 31 calls. *)
Lemma forward_call_order_witness :
  log_of (forward default_network (mkShape 2 3 64 64)) = full_call_log.
Proof.
  apply (proj2 (forward_call_order default_network (mkShape 2 3 64 64))
           [ mkShape 2 1024 4 4; mkShape 2 512 8 8; mkShape 2 256 16 16;
             mkShape 2 128 32 32; mkShape 2 64 64 64 ]).
  vm_compute. reflexivity.
Defined.

(** * Further properties of the training mode *)

Section TrainLaws.

Context {Buf : Type}.

Lemma train_eq (ne mode : bool) (m : Module Buf) :
  train ne mode m =
  if mode && ne then freeze_BatchNorm (Module_train true m)
  else Module_train mode m.
Proof.
  unfold train. destruct mode, ne; cbn [andb]; try reflexivity.
  apply train_loop_freeze.
Qed.

Lemma Module_train_train (a b : bool) (m : Module Buf) :
  Module_train a (Module_train b m) = Module_train a m.
Proof.
  induction m as [c t g bf ch IH] using Module_tree_ind. cbn. f_equal.
  rewrite map_map. apply map_ext_Forall. exact IH.
Qed.

Lemma Module_train_freeze (a : bool) (m : Module Buf) :
  Module_train a (freeze_BatchNorm m) = Module_train a m.
Proof.
  induction m as [c t g bf ch IH] using Module_tree_ind.
  cbn [freeze_BatchNorm]. destruct (isinstance_BatchNorm _).
  - apply Module_train_train.
  - cbn. f_equal. rewrite map_map. apply map_ext_Forall. exact IH.
Qed.

Lemma child_paths_ext (f : Module Buf -> Module Buf) (k : nat)
    (ch : list (Module Buf)) :
  Forall (fun x => module_paths (f x) = module_paths x) ch ->
  child_paths module_paths k (map f ch) = child_paths module_paths k ch.
Proof.
  intros HF. revert k. induction HF as [| x ch Hx _ IH]; intros k;
    [reflexivity |].
  cbn. now rewrite Hx, IH.
Qed.

Lemma module_paths_freeze (m : Module Buf) :
  module_paths (freeze_BatchNorm m) = module_paths m.
Proof.
  induction m as [c t g bf ch IH] using Module_tree_ind.
  cbn [freeze_BatchNorm]. destruct (isinstance_BatchNorm _).
  - apply module_paths_train.
  - cbn. f_equal. now apply child_paths_ext.
Qed.

(** X13.  The result of [train] depends on the last call only: a call of
    [train] after any earlier call, with whatever [mode] and [norm_eval],
    gives what it gives on the original modules.  In particular
    [train(False)] after a training phase with frozen statistics puts every
    module in evaluation mode. *)
Theorem train_last_call_wins (ne ne' mode mode' : bool) (m : Module Buf) :
  train ne mode (train ne' mode' m) = train ne mode m /\
  Forall (fun c => m_training c = false)
         (modules (train ne false (train ne' mode' m))).
Proof.
  assert (forall a, Module_train a (train ne' mode' m) = Module_train a m)
    as Hin.
  { intros a. rewrite (train_eq ne' mode'). destruct (mode' && ne').
    - now rewrite Module_train_freeze, Module_train_train.
    - apply Module_train_train. }
  split.
  - rewrite !(train_eq ne mode), !Hin. reflexivity.
  - rewrite (train_eq ne false), Hin. cbn [andb]. apply modules_train_flag.
Qed.

(** X14.  [train] changes training flags and nothing else: for every
    [mode] and [norm_eval] the modules come in the same order, with the
    same classes, [requires_grad] flags and buffers, at the same
    positions. *)
Theorem train_frame (ne mode : bool) (m : Module Buf) :
  map node_data (modules (train ne mode m)) = map node_data (modules m) /\
  module_paths (train ne mode m) = module_paths m.
Proof.
  rewrite train_eq. destruct (mode && ne).
  - rewrite modules_freeze_data, modules_train_data.
    now rewrite module_paths_freeze, module_paths_train.
  - now rewrite modules_train_data, module_paths_train.
Qed.

Lemma freeze_no_BatchNorm (mode : bool) (m : Module Buf) :
  Forall (fun c => isinstance_BatchNorm c = false) (modules m) ->
  freeze_BatchNorm (Module_train mode m) = Module_train mode m.
Proof.
  induction m as [c t g bf ch IH] using Module_tree_ind. intros Hno.
  cbn [modules] in Hno.
  pose proof (Forall_inv Hno) as Hc.
  apply Forall_inv_tail in Hno. apply Forall_flat_map in Hno.
  cbn [Module_train freeze_BatchNorm].
  replace (isinstance_BatchNorm
             (Node c mode g bf (map (Module_train mode) ch)))
    with false by (symmetry; exact Hc).
  f_equal. rewrite map_map. apply map_ext_Forall.
  rewrite Forall_forall in *. intros x Hx. apply IH; auto.
Qed.

(** X15.  When no module of the tree is an instance of [_BatchNorm],
    [norm_eval] has no effect: [train] is [nn.Module.train]. *)
Theorem train_without_BatchNorm (ne mode : bool) (m : Module Buf) :
  Forall (fun c => isinstance_BatchNorm c = false) (modules m) ->
  train ne mode m = Module_train mode m.
Proof.
  intros Hno. rewrite train_eq. destruct mode, ne; cbn [andb]; try reflexivity.
  now apply freeze_no_BatchNorm.
Qed.

End TrainLaws.

(** The network with group normalisation. *)
Lemma train_without_BatchNorm_witness :
  train true true (module_tree 0 group_norm_network)
  = Module_train true (module_tree 0 group_norm_network).
Proof.
  apply train_without_BatchNorm. apply Forall_forall. intros c Hc.
  assert (forallb (fun c => negb (isinstance_BatchNorm c))
                  (modules (module_tree 0 group_norm_network)) = true) as Hall
    by (vm_compute; reflexivity).
  rewrite forallb_forall in Hall. specialize (Hall c Hc).
  now destruct (isinstance_BatchNorm c).
Defined.

(** * A stage with stride 2 *)

(** The blocks of a five-stage network, written out. *)
Lemma five_stage_network_lists (c : Config) (icfg : pyval) :
  c_num_stages c = 5 ->
  let m := built c icfg in
  let b := c_base_channels c in
  let lc := c_layer_cfg c in
  let cp := c_with_cp c in
  let nc i := nth i (c_enc_num_convs c) 0 in
  let st i := nth i (c_strides c) 0 in
  let dl i := nth i (c_enc_dilations c) 0 in
  let c1 i o := [mkConvModule i o 1 1 1 0 (conv_cfg lc) (norm_cfg lc) (act_cfg lc)] in
  effu_c2 m =
    [ [block_of (c_in_channels c) (b * 1) (nc 0%nat) (st 0%nat) (dl 0%nat) cp lc];
      [block_of (b * 1) (b * 2) (nc 1%nat) (st 1%nat) (dl 1%nat) cp lc];
      [block_of (b * 2) (b * 4) (nc 2%nat) (st 2%nat) (dl 2%nat) cp lc];
      [block_of (b * 4) (b * 8) (nc 3%nat) (st 3%nat) (dl 3%nat) cp lc];
      [block_of (b * 8) (b * 16) (nc 4%nat) (st 4%nat) (dl 4%nat) cp lc] ] /\
  effu_c1 m =
    [ c1 (b * 1 + 0) (b * 1);
      c1 (b * 1 + (b * 2 + 0)) (b * 2);
      c1 (b * 1 + (b * 2 + (b * 4 + 0))) (b * 4);
      c1 (b * 1 + (b * 2 + (b * 4 + (b * 8 + 0)))) (b * 8) ] /\
  effu_cbam m =
    [ mkCBAMBlock (b * 1 + 0);
      mkCBAMBlock (b * 1 + (b * 2 + 0));
      mkCBAMBlock (b * 1 + (b * 2 + (b * 4 + 0)));
      mkCBAMBlock (b * 1 + (b * 2 + (b * 4 + (b * 8 + 0)))) ].
Proof.
  intros Hn. cbv zeta.
  cbn [effu_c2 effu_c1 effu_cbam built].
  unfold built_c2, built_c1, built_cbam, enc_channels_of.
  rewrite Hn. repeat split; reflexivity.
Qed.

Lemma run_c2_shape (tr : bool) (ic oc nc st dl : Z) (cp : bool)
    (lc : LayerCfg) (x : Shape) :
  1 <= nc -> 0 < st -> 0 < dl -> 0 < oc ->
  sh_C x = ic -> 0 < sh_H x -> 0 < sh_W x ->
  batch_ok tr (norm_cfg lc) (sh_B x)
           ((sh_H x - 1) / st + 1) ((sh_W x - 1) / st + 1) ->
  @run_c2 Shape (Shape_backend tr) [block_of ic oc nc st dl cp lc] x
  = inr (mkShape (sh_B x) oc ((sh_H x - 1) / st + 1) ((sh_W x - 1) / st + 1)).
Proof.
  intros Hnc Hst Hdl Hoc Hc Hh Hw Hb. unfold run_c2. cbn [Sequential_forward].
  now rewrite block_of_forward_shape.
Qed.

Lemma torch_cat_mismatch (tr : bool) (t : Shape) (rest : list Shape) :
  Exists (fun y => sh_H y <> sh_H t \/ sh_W y <> sh_W t) rest ->
  @torch_cat Shape (Shape_backend tr) (t :: rest)
  = inl (RuntimeError "Sizes of tensors must match except in dimension 1").
Proof.
  intros HE. cbn. unfold shape_cat.
  replace (forallb (same_extent t) rest) with false; [reflexivity |].
  symmetry. apply not_true_iff_false. intros Hall.
  rewrite forallb_forall in Hall. apply Exists_exists in HE.
  destruct HE as (y & Hy & Hd). specialize (Hall y Hy).
  apply same_extent_true in Hall. destruct Hall as (_ & EH & EW).
  destruct Hd; congruence.
Qed.

Lemma outcome_lift_bind_inl {L A B} (r : exn + A) (e : exn) (K : A -> M L B) :
  r = inl e -> outcome (bind (lift r) K) = inl e.
Proof. now intros ->. Qed.

Ltac fwd_cat_fails :=
  erewrite outcome_lift_bind_inl; [reflexivity |];
  apply torch_cat_mismatch; cbn [sh_B sh_C sh_H sh_W].

Section StrideTwo.

Variables (tr : bool) (c : Config) (icfg : pyval) (B H W : Z).
Hypothesis Hn : c_num_stages c = 5.
Hypothesis N0 : 1 <= nth 0 (c_enc_num_convs c) 0.
Hypothesis N1 : 1 <= nth 1 (c_enc_num_convs c) 0.
Hypothesis N2 : 1 <= nth 2 (c_enc_num_convs c) 0.
Hypothesis N3 : 1 <= nth 3 (c_enc_num_convs c) 0.
Hypothesis D0 : 0 < nth 0 (c_enc_dilations c) 0.
Hypothesis D1 : 0 < nth 1 (c_enc_dilations c) 0.
Hypothesis D2 : 0 < nth 2 (c_enc_dilations c) 0.
Hypothesis D3 : 0 < nth 3 (c_enc_dilations c) 0.
Hypothesis Hbc : 0 < c_base_channels c.
Hypothesis HB : 0 < B.
Hypothesis HH : 0 < H.
Hypothesis HW : 0 < W.

Let x : Shape := mkShape B (c_in_channels c) H W.
Let size_error : exn + list Shape :=
  inl (RuntimeError "Sizes of tensors must match except in dimension 1").
Let n : option norm_type := norm_cfg (c_layer_cfg c).

(** Stride 2 in stage 1: the concatenation of level 2 fails. *)
Lemma stride_two_stage_1 :
  nth 0 (c_strides c) 0 = 1 -> nth 1 (c_strides c) 0 = 2 ->
  4 < H \/ 4 < W ->
  outcome (@forward_body Shape (Shape_backend tr) (built c icfg) x) = size_error.
Proof.
  intros S0 S1 Hbig. unfold forward_body, x, size_error.
  assert (batch_ok tr n B (((H - 1) / 2 + 1 - 1) / 2 + 1)
                          (((W - 1) / 2 + 1 - 1) / 2 + 1)) as Hbn
    by (apply batch_ok_big; [lia | dlia | dlia |];
        destruct Hbig; [left | right]; dlia).
  unfold n in Hbn.
  destruct (five_stage_network_lists c icfg Hn) as (-> & -> & ->).
  cbn [pool_2 pool_4 pool_8 pool_16 up_2 built]. rewrite S0, S1.
  fwd_getitem. fwd_call2 run_c2_shape.
  do 3 fwd_getitem.
  fwd_call2 max_pool2d_ceil.
  fwd_call2 cbam_block_same. fwd_call2 run_c1_same. fwd_call2 run_c2_shape.
  do 3 fwd_getitem.
  fwd_call2 max_pool2d_ceil. fwd_call2 max_pool2d_ceil.
  fwd_cat_fails. apply Exists_cons_hd. cbn [sh_B sh_C sh_H sh_W].
  destruct Hbig; [left | right]; dlia.
Qed.

(** Stride 2 in stage 2: the concatenation of level 3 fails. *)
Lemma stride_two_stage_2 :
  nth 0 (c_strides c) 0 = 1 -> nth 1 (c_strides c) 0 = 1 ->
  nth 2 (c_strides c) 0 = 2 ->
  8 < H \/ 8 < W ->
  outcome (@forward_body Shape (Shape_backend tr) (built c icfg) x) = size_error.
Proof.
  intros S0 S1 S2 Hbig. unfold forward_body, x, size_error.
  assert (batch_ok tr n B (((H - 1) / 4 + 1 - 1) / 2 + 1)
                          (((W - 1) / 4 + 1 - 1) / 2 + 1)) as Hbn
    by (apply batch_ok_big; [lia | dlia | dlia |];
        destruct Hbig; [left | right]; dlia).
  unfold n in Hbn.
  destruct (five_stage_network_lists c icfg Hn) as (-> & -> & ->).
  cbn [pool_2 pool_4 pool_8 pool_16 up_2 built]. rewrite S0, S1, S2.
  fwd_getitem. fwd_call2 run_c2_shape.
  do 3 fwd_getitem.
  fwd_call2 max_pool2d_ceil.
  fwd_call2 cbam_block_same. fwd_call2 run_c1_same. fwd_call2 run_c2_shape.
  do 3 fwd_getitem.
  fwd_call2 max_pool2d_ceil. fwd_call2 max_pool2d_ceil. fwd_cat2.
  fwd_call2 cbam_block_same. fwd_call2 run_c1_same. fwd_call2 run_c2_shape.
  do 3 fwd_getitem.
  fwd_call2 max_pool2d_ceil. fwd_call2 max_pool2d_ceil.
  fwd_call2 max_pool2d_ceil.
  fwd_cat_fails. apply Exists_cons_tl, Exists_cons_hd.
  cbn [sh_B sh_C sh_H sh_W].
  destruct Hbig; [left | right]; dlia.
Qed.

(** Stride 2 in stage 3: the concatenation of level 4 fails. *)
Lemma stride_two_stage_3 :
  nth 0 (c_strides c) 0 = 1 -> nth 1 (c_strides c) 0 = 1 ->
  nth 2 (c_strides c) 0 = 1 -> nth 3 (c_strides c) 0 = 2 ->
  16 < H \/ 16 < W ->
  outcome (@forward_body Shape (Shape_backend tr) (built c icfg) x) = size_error.
Proof.
  intros S0 S1 S2 S3 Hbig. unfold forward_body, x, size_error.
  assert (batch_ok tr n B (((H - 1) / 8 + 1 - 1) / 2 + 1)
                          (((W - 1) / 8 + 1 - 1) / 2 + 1)) as Hbn
    by (apply batch_ok_big; [lia | dlia | dlia |];
        destruct Hbig; [left | right]; dlia).
  unfold n in Hbn.
  destruct (five_stage_network_lists c icfg Hn) as (-> & -> & ->).
  cbn [pool_2 pool_4 pool_8 pool_16 up_2 built]. rewrite S0, S1, S2, S3.
  fwd_getitem. fwd_call2 run_c2_shape.
  do 3 fwd_getitem.
  fwd_call2 max_pool2d_ceil.
  fwd_call2 cbam_block_same. fwd_call2 run_c1_same. fwd_call2 run_c2_shape.
  do 3 fwd_getitem.
  fwd_call2 max_pool2d_ceil. fwd_call2 max_pool2d_ceil. fwd_cat2.
  fwd_call2 cbam_block_same. fwd_call2 run_c1_same. fwd_call2 run_c2_shape.
  do 3 fwd_getitem.
  fwd_call2 max_pool2d_ceil. fwd_call2 max_pool2d_ceil.
  fwd_call2 max_pool2d_ceil. fwd_cat2.
  fwd_call2 cbam_block_same. fwd_call2 run_c1_same. fwd_call2 run_c2_shape.
  do 3 fwd_getitem.
  fwd_call2 max_pool2d_ceil. fwd_call2 max_pool2d_ceil.
  fwd_call2 max_pool2d_ceil. fwd_call2 max_pool2d_ceil.
  fwd_cat_fails. do 2 apply Exists_cons_tl. apply Exists_cons_hd.
  cbn [sh_B sh_C sh_H sh_W].
  destruct Hbig; [left | right]; dlia.
Qed.

End StrideTwo.

(** X16.  In a constructed five-stage network of plain layers with at
    least one convolution and a positive dilation per encoder stage and
    positive channel counts, let stage [i] of 1, 2 or 3 be the first with
    stride 2 (the earlier ones have stride 1).  The fusion block of level
    [i + 1] still pools the earlier outputs by the fixed factors, so on
    every input of [in_channels] channels whose height or width exceeds
    [2^(i+1)] its concatenation fails with the size error and the forward
    pass returns nothing, in training and in evaluation mode. *)
Theorem stride_two_breaks_fusion {lib : Library} (training : bool) (c : Config)
    (w : list warning) (m : AMDNet_EFFU) (i : nat) (B H W : Z) :
  AMDNet_EFFU_init c = (w, inr m) ->
  c_num_stages c = 5 ->
  Forall (fun n => 1 <= n) (c_enc_num_convs c) ->
  Forall (fun d => 0 < d) (c_enc_dilations c) ->
  plain_layers (c_layer_cfg c) ->
  0 < c_in_channels c -> 0 < c_base_channels c ->
  (1 <= i <= 3)%nat ->
  nth i (c_strides c) 0 = 2 ->
  (forall j, (j < i)%nat -> nth j (c_strides c) 0 = 1) ->
  0 < B -> 0 < H -> 0 < W ->
  2 ^ (Z.of_nat i + 1) < H \/ 2 ^ (Z.of_nat i + 1) < W ->
  outcome (@forward_body Shape (Shape_backend training) m
             (mkShape B (c_in_channels c) H W))
  = inl (RuntimeError "Sizes of tensors must match except in dimension 1") /\
  fails (@forward Shape (Shape_backend training) m
           (mkShape B (c_in_channels c) H W)).
Proof.
  intros E Hn Hnc Hdl _ _ Hbc Hi Si Sj HB HH HW Hbig.
  apply AMDNet_EFFU_init_inr in E. destruct E as (icfg & _ & _ & _ & F & ->).
  apply first_wrong_length_None in F. destruct F as (_ & Hlen & _ & _ & Hlend & _).
  rewrite Hn in Hlen, Hlend. unfold len in Hlen, Hlend.
  assert (1 <= nth 0 (c_enc_num_convs c) 0) as N0 by (apply Forall_nth_Z; auto; lia).
  assert (1 <= nth 1 (c_enc_num_convs c) 0) as N1 by (apply Forall_nth_Z; auto; lia).
  assert (1 <= nth 2 (c_enc_num_convs c) 0) as N2 by (apply Forall_nth_Z; auto; lia).
  assert (1 <= nth 3 (c_enc_num_convs c) 0) as N3 by (apply Forall_nth_Z; auto; lia).
  assert (0 < nth 0 (c_enc_dilations c) 0) as D0
    by (apply (Forall_nth_Z (fun d => 0 < d)); auto; lia).
  assert (0 < nth 1 (c_enc_dilations c) 0) as D1
    by (apply (Forall_nth_Z (fun d => 0 < d)); auto; lia).
  assert (0 < nth 2 (c_enc_dilations c) 0) as D2
    by (apply (Forall_nth_Z (fun d => 0 < d)); auto; lia).
  assert (0 < nth 3 (c_enc_dilations c) 0) as D3
    by (apply (Forall_nth_Z (fun d => 0 < d)); auto; lia).
  assert (outcome (@forward_body Shape (Shape_backend training) (built c icfg)
                     (mkShape B (c_in_channels c) H W))
          = inl (RuntimeError "Sizes of tensors must match except in dimension 1"))
    as Hb.
  { destruct i as [| [| [| [| i]]]]; try lia.
    - apply stride_two_stage_1; auto.
    - apply stride_two_stage_2; auto.
    - apply stride_two_stage_3; auto. }
  split; [exact Hb |]. apply fails_forward_body. eexists. exact Hb.
Qed.

(** The default configuration with [strides = (1, 2, 1, 1, 1)] on a
    64 x 64 input, in training mode. *)
Lemma stride_two_breaks_fusion_witness :
  outcome (@forward_body Shape (Shape_backend true)
             (built stride_two_config default_init_cfg) (mkShape 2 3 64 64))
  = inl (RuntimeError "Sizes of tensors must match except in dimension 1") /\
  fails (@forward Shape (Shape_backend true)
           (built stride_two_config default_init_cfg) (mkShape 2 3 64 64)).
Proof.
  assert (Forall (fun n => 1 <= n) (c_enc_num_convs stride_two_config)) as Hnc
    by (repeat constructor; lia).
  assert (Forall (fun d => 0 < d) (c_enc_dilations stride_two_config)) as Hdl
    by (repeat constructor; lia).
  assert (plain_layers (c_layer_cfg stride_two_config)) as Hpl
    by (split; [reflexivity | now left]).
  assert ((1 <= 1 <= 3)%nat) as Hi by lia.
  assert (forall j, (j < 1)%nat -> nth j (c_strides stride_two_config) 0 = 1)
    as Sj by (intros [| j] Hj; [reflexivity | lia]).
  assert (0 < 2) as H2 by lia. assert (0 < 3) as H3 by lia.
  assert (0 < 64) as H64 by lia.
  assert (2 ^ (Z.of_nat 1 + 1) < 64 \/ 2 ^ (Z.of_nat 1 + 1) < 64) as Hbig
    by (left; cbn; lia).
  exact (stride_two_breaks_fusion (lib := Torch_library) true stride_two_config
           [] (built stride_two_config default_init_cfg) 1 2 64 64
           eq_refl eq_refl Hnc Hdl Hpl H3 H64 Hi eq_refl Sj H2 H64 H64 Hbig).
Defined.

(** * A block without convolutions *)

(** X17.  A [BasicConvBlock] built with [num_convs <= 0] has no
    convolution, and its forward pass returns the input as it is, for
    every tensor library. *)
Theorem BasicConvBlock_empty {lib : Library} {L} (in_channels out_channels : Z)
    (num_convs stride dilation : Z) (with_cp : bool) (lc : LayerCfg)
    (dcn plugins : pyval) (l : list L) (blk : BasicConvBlock) :
  BasicConvBlock_init in_channels out_channels num_convs stride dilation
                      with_cp lc dcn plugins = (l, inr blk) ->
  num_convs <= 0 ->
  bcb_convs blk = [] /\
  forall T (B : Backend T) (x : T), BasicConvBlock_forward blk x = inr x.
Proof.
  intros E Hn. apply BasicConvBlock_init_inr in E.
  destruct E as (_ & _ & _ & ->).
  assert (range num_convs = []) as Hr.
  { unfold range. replace (Z.to_nat num_convs) with 0%nat by lia. reflexivity. }
  cbn [bcb_convs]. rewrite Hr. split; [reflexivity |].
  intros T B x. unfold BasicConvBlock_forward, checkpoint.
  cbn [bcb_convs bcb_with_cp Sequential_forward]. now destruct (_ && _).
Qed.

(** No convolution at all: a shape of the wrong channel count passes. *)
Lemma BasicConvBlock_empty_witness :
  BasicConvBlock_forward
    (block_of 3 64 0 1 1 false (mkLayerCfg PyNone (Some BN) (Some ReLU)))
    (mkShape 1 7 5 5)
  = inr (mkShape 1 7 5 5).
Proof.
  assert (0 <= 0) as H0 by lia.
  exact (proj2 (BasicConvBlock_empty (lib := Torch_library) (L := unit) 3 64 0 1 1 false
                  (mkLayerCfg PyNone (Some BN) (Some ReLU)) PyNone PyNone []
                  _ eq_refl H0) Shape (Shape_backend true) (mkShape 1 7 5 5)).
Defined.

(** * The lookups of five stages *)

Lemma no_IndexError_bind {L A B} (m : M L A) (f : A -> M L B) :
  no_IndexError m -> (forall a, no_IndexError (f a)) -> no_IndexError (bind m f).
Proof.
  intros Hm Hf name i. rewrite outcome_bind.
  destruct (outcome m) as [e | a] eqn:E.
  - specialize (Hm name i). congruence.
  - apply Hf.
Qed.

Lemma no_IndexError_getitem {L A} (name : string) (l : list A) (i : Z) :
  0 <= i < len l -> no_IndexError (@getitem L A name l i).
Proof.
  intros Hi n j. unfold getitem.
  destruct (nth_error l (Z.to_nat i)) eqn:E; [discriminate |].
  apply nth_error_None in E. unfold len in Hi. lia.
Qed.

Lemma no_IndexError_call {T} (ev : submodule) (f : T -> exn + T) (x : T) :
  (forall name i, f x <> inl (IndexError name i)) -> no_IndexError (call ev f x).
Proof.
  intros Hf name i. unfold call, tell, lift, outcome. cbn.
  destruct (f x) eqn:E; [| discriminate]. specialize (Hf name i). congruence.
Qed.

Lemma no_IndexError_lift {L A} (r : exn + A) :
  (forall name i, r <> inl (IndexError name i)) -> @no_IndexError L A (lift r).
Proof. intros Hr name i. apply Hr. Qed.

Lemma Sequential_forward_no_IndexError {A T} (run : A -> T -> exn + T)
    (layers : list A) (x : T) :
  (forall a y name i, run a y <> inl (IndexError name i)) ->
  forall name i, Sequential_forward run layers x <> inl (IndexError name i).
Proof.
  intros Hrun. revert x. induction layers as [| a layers IH]; intros x name i;
    cbn [Sequential_forward]; [discriminate |].
  destruct (run a x) eqn:E; [| apply IH].
  specialize (Hrun a x name i). congruence.
Qed.

Lemma BasicConvBlock_forward_no_IndexError {T} (B : Backend T)
    (blk : BasicConvBlock) (x : T) :
  index_safe B ->
  forall name i, BasicConvBlock_forward blk x <> inl (IndexError name i).
Proof.
  intros (Hc & _) name i. unfold BasicConvBlock_forward, checkpoint.
  destruct (_ && _); now apply Sequential_forward_no_IndexError.
Qed.

(** X18.  A constructed network of at least five stages never ends a
    forward pass in an index error, on a tensor library whose operators
    raise none: every lookup in the module lists succeeds. *)
Theorem five_stages_no_IndexError {lib : Library} {T} (B : Backend T) (c : Config)
    (w : list warning) (m : AMDNet_EFFU) (x : T) :
  index_safe B ->
  AMDNet_EFFU_init c = (w, inr m) ->
  5 <= c_num_stages c ->
  no_IndexError (forward m x).
Proof.
  intros HB E Hn.
  pose proof (whole_downsample_rate_built c w m E) as Hrate.
  apply AMDNet_EFFU_init_inr in E. destruct E as (icfg & _ & _ & _ & _ & ->).
  destruct (built_lengths c icfg ltac:(lia)) as (L2 & L1 & Lc & Ld).
  pose proof HB as (Hconv & Hcbam & Hpool & Hup & Hcat).
  unfold forward. apply no_IndexError_bind.
  { unfold _check_input_divisible. rewrite Hrate, bind_ret_l.
    intros name i. unfold py_assert. destruct (_ && _); discriminate. }
  intros _. unfold forward_body.
  repeat first
    [ apply no_IndexError_bind;
      [ first
          [ apply no_IndexError_getitem; lia
          | apply no_IndexError_call;
            first [ apply Hpool | apply Hcbam | apply Hup
                  | apply BasicConvBlock_forward_no_IndexError; exact HB
                  | apply Sequential_forward_no_IndexError; apply Hconv
                  | apply Sequential_forward_no_IndexError; intros;
                    apply BasicConvBlock_forward_no_IndexError; exact HB ]
          | apply no_IndexError_lift; apply Hcat ]
      | intro ]
    | (intros name i; discriminate) ].
Qed.

Lemma pool_out_error (size k s : Z) (cm : bool) (e : exn) :
  pool_out size k s cm = inl e -> exists msg, e = RuntimeError msg.
Proof.
  unfold pool_out. destruct (_ || _); [intros [= <-]; eauto |].
  destruct (_ <=? 0); [intros [= <-]; eauto | discriminate].
Qed.

Lemma shape_conv_module_error (tr : bool) (cm : ConvModule) (x : Shape)
    (e : exn) :
  shape_conv_module tr cm x = inl e ->
  exists msg, e = RuntimeError msg \/ e = ValueError msg.
Proof.
  unfold shape_conv_module, shape_conv2d, shape_norm, shape_batch_norm.
  repeat match goal with
         | |- context [if ?b then _ else _] => destruct b
         | |- context [match ?n with Some _ => _ | None => _ end] => destruct n
         | |- context [match ?n with BN => _ | _ => _ end] => destruct n
         end; cbn; intros [= <-] || discriminate; eauto.
Qed.

Lemma Shape_backend_index_safe (tr : bool) : index_safe (Shape_backend tr).
Proof.
  unfold index_safe. cbn [conv_module cbam_block max_pool2d upsample torch_cat
                          Shape_backend].
  repeat split.
  - intros cm x name i E. apply shape_conv_module_error in E.
    destruct E as [msg [E | E]]; discriminate E.
  - intros g x name i. unfold shape_cbam_block. destruct (_ =? _); discriminate.
  - intros p x name i. unfold shape_max_pool2d.
    destruct (pool_out (sh_H x) _ _ _) eqn:E1.
    + apply pool_out_error in E1. destruct E1 as [msg ->]. discriminate.
    + destruct (pool_out (sh_W x) _ _ _) eqn:E2; [| discriminate].
      apply pool_out_error in E2. destruct E2 as [msg ->]. discriminate.
  - intros u x name i. discriminate.
  - intros ts name i. unfold shape_cat. destruct ts; [discriminate |].
    destruct (forallb _ _); discriminate.
Qed.

(** Six stages on shapes: a 3 x 3 input is refused, without an index
    error. *)
Lemma five_stages_no_IndexError_witness :
  no_IndexError (@forward Shape (Shape_backend true) six_stage_network
                   (mkShape 1 3 3 3)).
Proof.
  assert (5 <= c_num_stages (uniform_config 3 64 6)) as Hn by (cbn; lia).
  exact (five_stages_no_IndexError (lib := Torch_library) (Shape_backend true)
           (uniform_config 3 64 6) []
           six_stage_network (mkShape 1 3 3 3) (Shape_backend_index_safe true)
           eq_refl Hn).
Defined.

(** * The deprecation warning *)

(** X19.  [__init__] emits the deprecation warning exactly when
    [pretrained] is a string and the assertion on [init_cfg] and
    [pretrained] has not fired, whether or not a later check then fails; it
    emits no other warning. *)
Theorem deprecation_warning_iff {lib : Library} (c : Config) :
  log_of (AMDNet_EFFU_init c) =
  if negb (truthy (c_init_cfg c) && truthy (c_pretrained c))
     && isinstance_str (c_pretrained c)
  then [Warn_pretrained_deprecated] else [].
Proof.
  unfold AMDNet_EFFU_init.
  destruct (truthy (c_init_cfg c) && truthy (c_pretrained c)) eqn:Ht.
  - now rewrite init_cfg_of_assert.
  - rewrite init_cfg_of_pass by exact Ht. cbn [negb andb].
    pose proof (check_and_build_log c) as Hrest.
    destruct (isinstance_str (c_pretrained c)).
    + specialize (Hrest (PyDict [("type"%string, PyStr "Pretrained");
                                 ("checkpoint"%string, c_pretrained c)])).
      unfold log_of in *. cbn [bind].
      destruct (check_lengths c ;; build_blocks c _) as [l r].
      cbn in *. now subst l.
    + destruct (is_None (c_pretrained c)); [| reflexivity].
      rewrite bind_ret_l. apply Hrest.
Qed.
